(** * friendly-time: the time-expression parser of [time_parse.go]

    A shallow embedding of the parsing pipeline of the Go package
    [friendlytime] (unit normalisation, the single-time cascade and the
    range splitter), together with the parts of the Go standard library
    the pipeline calls ([strings], [strconv], [fmt], [time]).

    Conventions of the model.
    - A Go [string] is a sequence of bytes; it is modelled by [string],
      one [ascii] per byte.  Case mapping and white-space classification
      are those Go applies to ASCII text.  Go reads the bytes above 127
      as UTF-8 (a no-break space is white space, a Kelvin sign lowers
      to k); the model leaves them alone, and is exact on ASCII text
      ([asciiText]).
    - Go [int], [int64] are [Z]; where the source can overflow the
      wrap-around is written out ([wrap64]).
    - A function returning [(T, error)] returns [result T].
    - The wall clock read by [time.Now()] is an explicit argument.
    - A time zone is read through its rules: the offset in force at an
      instant and the period it is in force ([time.Location_lookup]). *)

From Stdlib Require Import ZArith List String Ascii Bool Lia.
From Stdlib Require Import DecimalString DecimalPos.
From Stdlib Require Import Floats.
Import ListNotations.

Local Open Scope string_scope.
Local Open Scope Z_scope.

(** ** Machine integers *)

Definition minInt64 : Z := - 2 ^ 63.
Definition maxInt64 : Z := 2 ^ 63 - 1.

(** Two's-complement reduction of a mathematical integer to [int64]. *)
Definition wrap64 (z : Z) : Z := (z + 2 ^ 63) mod 2 ^ 64 - 2 ^ 63.

(** ** Bytes and byte strings *)

Definition code (c : ascii) : Z := Z.of_N (N_of_ascii c).

Definition ofCode (z : Z) : ascii := ascii_of_N (Z.to_N z).

Definition isDigit (c : ascii) : bool := (48 <=? code c) && (code c <=? 57).

Definition digitVal (c : ascii) : Z := code c - 48.

(** [unicode.IsSpace] on ASCII: tab, line feed, vertical tab, form feed,
    carriage return and space. *)
Definition isSpace (c : ascii) : bool :=
  ((9 <=? code c) && (code c <=? 13)) || (code c =? 32).

Definition len (s : string) : Z := Z.of_nat (String.length s).

Fixpoint take (n : nat) (s : string) : string :=
  match n, s with
  | S n', String c s' => String c (take n' s')
  | _, _ => ""
  end.

Fixpoint drop (n : nat) (s : string) : string :=
  match n, s with
  | S n', String _ s' => drop n' s'
  | _, _ => s
  end.

(** The slices [s[:i]] and [s[i:]]. *)
Definition sliceTo (s : string) (i : Z) : string := take (Z.to_nat i) s.
Definition sliceFrom (s : string) (i : Z) : string := drop (Z.to_nat i) s.

(** The byte [s[i]], when [i] is in range. *)
Definition byteAt (s : string) (i : Z) : option ascii :=
  match sliceFrom s i with
  | String c _ => if i <? 0 then None else Some c
  | "" => None
  end.

Definition isEmpty (s : string) : bool :=
  match s with "" => true | _ => false end.

(** ** Package [strings] *)

Module strings.

Fixpoint HasPrefix (s pre : string) {struct pre} : bool :=
  match pre, s with
  | "", _ => true
  | String p pre', String c s' => Ascii.eqb c p && HasPrefix s' pre'
  | String _ _, "" => false
  end.

(** Position of the first occurrence of [sub] in [s], [-1] if none. *)
Fixpoint Index (s sub : string) : Z :=
  if HasPrefix s sub then 0
  else match s with
       | "" => -1
       | String _ s' =>
           let i := Index s' sub in
           if i <? 0 then -1 else i + 1
       end.

Definition Contains (s sub : string) : bool := 0 <=? Index s sub.

Definition lower (c : ascii) : ascii :=
  if (65 <=? code c) && (code c <=? 90) then ofCode (code c + 32) else c.

Fixpoint ToLower (s : string) : string :=
  match s with
  | "" => ""
  | String c s' => String (lower c) (ToLower s')
  end.

Fixpoint trimLeft (s : string) : string :=
  match s with
  | String c s' => if isSpace c then trimLeft s' else s
  | "" => ""
  end.

Fixpoint trimRight (s : string) : string :=
  match s with
  | "" => ""
  | String c s' =>
      let r := trimRight s' in
      if isSpace c && isEmpty r then "" else String c r
  end.

Definition TrimSpace (s : string) : string := trimRight (trimLeft s).

Definition TrimPrefix (s pre : string) : string :=
  if HasPrefix s pre then drop (String.length pre) s else s.

(** [Replace(s, old, new, 1)]: the first occurrence only. *)
Fixpoint ReplaceFirst (s old new : string) : string :=
  if HasPrefix s old then new ++ drop (String.length old) s
  else match s with
       | "" => ""
       | String c s' => String c (ReplaceFirst s' old new)
       end.

(** [ReplaceAll(s, old, new)] for a non-empty [old]; [skip] counts the
    bytes of a matched occurrence still to be passed over. *)
Fixpoint replaceAllFrom (skip : nat) (s old new : string) : string :=
  match s with
  | "" => ""
  | String c s' =>
      match skip with
      | S k => replaceAllFrom k s' old new
      | O =>
          if HasPrefix s old
          then new ++ replaceAllFrom (String.length old - 1) s' old new
          else String c (replaceAllFrom O s' old new)
      end
  end.

Definition ReplaceAll (s old new : string) : string :=
  replaceAllFrom O s old new.

(** [Split(s, sep)] for a non-empty [sep]: the piece being read and the
    pieces after it. *)
Fixpoint splitFrom (skip : nat) (s sep : string) : string * list string :=
  match s with
  | "" => ("", [])
  | String c s' =>
      match skip with
      | S k => splitFrom k s' sep
      | O =>
          if HasPrefix s sep
          then let (p, ps) := splitFrom (String.length sep - 1) s' sep in
               ("", p :: ps)
          else let (p, ps) := splitFrom O s' sep in
               (String c p, ps)
      end
  end.

Definition Split (s sep : string) : list string :=
  let (p, ps) := splitFrom O s sep in p :: ps.

(** [Fields(s)]: the maximal runs of non-space bytes. *)
Fixpoint Fields (s : string) : list string :=
  match s with
  | "" => []
  | String c s' =>
      if isSpace c then Fields s'
      else match s' with
           | "" => [String c ""]
           | String c' _ =>
               if isSpace c' then String c "" :: Fields s'
               else match Fields s' with
                    | w :: ws => String c w :: ws
                    | [] => [String c ""]
                    end
           end
  end.

Fixpoint Join (l : list string) (sep : string) : string :=
  match l with
  | [] => ""
  | [w] => w
  | w :: ws => w ++ sep ++ Join ws sep
  end.

End strings.

(** ** Package [strconv] *)

Module strconv.

(** Value of a run of decimal digits; [None] on any other byte. *)
Fixpoint digitsValue (acc : Z) (s : string) : option Z :=
  match s with
  | "" => Some acc
  | String c s' =>
      if isDigit c then digitsValue (acc * 10 + digitVal c) s' else None
  end.

(** [ParseInt(s, 10, 64)]: an optional sign, at least one digit, nothing
    else, and a value that fits [int64].  [None] stands for a non-nil error. *)
Definition ParseInt (s : string) : option Z :=
  let '(neg, body) :=
    match s with
    | String "-" r => (true, r)
    | String "+" r => (false, r)
    | _ => (false, s)
    end in
  if isEmpty body then None
  else match digitsValue 0 body with
       | None => None
       | Some u =>
           if neg
           then if u <=? 2 ^ 63 then Some (- u) else None
           else if u <? 2 ^ 63 then Some u else None
       end.

End strconv.

(** ** Package [fmt] *)

Module fmt.

(** [Sprintf("%d", n)]. *)
Definition itoa (n : Z) : string := NilZero.string_of_int (Z.to_int n).

(** The scanner's [SkipSpace] outside line mode: spaces are passed over,
    a line feed is an error. *)
Fixpoint skipSpace (s : string) : option string :=
  match s with
  | "" => Some ""
  | String c s' =>
      if code c =? 10 then None
      else if isSpace c then skipSpace s'
      else Some s
  end.

Fixpoint digitRun (s : string) : string :=
  match s with
  | String c s' => if isDigit c then String c (digitRun s') else ""
  | "" => ""
  end.

(** The number of operands stored by [Sscanf(s, "%d" ++ lit, &amount)]
    is one exactly when the leading integer scans; the literal text after
    the verb can only add an error, which the callers discard.  [Some a]
    is [n == 1] with [amount = a]; [None] is [n == 0]. *)
Definition Sscanf_d (s : string) : option Z :=
  match skipSpace s with
  | None => None
  | Some r =>
      let '(sign, body) :=
        match r with
        | String "-" b => ("-", b)
        | String "+" b => ("+", b)
        | _ => ("", r)
        end in
      let ds := digitRun body in
      if isEmpty ds then None else strconv.ParseInt (sign ++ ds)
  end.

End fmt.

(** ** Errors *)

(** The error values of [errors.go], the two wrappers ParseTimeRange puts
    around the cause ([%w: %v]), the weekday error with the offending name,
    the wrapper ["failed to convert custom units: %w"] of [ParseTime], and
    the error [time.ParseDuration] returns on a text. *)
Inductive error : Type :=
| ErrInvalidTimeFormat
| ErrInvalidTimeRange
| ErrInvalidStartTime (cause : error)
| ErrInvalidEndTime (cause : error)
| ErrInvalidWeekday (name : string)
| ErrEndBeforeStart
| ErrConvertUnits (cause : error)
| ErrDuration (text : string).

(** A pair [(value, error)] with a nil or a non-nil error. *)
Inductive result (A : Type) : Type :=
| Ok (a : A)
| Err (e : error).

Arguments Ok {A} a.
Arguments Err {A} e.

(** ** The unit normaliser *)

Record unitConversion : Type := { patterns : list string; toHours : Z }.

(** The element type of [simpleTimeUnits], unnamed in the source; its
    field [patterns] is [simplePatterns] here. *)
Record simpleUnit : Type := { simplePatterns : list string; to : string }.

Definition timeUnitsToHours : list unitConversion :=
  [ {| patterns := ["years"; "year"]; toHours := 8760 |};
    {| patterns := ["months"; "month"]; toHours := 720 |};
    {| patterns := ["days"; "day"]; toHours := 24 |} ].

Definition simpleTimeUnits : list simpleUnit :=
  [ {| simplePatterns := ["seconds"; "second"; "sec"]; to := "s" |};
    {| simplePatterns := ["minutes"; "minute"; "min"]; to := "m" |};
    {| simplePatterns := ["hours"; "hour"]; to := "h" |} ].

Definition reservedKeywords : list string :=
  [ "sunday"; "monday"; "tuesday"; "wednesday"; "thursday"; "friday";
    "saturday"; "yesterday"; "last week"; "last month"; "last year" ].

Definition isLetter (c : ascii) : bool :=
  ((97 <=? code c) && (code c <=? 122)) || ((65 <=? code c) && (code c <=? 90)).

(** The guard [endIdx >= len(timeStr) || !isLetter(rune(timeStr[endIdx]))]. *)
Definition unitEndsAt (timeStr : string) (endIdx : Z) : bool :=
  (len timeStr <=? endIdx)
  || match byteAt timeStr endIdx with
     | Some c => negb (isLetter c)
     | None => false
     end.

(** The first result of a [for ... range] loop that returns from its
    body on a match. *)
Fixpoint firstMatch {A B : Type} (f : A -> option B) (l : list A) : option B :=
  match l with
  | [] => None
  | a :: l' => match f a with Some b => Some b | None => firstMatch f l' end
  end.

(** One of the two blocks of [tryConvertUnit]: [needle] is the pattern,
    with or without the leading space. *)
Definition convertUnitAt (timeStr needle : string) (toHours : Z)
  : option string :=
  let idx := strings.Index timeStr needle in
  if 0 <? idx then
    match fmt.Sscanf_d (sliceTo timeStr idx) with
    | Some amount =>
        if 0 <=? amount then
          let endIdx := idx + len needle in
          if unitEndsAt timeStr endIdx then
            let hours := wrap64 (amount * toHours) in
            let suffix :=
              if endIdx <? len timeStr then sliceFrom timeStr endIdx else "" in
            Some (fmt.itoa hours ++ "h" ++ suffix)
          else None
        else None
    | None => None
    end
  else None.

Definition tryConvertUnit (timeStr pattern : string) (toHours : Z)
  : option string :=
  match convertUnitAt timeStr (" " ++ pattern) toHours with
  | Some r => Some r
  | None => convertUnitAt timeStr pattern toHours
  end.

(** One of the two blocks of [tryConvertSimpleUnit]. *)
Definition convertSimpleUnitAt (timeStr needle to : string) : option string :=
  let idx := strings.Index timeStr needle in
  if 0 <? idx then
    match fmt.Sscanf_d (sliceTo timeStr idx) with
    | Some amount =>
        if 0 <=? amount then
          let endIdx := idx + len needle in
          if unitEndsAt timeStr endIdx then
            let suffix :=
              if endIdx <? len timeStr then sliceFrom timeStr endIdx else "" in
            Some (fmt.itoa amount ++ to ++ suffix)
          else None
        else None
    | None => None
    end
  else None.

Definition tryConvertSimpleUnit (timeStr pattern to : string) : option string :=
  match convertSimpleUnitAt timeStr (" " ++ pattern) to with
  | Some r => Some r
  | None => convertSimpleUnitAt timeStr pattern to
  end.

(** [tryConvertShortForm]; the empty string is the source's "no match". *)
Definition tryConvertShortForm (timeStr shortForm : string) (toHours : Z)
  (longForm : string) : string :=
  if negb (strings.Contains timeStr shortForm)
     || strings.Contains timeStr longForm
  then ""
  else
    match fmt.Sscanf_d timeStr with
    | Some amount =>
        if 0 <=? amount then
          let target := fmt.itoa amount ++ shortForm in
          let idx := strings.Index timeStr target in
          if 0 <=? idx then
            let endIdx := idx + len target in
            if unitEndsAt timeStr endIdx then
              let hours := wrap64 (amount * toHours) in
              strings.ReplaceFirst timeStr target (fmt.itoa hours ++ "h")
            else ""
          else ""
        else ""
    | None => ""
    end.

Definition hasReservedKeyword (timeStr : string) : bool :=
  let lowerTimeStr := strings.ToLower timeStr in
  existsb (fun keyword => strings.Contains lowerTimeStr keyword)
    reservedKeywords.

Definition convertCustomUnits (timeStr : string) : result string :=
  if hasReservedKeyword timeStr then Ok timeStr
  else
    match
      firstMatch
        (fun conv =>
           firstMatch (fun pattern => tryConvertUnit timeStr pattern (toHours conv))
             (patterns conv))
        timeUnitsToHours
    with
    | Some converted => Ok converted
    | None =>
        let d := tryConvertShortForm timeStr "d" 24 "day" in
        if negb (isEmpty d) then Ok d
        else
          let y := tryConvertShortForm timeStr "y" 8760 "year" in
          if negb (isEmpty y) then Ok y
          else
            match
              firstMatch
                (fun conv =>
                   firstMatch
                     (fun pattern => tryConvertSimpleUnit timeStr pattern (to conv))
                     (simplePatterns conv))
                simpleTimeUnits
            with
            | Some converted => Ok converted
            | None => Ok timeStr
            end
    end.

(** ** Package [time] *)

Module time.

(** *** Durations *)

(** A [Duration] is an [int64] count of nanoseconds. *)
Definition Duration : Type := Z.

Definition Second : Duration := 1000000000.
Definition Minute : Duration := 60 * Second.
Definition Hour : Duration := 60 * Minute.

Definition unitMap (u : string) : option Z :=
  if String.eqb u "ns" then Some 1
  else if String.eqb u "us" then Some 1000
  else if String.eqb u (String (ofCode 194) (String (ofCode 181) "s"))
  then Some 1000
  else if String.eqb u (String (ofCode 206) (String (ofCode 188) "s"))
  then Some 1000
  else if String.eqb u "ms" then Some 1000000
  else if String.eqb u "s" then Some Second
  else if String.eqb u "m" then Some Minute
  else if String.eqb u "h" then Some Hour
  else None.

(** [leadingInt]: the leading digits as a [uint64] no larger than [2^63]. *)
Fixpoint leadingInt (x : Z) (s : string) : option (Z * string) :=
  match s with
  | String c s' =>
      if isDigit c then
        if 2 ^ 63 / 10 <? x then None
        else
          let x' := x * 10 + digitVal c in
          if 2 ^ 63 <? x' then None else leadingInt x' s'
      else Some (x, s)
  | "" => Some (x, "")
  end.

(** [leadingFraction]: digits after the point; further digits are dropped
    once the value would overflow. *)
Fixpoint leadingFraction (x : Z) (scale : float) (overflow : bool)
  (s : string) : Z * float * string :=
  match s with
  | String c s' =>
      if isDigit c then
        if overflow then leadingFraction x scale true s'
        else if (2 ^ 63 - 1) / 10 <? x then leadingFraction x scale true s'
        else
          let y := x * 10 + digitVal c in
          if 2 ^ 63 <? y then leadingFraction x scale true s'
          else leadingFraction y (scale * 10)%float false s'
      else (x, scale, s)
  | "" => (x, scale, "")
  end.

(** The conversions [float64(x)] of a non-negative integer up to [2^63]
    and [uint64(f)] of a non-negative finite float.  Primitive integers
    have 63 bits, so [2^63] itself is converted as twice [2^62]. *)
Definition toFloat (x : Z) : float :=
  if x <? 2 ^ 63 then PrimFloat.of_uint63 (Uint63.of_Z x)
  else (PrimFloat.of_uint63 (Uint63.of_Z (x / 2)) * 2)%float.

Definition truncate (f : float) : Z :=
  match Prim2SF f with
  | SpecFloat.S754_finite false m e =>
      if 0 <=? e then Z.pos m * 2 ^ e else Z.pos m / 2 ^ (- e)
  | _ => 0
  end.

(** The unit name: the bytes up to the next digit or point. *)
Fixpoint unitRun (s : string) : string * string :=
  match s with
  | String c s' =>
      if (code c =? 46) || isDigit c then ("", s)
      else let (u, r) := unitRun s' in (String c u, r)
  | "" => ("", "")
  end.

(** The optional point and fraction at the front of [s]: the digits
    after the point, their scale, the rest of the text and whether any
    digit was read. *)
Definition fractionPart (s : string) : Z * float * string * bool :=
  match s with
  | String c r =>
      if code c =? 46 then
        let '(f, scale, rest) := leadingFraction 0 1%float false r in
        (f, scale, rest, negb (len r =? len rest))
      else (0, 1%float, s, false)
  | "" => (0, 1%float, s, false)
  end.

(** One turn of the loop of [ParseDuration]: a number, an optional
    fraction and a unit are read from the front of [s] and added to the
    sum [d], a [uint64]; the new sum and the rest of the text. *)
Definition durationGroup (d : Z) (s : string) : option (Z * string) :=
  match s with
  | "" => None
  | String c0 _ =>
      if negb ((code c0 =? 46) || isDigit c0) then None
      else
        match leadingInt 0 s with
        | None => None
        | Some (v, s1) =>
            let pre := negb (len s =? len s1) in
            let '(f, scale, s2, post) := fractionPart s1 in
            if negb pre && negb post then None
            else
              let (u, s3) := unitRun s2 in
              if isEmpty u then None
              else
                match unitMap u with
                | None => None
                | Some unit =>
                    if 2 ^ 63 / unit <? v then None
                    else
                      let v1 := v * unit in
                      let v2 :=
                        if 0 <? f
                        then v1 + truncate (toFloat f * (toFloat unit / scale))%float
                        else v1 in
                      if (0 <? f) && (2 ^ 63 <? v2) then None
                      else
                        let d' := (d + v2) mod 2 ^ 64 in
                        if 2 ^ 63 <? d' then None else Some (d', s3)
                end
        end
  end.

(** The loop itself, until the text is used up.  [fuel] bounds the number
    of turns; every turn consumes at least one byte, so the length of the
    text is enough. *)
Fixpoint durationGroups (fuel : nat) (d : Z) (s : string) : option Z :=
  match s with
  | "" => Some d
  | String _ _ =>
      match fuel with
      | O => None
      | S fuel' =>
          match durationGroup d s with
          | None => None
          | Some (d', rest) => durationGroups fuel' d' rest
          end
      end
  end.

(** [ParseDuration]; [None] stands for a non-nil error. *)
Definition ParseDuration (s : string) : option Duration :=
  let '(neg, body) :=
    match s with
    | String "-" r => (true, r)
    | String "+" r => (false, r)
    | _ => (false, s)
    end in
  if String.eqb body "0" then Some 0
  else if isEmpty body then None
  else
    match durationGroups (String.length body) 0 body with
    | None => None
    | Some d =>
        if neg then Some (wrap64 (- d))
        else if 2 ^ 63 - 1 <? d then None
        else Some d
    end.

(** *** Instants *)

(** The bounds of the instants a zone speaks of. *)
Definition alpha : Z := - 2 ^ 63.
Definition omega : Z := 2 ^ 63 - 1.

(** A [Location] is [UTC], the zone of the process ([Local]), a zone at
    a fixed offset in seconds east of UTC ([time.FixedZone]), or a zone
    with transitions, as [time.LoadLocation] gives.  The package reads a
    zone through its method [lookup] only, so a zone with transitions is
    given by that method: for an instant in seconds since the epoch, the
    offset in force, and the first instant [start] and the end [end] of
    the period [start <= sec < end] in which it is in force. *)
Inductive Location : Type :=
| UTC
| Local
| FixedZone (offset : Z)
| Zone (rules : Z -> Z * Z * Z).

(** The method [l.lookup(sec)]: offset, start and end.  The rules of the
    process zone are not part of the model, which reads [Local] as UTC:
    the program places an instant in [Local] only through [time.Unix] and
    never reads the zone of such an instant.  An instant whose zone the
    program reads, such as the reading of [time.Now()], is given in the
    zone [Zone rules] with the rules of the process zone, and every
    statement that reads a zone leaves [Local] aside. *)
Definition Location_lookup (l : Location) (sec : Z) : Z * Z * Z :=
  match l with
  | UTC => (0, alpha, omega)
  | Local => (0, alpha, omega)
  | FixedZone offset => (offset, alpha, omega)
  | Zone rules => rules sec
  end.

(** The offset in force in [l] at the instant [sec]. *)
Definition offsetAt (l : Location) (sec : Z) : Z :=
  let '(offset, _, _) := Location_lookup l sec in offset.

(** A wall-clock instant: seconds since the Unix epoch, nanoseconds
    within the second, and the zone the instant is shown in.  Go keeps
    the seconds in an [int64] counted from the year 1 and, for the result
    of [time.Now()], a monotonic reading beside them.  The model keeps
    mathematical integers and no monotonic reading: it is exact as long as
    the seconds counted from the year 1 fit 64 bits, and the order of two
    instants derived from one clock reading by [Add] is the same on either
    reading. *)
Record Time : Type := mkTime { unixSec : Z; nsec : Z; loc : Location }.

(** Seconds from January 1 of the year 1 to the Unix epoch. *)
Definition unixToInternal : Z := 62135596800.

(** [Time{}]. *)
Definition zero : Time :=
  {| unixSec := - unixToInternal; nsec := 0; loc := UTC |}.

Definition IsZero (t : Time) : bool :=
  (unixSec t =? - unixToInternal) && (nsec t =? 0).

Definition Before (t u : Time) : bool :=
  (unixSec t <? unixSec u)
  || ((unixSec t =? unixSec u) && (nsec t <? nsec u)).

(** The method [t.Unix()]. *)
Definition Time_Unix (t : Time) : Z := unixSec t.

Definition Time_Location (t : Time) : Location := loc t.

(** The function [time.Unix(sec, nsec)]. *)
Definition Unix (sec nsec : Z) : Time :=
  if (nsec <? 0) || (1000000000 <=? nsec) then
    let n := Z.quot nsec 1000000000 in
    let sec1 := sec + n in
    let nsec1 := nsec - n * 1000000000 in
    if nsec1 <? 0
    then {| unixSec := sec1 - 1; nsec := nsec1 + 1000000000; loc := Local |}
    else {| unixSec := sec1; nsec := nsec1; loc := Local |}
  else {| unixSec := sec; nsec := nsec; loc := Local |}.

Definition Add (t : Time) (d : Duration) : Time :=
  let dsec := Z.quot d 1000000000 in
  let ns := nsec t + Z.rem d 1000000000 in
  if 1000000000 <=? ns
  then {| unixSec := unixSec t + dsec + 1; nsec := ns - 1000000000; loc := loc t |}
  else if ns <? 0
  then {| unixSec := unixSec t + dsec - 1; nsec := ns + 1000000000; loc := loc t |}
  else {| unixSec := unixSec t + dsec; nsec := ns; loc := loc t |}.

(** *** The calendar *)

Definition isLeap (year : Z) : bool :=
  (year mod 4 =? 0) && (negb (year mod 100 =? 0) || (year mod 400 =? 0)).

(** Days before the month numbered [m] (January is 1) in a common year;
    [daysBefore 13] is the length of the year. *)
Definition daysBefore (m : Z) : Z :=
  nth (Z.to_nat (m - 1))
    [0; 31; 59; 90; 120; 151; 181; 212; 243; 273; 304; 334; 365] 0.

Definition daysIn (m year : Z) : Z :=
  if (m =? 2) && isLeap year then 29 else daysBefore (m + 1) - daysBefore m.

(** Days from the Unix epoch to January 1 of [year]. *)
Definition daysSinceEpoch (year : Z) : Z :=
  let y := year - 1 in
  365 * y + y / 4 - y / 100 + y / 400 - 719162.

(** [norm(hi, lo, base)]: carry so that [0 <= lo < base]. *)
Definition norm (hi lo base : Z) : Z * Z := (hi + lo / base, lo mod base).

(** [time.Date]: the date and the clock are counted in seconds as if on
    the clock of UTC, the zone is looked up at that count, and looked up
    again at the corrected count when the correction leaves the period
    found first. *)
Definition Date (year month day hour min sec nsec : Z) (l : Location) : Time :=
  let '(year, m) := norm year (month - 1) 12 in
  let month := m + 1 in
  let '(sec, nsec) := norm sec nsec 1000000000 in
  let '(min, sec) := norm min sec 60 in
  let '(hour, min) := norm hour min 60 in
  let '(day, hour) := norm day hour 24 in
  let d := daysSinceEpoch year + daysBefore month in
  let d := if isLeap year && (3 <=? month) then d + 1 else d in
  let d := d + (day - 1) in
  let unix := d * 86400 + (hour * 3600 + min * 60 + sec) in
  let '(offset, start, end_) := Location_lookup l unix in
  let unix :=
    if offset =? 0 then unix
    else
      let utc := unix - offset in
      let offset :=
        if (utc <? start) || (end_ <=? utc) then offsetAt l utc else offset in
      unix - offset in
  {| unixSec := unix; nsec := nsec; loc := l |}.

(** Seconds since the epoch on the clock of the instant's own zone, as
    the method [t.abs()] counts them: the offset added is the one in
    force at the instant. *)
Definition localSec (t : Time) : Z :=
  unixSec t + offsetAt (loc t) (unixSec t).

(** Day number of the instant in its own zone (day 0 is 1970-01-01). *)
Definition localDay (t : Time) : Z := localSec t / 86400.

(** Year and day within the year of a day number, by 400-, 100-, 4- and
    1-year cycles counted from the year 1. *)
Definition yearDay (days : Z) : Z * Z :=
  let d := days + 719162 in
  let n400 := d / 146097 in
  let d := d - 146097 * n400 in
  let n100 := d / 36524 in
  let n100 := n100 - n100 / 4 in
  let d := d - 36524 * n100 in
  let n4 := d / 1461 in
  let d := d - 1461 * n4 in
  let n1 := d / 365 in
  let n1 := n1 - n1 / 4 in
  let d := d - 365 * n1 in
  (400 * n400 + 100 * n100 + 4 * n4 + n1 + 1, d).

(** Month and day of the month of a day within a year. *)
Definition monthDay (leap : bool) (yday : Z) : Z * Z :=
  if leap && (yday =? 31 + 29 - 1) then (2, 29)
  else
    let day := if leap && (31 + 29 - 1 <? yday) then yday - 1 else yday in
    let month := day / 31 in
    let e := daysBefore (month + 2) in
    if e <=? day then (month + 2, day - e + 1)
    else (month + 1, day - daysBefore (month + 1) + 1).

(** [t.Date()]. *)
Definition Time_Date (t : Time) : Z * Z * Z :=
  let (year, yday) := yearDay (localDay t) in
  let (month, day) := monthDay (isLeap year) yday in
  (year, month, day).

Definition Year (t : Time) : Z := let '(y, _, _) := Time_Date t in y.
Definition Month (t : Time) : Z := let '(_, m, _) := Time_Date t in m.
Definition Day (t : Time) : Z := let '(_, _, d) := Time_Date t in d.

Definition Hour_of (t : Time) : Z := (localSec t mod 86400) / 3600.
Definition Minute_of (t : Time) : Z := (localSec t mod 3600) / 60.
Definition Second_of (t : Time) : Z := localSec t mod 60.

(** Days of the week, Sunday first. *)
Definition Weekday : Type := Z.
Definition Sunday : Weekday := 0.
Definition Monday : Weekday := 1.
Definition Tuesday : Weekday := 2.
Definition Wednesday : Weekday := 3.
Definition Thursday : Weekday := 4.
Definition Friday : Weekday := 5.
Definition Saturday : Weekday := 6.

(** [t.Weekday()]; 1970-01-01 was a Thursday. *)
Definition Time_Weekday (t : Time) : Weekday := (localDay t + 4) mod 7.

Definition AddDate (t : Time) (years months days : Z) : Time :=
  let '(year, month, day) := Time_Date t in
  Date (year + years) (month + months) (day + days)
    (Hour_of t) (Minute_of t) (Second_of t) (nsec t) (loc t).

(** *** Parsing against a layout *)

(** The elements of the layouts the parser uses, as the package cuts a
    layout text into them: ["15"] is [stdHour], ["04"] [stdZeroMinute],
    ["05"] [stdZeroSecond], ["06"] [stdYear], ["2006"] [stdLongYear],
    ["01"] [stdZeroMonth], ["02"] [stdZeroDay], ["Mon"] [stdWeekDay],
    ["Jan"] [stdMonth]; anything else is literal text. *)
Inductive chunk : Type :=
| lit (text : string)
| stdHour
| stdZeroMinute
| stdZeroSecond
| stdYear
| stdLongYear
| stdZeroMonth
| stdZeroDay
| stdWeekDay
| stdMonth.

Definition layout : Type := list chunk.

(** ["15:04"] *)
Definition layoutClock : layout := [stdHour; lit ":"; stdZeroMinute].
(** ["06-01-02"] *)
Definition layoutShortDate : layout :=
  [stdYear; lit "-"; stdZeroMonth; lit "-"; stdZeroDay].
(** ["2006-01-02"] *)
Definition layoutDate : layout :=
  [stdLongYear; lit "-"; stdZeroMonth; lit "-"; stdZeroDay].
(** ["06-01-02 15:04:05"] *)
Definition layoutShortDateTime : layout :=
  (layoutShortDate
   ++ [lit " "; stdHour; lit ":"; stdZeroMinute; lit ":"; stdZeroSecond])%list.
(** ["2006-01-02 15:04:05"] *)
Definition layoutDateTime : layout :=
  (layoutDate
   ++ [lit " "; stdHour; lit ":"; stdZeroMinute; lit ":"; stdZeroSecond])%list.
(** ["Mon, 02 Jan 2006 15:04:05"] *)
Definition layoutRFC : layout :=
  [stdWeekDay; lit ", "; stdZeroDay; lit " "; stdMonth; lit " "; stdLongYear;
   lit " "; stdHour; lit ":"; stdZeroMinute; lit ":"; stdZeroSecond].

Definition shortDayNames : list string :=
  ["Sun"; "Mon"; "Tue"; "Wed"; "Thu"; "Fri"; "Sat"].

Definition shortMonthNames : list string :=
  ["Jan"; "Feb"; "Mar"; "Apr"; "May"; "Jun";
   "Jul"; "Aug"; "Sep"; "Oct"; "Nov"; "Dec"].

(** [match]: equality of a name with the front of the text, ignoring the
    case of letters; the rest of the text on success. *)
Fixpoint matchFold (val name : string) : option string :=
  match name, val with
  | "", _ => Some val
  | String c2 name', String c1 val' =>
      if Ascii.eqb c1 c2 then matchFold val' name'
      else
        let l1 := Z.lor (code c1) 32 in
        let l2 := Z.lor (code c2) 32 in
        if negb (l1 =? l2) || (l1 <? 97) || (122 <? l1) then None
        else matchFold val' name'
  | String _ _, "" => None
  end.

Fixpoint lookup (i : Z) (tab : list string) (val : string)
  : option (Z * string) :=
  match tab with
  | [] => None
  | v :: tab' =>
      match matchFold val v with
      | Some rest => Some (i, rest)
      | None => lookup (i + 1) tab' val
      end
  end.

(** [getnum]: one or two digits, two when [fixed]. *)
Definition getnum (s : string) (fixed : bool) : option (Z * string) :=
  match s with
  | String a r =>
      if isDigit a then
        match r with
        | String b r' =>
            if isDigit b then Some (digitVal a * 10 + digitVal b, r')
            else if fixed then None else Some (digitVal a, r)
        | "" => if fixed then None else Some (digitVal a, r)
        end
      else None
  | "" => None
  end.

(** [atoi]: a signed run of digits and nothing else. *)
Definition atoi (s : string) : option Z :=
  let '(neg, body) :=
    match s with
    | String "-" r => (true, r)
    | String "+" r => (false, r)
    | _ => (false, s)
    end in
  match leadingInt 0 body with
  | Some (q, "") => Some (if neg then - wrap64 q else wrap64 q)
  | _ => None
  end.

Fixpoint cutspace (s : string) : string :=
  match s with
  | String " " s' => cutspace s'
  | _ => s
  end.

(** [skip]: remove [prefix] from the value, a run of spaces in the
    layout standing for any run of spaces in the value.  [inRun] holds
    while the spaces of the prefix are those of a run already matched. *)
Fixpoint skip (inRun : bool) (value prefix : string) : option string :=
  match prefix with
  | "" => Some value
  | String " " prefix' =>
      if inRun then skip true value prefix'
      else
        match value with
        | String v _ =>
            if Ascii.eqb v " " then skip true (cutspace value) prefix'
            else None
        | "" => skip true value prefix'
        end
  | String p prefix' =>
      match value with
      | String v value' =>
          if Ascii.eqb v p then skip false value' prefix' else None
      | "" => None
      end
  end.

(** [parseNanoseconds] on the [n] bytes at the front of the value, the
    first of them the point or comma. *)
Definition parseNanoseconds (value : string) (n : Z) : option Z :=
  let n := if 10 <? n then 10 else n in
  match atoi (drop 1 (sliceTo value n)) with
  | None => None
  | Some ns =>
      if ns <? 0 then None
      else Some (ns * 10 ^ (10 - n))
  end.

(** The fields read so far. *)
Record fields : Type :=
  { f_year : Z; f_month : Z; f_day : Z;
    f_hour : Z; f_min : Z; f_sec : Z; f_nsec : Z }.

Definition noFields : fields :=
  {| f_year := 0; f_month := -1; f_day := -1;
     f_hour := 0; f_min := 0; f_sec := 0; f_nsec := 0 |}.

(** One element of the layout against the front of the value. *)
Definition parseChunk (c : chunk) (f : fields) (value : string)
  : option (fields * string) :=
  match c with
  | lit text =>
      match skip false value text with
      | Some rest => Some (f, rest)
      | None => None
      end
  | stdYear =>
      if len value <? 2 then None
      else
        match atoi (sliceTo value 2) with
        | Some y =>
            let year := if 69 <=? y then y + 1900 else y + 2000 in
            Some ({| f_year := year; f_month := f_month f; f_day := f_day f;
                     f_hour := f_hour f; f_min := f_min f; f_sec := f_sec f;
                     f_nsec := f_nsec f |}, sliceFrom value 2)
        | None => None
        end
  | stdLongYear =>
      match value with
      | String c0 _ =>
          if (len value <? 4) || negb (isDigit c0) then None
          else
            match atoi (sliceTo value 4) with
            | Some year =>
                Some ({| f_year := year; f_month := f_month f;
                         f_day := f_day f; f_hour := f_hour f;
                         f_min := f_min f; f_sec := f_sec f;
                         f_nsec := f_nsec f |}, sliceFrom value 4)
            | None => None
            end
      | "" => None
      end
  | stdMonth =>
      match lookup 0 shortMonthNames value with
      | Some (i, rest) =>
          Some ({| f_year := f_year f; f_month := i + 1; f_day := f_day f;
                   f_hour := f_hour f; f_min := f_min f; f_sec := f_sec f;
                   f_nsec := f_nsec f |}, rest)
      | None => None
      end
  | stdZeroMonth =>
      match getnum value true with
      | Some (month, rest) =>
          if (month <=? 0) || (12 <? month) then None
          else
            Some ({| f_year := f_year f; f_month := month; f_day := f_day f;
                     f_hour := f_hour f; f_min := f_min f; f_sec := f_sec f;
                     f_nsec := f_nsec f |}, rest)
      | None => None
      end
  | stdWeekDay =>
      match lookup 0 shortDayNames value with
      | Some (_, rest) => Some (f, rest)
      | None => None
      end
  | stdZeroDay =>
      match getnum value true with
      | Some (day, rest) =>
          Some ({| f_year := f_year f; f_month := f_month f; f_day := day;
                   f_hour := f_hour f; f_min := f_min f; f_sec := f_sec f;
                   f_nsec := f_nsec f |}, rest)
      | None => None
      end
  | stdHour =>
      match getnum value false with
      | Some (hour, rest) =>
          if (hour <? 0) || (24 <=? hour) then None
          else
            Some ({| f_year := f_year f; f_month := f_month f;
                     f_day := f_day f; f_hour := hour; f_min := f_min f;
                     f_sec := f_sec f; f_nsec := f_nsec f |}, rest)
      | None => None
      end
  | stdZeroMinute =>
      match getnum value true with
      | Some (min, rest) =>
          if (min <? 0) || (60 <=? min) then None
          else
            Some ({| f_year := f_year f; f_month := f_month f;
                     f_day := f_day f; f_hour := f_hour f; f_min := min;
                     f_sec := f_sec f; f_nsec := f_nsec f |}, rest)
      | None => None
      end
  | stdZeroSecond =>
      match getnum value true with
      | Some (sec, rest) =>
          if (sec <? 0) || (60 <=? sec) then None
          else
            let f1 :=
              {| f_year := f_year f; f_month := f_month f; f_day := f_day f;
                 f_hour := f_hour f; f_min := f_min f; f_sec := sec;
                 f_nsec := f_nsec f |} in
            (* a fraction of a second in the value that the layout does
               not ask for; no layout here asks for one *)
            match rest with
            | String p (String d _) =>
                if ((code p =? 46) || (code p =? 44)) && isDigit d then
                  let n := 1 + len (fmt.digitRun (drop 1 rest)) in
                  match parseNanoseconds rest n with
                  | Some ns =>
                      Some ({| f_year := f_year f; f_month := f_month f;
                               f_day := f_day f; f_hour := f_hour f;
                               f_min := f_min f; f_sec := sec;
                               f_nsec := ns |}, sliceFrom rest n)
                  | None => None
                  end
                else Some (f1, rest)
            | _ => Some (f1, rest)
            end
      | None => None
      end
  end.

Fixpoint parseChunks (l : layout) (f : fields) (value : string)
  : option fields :=
  match l with
  | [] => if isEmpty value then Some f else None
  | c :: l' =>
      match parseChunk c f value with
      | Some (f', rest) => parseChunks l' f' rest
      | None => None
      end
  end.

(** [time.Parse(layout, value)] for a layout without a zone: the result
    is in UTC.  [None] stands for a non-nil error. *)
Definition Parse (l : layout) (value : string) : option Time :=
  match parseChunks l noFields value with
  | None => None
  | Some f =>
      let month := if f_month f <? 0 then 1 else f_month f in
      let day := if f_day f <? 0 then 1 else f_day f in
      if (day <? 1) || (daysIn month (f_year f) <? day) then None
      else
        Some (Date (f_year f) month day (f_hour f) (f_min f) (f_sec f)
                (f_nsec f) UTC)
  end.

End time.

(** ** The single-time parser and the range parser *)

(** [getMidnight]: the instant at 00:00:00 of the date of [t]. *)
Definition getMidnight (t : time.Time) : time.Time :=
  time.Date (time.Year t) (time.Month t) (time.Day t) 0 0 0 0
    (time.Time_Location t).

Definition parseWeekday (weekdayStr : string) : result time.Weekday :=
  if String.eqb weekdayStr "sunday" then Ok time.Sunday
  else if String.eqb weekdayStr "monday" then Ok time.Monday
  else if String.eqb weekdayStr "tuesday" then Ok time.Tuesday
  else if String.eqb weekdayStr "wednesday" then Ok time.Wednesday
  else if String.eqb weekdayStr "thursday" then Ok time.Thursday
  else if String.eqb weekdayStr "friday" then Ok time.Friday
  else if String.eqb weekdayStr "saturday" then Ok time.Saturday
  else Err (ErrInvalidWeekday weekdayStr).

Definition parseLastWeekday (durationStr : string) (now : time.Time)
  : result time.Time :=
  let weekdayStr := strings.TrimPrefix durationStr "last " in
  match parseWeekday weekdayStr with
  | Err e => Err e
  | Ok weekday =>
      let daysAgo := time.Time_Weekday now - weekday in
      let daysAgo := if daysAgo <=? 0 then daysAgo + 7 else daysAgo in
      let lastWeekday := time.AddDate now 0 0 (- daysAgo) in
      Ok (getMidnight lastWeekday)
  end.

(** [parseUnixTimestamp]: seconds up to 9999999999, milliseconds above. *)
Definition parseUnixTimestamp (unixTime : Z) : result time.Time :=
  if 9999999999 <? unixTime then
    let sec := Z.quot unixTime 1000 in
    let nsec := Z.rem unixTime 1000 * 1000000 in
    Ok (time.Unix sec nsec)
  else Ok (time.Unix unixTime 0).

Definition parseRelativeTime (durationStr : string) (now startTime : time.Time)
  (isPositive : bool) : result time.Time :=
  let durationStr := strings.ToLower (strings.TrimSpace durationStr) in
  if String.eqb durationStr "yesterday"
  then Ok (getMidnight (time.AddDate now 0 0 (-1)))
  else if String.eqb durationStr "last week"
  then Ok (getMidnight (time.AddDate now 0 0 (-7)))
  else if String.eqb durationStr "last month"
  then Ok (getMidnight (time.AddDate now 0 (-1) 0))
  else if String.eqb durationStr "last year"
  then Ok (getMidnight (time.AddDate now (-1) 0 0))
  else if strings.HasPrefix durationStr "last "
  then parseLastWeekday durationStr now
  else
    let text := strings.ReplaceAll durationStr " " "" in
    match time.ParseDuration text with
    | None => Err (ErrDuration text)
    | Some duration =>
        if isPositive then
          if time.IsZero startTime then Ok (time.Add now duration)
          else Ok (time.Add startTime duration)
        else Ok (time.Add now (wrap64 (- duration)))
    end.

(** The tail of [ParseTime]: the clock layout, then the five calendar
    layouts in the order of the source. *)
Definition parseLayouts (timeStr : string) (now : time.Time)
  : result time.Time :=
  match time.Parse time.layoutClock timeStr with
  | Some t =>
      Ok (time.Date (time.Year now) (time.Month now) (time.Day now)
            (time.Hour_of t) (time.Minute_of t) 0 0 (time.Time_Location now))
  | None =>
  match time.Parse time.layoutShortDate timeStr with
  | Some t => Ok t
  | None =>
  match time.Parse time.layoutDate timeStr with
  | Some t => Ok t
  | None =>
  match time.Parse time.layoutShortDateTime timeStr with
  | Some t => Ok t
  | None =>
  match time.Parse time.layoutDateTime timeStr with
  | Some t => Ok t
  | None =>
  match time.Parse time.layoutRFC timeStr with
  | Some t => Ok t
  | None => Err ErrInvalidTimeFormat
  end end end end end end.

Definition ParseTime (timeStr : string) (now startTime : time.Time)
  : result time.Time :=
  if isEmpty timeStr then
    if time.IsZero startTime then Ok startTime else Ok now
  else
    let timeStr := strings.TrimSpace timeStr in
    match strconv.ParseInt timeStr with
    | Some unixTime => parseUnixTimestamp unixTime
    | None =>
        let lowerTimeStr := strings.ToLower timeStr in
        if strings.HasPrefix lowerTimeStr "last "
           || strings.HasPrefix lowerTimeStr "yesterday"
        then parseRelativeTime lowerTimeStr now startTime false
        else if strings.Contains timeStr " ago" then
          let cleanStr := strings.ReplaceFirst timeStr " ago" "" in
          match convertCustomUnits cleanStr with
          | Err e => Err (ErrConvertUnits e)
          | Ok cleanStr =>
              let cleanStr := strings.Join (strings.Fields cleanStr) "" in
              parseRelativeTime cleanStr now startTime false
          end
        else
          match convertCustomUnits timeStr with
          | Err e => Err (ErrConvertUnits e)
          | Ok timeStr =>
              if strings.HasPrefix timeStr "+"
              then parseRelativeTime (sliceFrom timeStr 1) now startTime true
              else if strings.HasPrefix timeStr "-"
              then parseRelativeTime (sliceFrom timeStr 1) now startTime false
              else
                match time.ParseDuration timeStr with
                | Some duration => Ok (time.Add now (wrap64 (- duration)))
                | None => parseLayouts timeStr now
                end
          end
    end.

(** The two instants of a non-empty range, before the ordering check. *)
Definition rangeInstants (now : time.Time) (timeRange : string)
  : result (time.Time * time.Time) :=
  if strings.Contains timeRange "/" then
    match strings.Split timeRange "/" with
    | [part0; part1] =>
        match ParseTime part0 now time.zero with
        | Err e => Err (ErrInvalidStartTime e)
        | Ok startTime =>
            match ParseTime part1 now startTime with
            | Err e => Err (ErrInvalidEndTime e)
            | Ok endTime => Ok (startTime, endTime)
            end
        end
    | _ => Err ErrInvalidTimeRange
    end
  else
    match ParseTime timeRange now time.zero with
    | Err e => Err e
    | Ok startTime => Ok (startTime, startTime)
    end.

(** [ParseTimeRange]; [now] is the reading of [time.Now()]. *)
Definition ParseTimeRange (now : time.Time) (timeRange : string)
  : result (Z * Z) :=
  if isEmpty timeRange then Ok (0, 0)
  else
    match rangeInstants now timeRange with
    | Err e => Err e
    | Ok (startTime, endTime) =>
        if negb (time.IsZero endTime) && negb (time.IsZero startTime)
           && time.Before endTime startTime
        then Err ErrEndBeforeStart
        else Ok (time.Time_Unix startTime, time.Time_Unix endTime)
    end.

(** The reference instant of the repository's tests: Wednesday,
    2025-12-10 15:30:45 UTC. *)
Definition fixedTime : time.Time := time.Date 2025 12 10 15 30 45 0 time.UTC.

(** * The vocabulary of the statements *)

(** Membership of a byte in a string. *)
Fixpoint hasByte (c : ascii) (s : string) : bool :=
  match s with
  | "" => false
  | String x s' => Ascii.eqb x c || hasByte c s'
  end.

Fixpoint allBytes (p : ascii -> bool) (s : string) : bool :=
  match s with
  | "" => true
  | String c s' => p c && allBytes p s'
  end.

(** A text is in normal form when its only letters are the unit letters
    of a duration literal. *)
Definition durationByte (c : ascii) : bool :=
  negb (isLetter c)
  || Ascii.eqb c "h" || Ascii.eqb c "m" || Ascii.eqb c "s".

Definition normalForm (s : string) : bool := allBytes durationByte s.


(** Unit material: the letters d and y and the letter runs sec, min, hour
    and month.  Every unit word of the two tables and both short forms
    hold some of it; a text that is free of it holds no unit word. *)
Definition unitFree (s : string) : bool :=
  negb (hasByte "d" s) && negb (hasByte "y" s)
  && negb (strings.Contains s "sec") && negb (strings.Contains s "min")
  && negb (strings.Contains s "hour") && negb (strings.Contains s "month").




(** The expressions resolved by [parseRelativeTime]: a "last "/"yesterday"
    prefix, an " ago" inside, or a sign in front after normalisation. *)
Definition relativePath (s : string) : bool :=
  let timeStr := strings.TrimSpace s in
  let lowerTimeStr := strings.ToLower timeStr in
  strings.HasPrefix lowerTimeStr "last "
  || strings.HasPrefix lowerTimeStr "yesterday"
  || strings.Contains timeStr " ago"
  || match convertCustomUnits timeStr with
     | Ok n => strings.HasPrefix n "+" || strings.HasPrefix n "-"
     | Err _ => false
     end.

(** The failures of the relative path: an unknown weekday or a text the
    duration grammar rejects. *)
Definition relativeError (e : error) : Prop :=
  (exists w, e = ErrInvalidWeekday w)
  \/ (exists text, e = ErrDuration text /\ time.ParseDuration text = None).

Definition weekdayNames : list (string * time.Weekday) :=
  [ ("sunday", time.Sunday); ("monday", time.Monday);
    ("tuesday", time.Tuesday); ("wednesday", time.Wednesday);
    ("thursday", time.Thursday); ("friday", time.Friday);
    ("saturday", time.Saturday) ].

(** Days back to the last [weekday] before the day of [now]. *)
Definition daysAgo (now : time.Time) (weekday : time.Weekday) : Z :=
  let d := time.Time_Weekday now - weekday in
  if d <=? 0 then d + 7 else d.

(** An instant as Go builds it: the nanoseconds within one second. *)
Definition validTime (t : time.Time) : Prop := 0 <= time.nsec t < 1000000000.

(** The number of the day with the given date. *)
Definition dayNumber (year month day : Z) : Z :=
  time.daysSinceEpoch year + time.daysBefore month
  + (if time.isLeap year && (3 <=? month) then 1 else 0) + (day - 1).

(** The zone [l] keeps the offset [k], of a day at most, around the day
    numbered [day]: at every instant from the start of the day before to
    the end of the day after, counted on the clock of UTC.  This holds of
    [UTC] and of a zone at a fixed offset on every day, and of a zone with
    transitions on the days away from them.  The process zone [Local],
    whose rules the model does not hold, is left aside. *)
Definition steadyZone (l : time.Location) (day k : Z) : Prop :=
  l <> time.Local
  /\ -86400 <= k <= 86400
  /\ forall sec, (day - 1) * 86400 <= sec <= (day + 2) * 86400 ->
                 time.offsetAt l sec = k.


(** A check of [f] on the [n] integers from [start] on. *)
Fixpoint checkRange (f : Z -> bool) (n : nat) (start : Z) : bool :=
  match n with
  | O => true
  | S n' => if f start then checkRange f n' (start + 1) else false
  end.

(** The year within a 400-year cycle, and the day within that year, of
    a day of the cycle. *)
Definition cycleYear (r : Z) : Z * Z :=
  let n100 := r / 36524 in
  let n100 := n100 - n100 / 4 in
  let d := r - 36524 * n100 in
  let n4 := d / 1461 in
  let d := d - 1461 * n4 in
  let n1 := d / 365 in
  let n1 := n1 - n1 / 4 in
  let d := d - 365 * n1 in
  (100 * n100 + 4 * n4 + n1, d).

Definition cycleYearOk (r : Z) : bool :=
  let (k, yd) := cycleYear r in
  (0 <=? k) && (k <? 400)
  && (365 * k + k / 4 - k / 100 + yd =? r)
  && (0 <=? yd) && (yd <? (if time.isLeap (k + 1) then 366 else 365)).

Definition monthDayOk (leap : bool) (yd : Z) : bool :=
  let (m, d) := time.monthDay leap yd in
  (1 <=? m) && (m <=? 12) && (1 <=? d)
  && (time.daysBefore m + (if leap && (3 <=? m) then 1 else 0) + (d - 1)
      =? yd).

(** ** The vocabulary of the further properties *)

(** A text of ASCII bytes only.  Go reads the other bytes as UTF-8 when
    it trims white space and lowers letters; on an ASCII text
    [strings.TrimSpace], [strings.Fields] and [strings.ToLower] are the
    functions of the model. *)
Definition asciiText (s : string) : bool :=
  allBytes (fun c => code c <? 128) s.

(** A non-empty run of decimal digits. *)
Definition digitString (s : string) : bool :=
  negb (isEmpty s) && allBytes isDigit s.

(** A text without letters. *)
Definition letterFree (s : string) : bool :=
  allBytes (fun c => negb (isLetter c)) s.

(** A digit directly followed by the byte [c] somewhere in [s]. *)
Fixpoint digitThen (c : ascii) (s : string) : bool :=
  match s with
  | String a s' =>
      match s' with
      | String b _ => (isDigit a && Ascii.eqb b c) || digitThen c s'
      | "" => false
      end
  | "" => false
  end.

(** [ParseTime] after the timestamp and keyword branches, on the text
    already trimmed. *)
Definition ParseTime_rest (timeStr : string) (now startTime : time.Time)
  : result time.Time :=
  if strings.Contains timeStr " ago" then
    let cleanStr := strings.ReplaceFirst timeStr " ago" "" in
    match convertCustomUnits cleanStr with
    | Err e => Err (ErrConvertUnits e)
    | Ok cleanStr =>
        let cleanStr := strings.Join (strings.Fields cleanStr) "" in
        parseRelativeTime cleanStr now startTime false
    end
  else
    match convertCustomUnits timeStr with
    | Err e => Err (ErrConvertUnits e)
    | Ok timeStr =>
        if strings.HasPrefix timeStr "+"
        then parseRelativeTime (sliceFrom timeStr 1) now startTime true
        else if strings.HasPrefix timeStr "-"
        then parseRelativeTime (sliceFrom timeStr 1) now startTime false
        else
          match time.ParseDuration timeStr with
          | Some duration => Ok (time.Add now (wrap64 (- duration)))
          | None => parseLayouts timeStr now
          end
    end.

(** The length in nanoseconds that the tables give a unit word: a
    count of hours by [timeUnitsToHours], a unit letter of the duration
    grammar by [simpleTimeUnits]. *)
Definition unitWord (pattern : string) (unit : Z) : Prop :=
  (exists conv, In conv timeUnitsToHours /\ In pattern (patterns conv)
                /\ unit = toHours conv * time.Hour)
  \/ (exists conv, In conv simpleTimeUnits /\ In pattern (simplePatterns conv)
                   /\ time.unitMap (to conv) = Some unit).

(** The number of bytes [c] in a text. *)
Fixpoint countByte (c : ascii) (s : string) : nat :=
  match s with
  | "" => O
  | String x s' => (if Ascii.eqb x c then 1 else 0) + countByte c s'
  end.

(** The instant 00:00:00 of the day numbered [day] on the clock of the
    zone [l]. *)
Definition midnightOf (t : time.Time) (day : Z) (l : time.Location) : Prop :=
  time.localSec t = day * 86400 /\ time.nsec t = 0 /\ time.loc t = l.

(** The decimal digit [k] and the two-digit numeral of [x]. *)
Definition digitChar (k : Z) : ascii := ofCode (48 + k).

Definition pad2 (x : Z) : string :=
  String (digitChar (x / 10)) (String (digitChar (x mod 10)) "").

Definition isNone {A : Type} (o : option A) : bool :=
  match o with None => true | Some _ => false end.

(** The steps of [ParseTime] before the layouts, for a text that passes
    them all: the text is trimmed, is no timestamp, no keyword expression,
    no phrase with "ago", is left alone by the normaliser, has no sign and
    is no duration. *)
Definition plainText (text : string) : bool :=
  negb (isEmpty text)
  && String.eqb (strings.TrimSpace text) text
  && isNone (strconv.ParseInt text)
  && negb (strings.HasPrefix (strings.ToLower text) "last ")
  && negb (strings.HasPrefix (strings.ToLower text) "yesterday")
  && negb (strings.Contains text " ago")
  && match convertCustomUnits text with
     | Ok out => String.eqb out text
     | Err _ => false
     end
  && negb (strings.HasPrefix text "+")
  && negb (strings.HasPrefix text "-")
  && isNone (time.ParseDuration text).

(** A plain text that the layout ["15:04"] reads as the hour [h] and
    the minute [m]. *)
Definition clockParsed (text : string) (h m : Z) : bool :=
  plainText text
  && match time.Parse time.layoutClock text with
     | Some t => (time.Hour_of t =? h) && (time.Minute_of t =? m)
     | None => false
     end.

(** The bytes of a date after the year: a hyphen, two of the month, a
    hyphen, two of the day, and what follows. *)
Definition dateTail (b1 b2 c1 c2 : ascii) (rest : string) : string :=
  String "-" (String b1 (String b2 (String "-" (String c1 (String c2 rest))))).

(** The bytes of a time of day after a date. *)
Definition clockTail (h1 h2 m1 m2 s1 s2 : ascii) : string :=
  String " " (String h1 (String h2 (String ":" (String m1 (String m2
    (String ":" (String s1 (String s2 "")))))))).

(** A date text by its bytes, with a year of two or of four digits. *)
Definition shortText (a1 a2 b1 b2 c1 c2 : ascii) (rest : string) : string :=
  String a1 (String a2 (dateTail b1 b2 c1 c2 rest)).

Definition longText (a1 a2 a3 a4 b1 b2 c1 c2 : ascii) (rest : string)
  : string :=
  String a1 (String a2 (String a3 (String a4 (dateTail b1 b2 c1 c2 rest)))).

Definition digits2 (a b : ascii) : Z := digitVal a * 10 + digitVal b.

Definition digits4 (a b c d : ascii) : Z :=
  ((digitVal a * 10 + digitVal b) * 10 + digitVal c) * 10 + digitVal d.

(** The reading of a two-digit year by the layout element ["06"]. *)
Definition shortYear (yy : Z) : Z := if 69 <=? yy then yy + 1900 else yy + 2000.

Definition pad4 (y : Z) : string := pad2 (y / 100) ++ pad2 (y mod 100).

(** The texts YY-MM-DD, YYYY-MM-DD and HH:MM:SS. *)
Definition shortDate (yy month day : Z) : string :=
  pad2 yy ++ "-" ++ pad2 month ++ "-" ++ pad2 day.

Definition longDate (year month day : Z) : string :=
  pad4 year ++ "-" ++ pad2 month ++ "-" ++ pad2 day.

Definition clockText (hour min sec : Z) : string :=
  pad2 hour ++ ":" ++ pad2 min ++ ":" ++ pad2 sec.

(** * Checks against the repository's tests

    The model evaluated on the cases of the package's test tables, with
    [fixedTime] for the clock, and on a few inputs of the library
    functions. *)

(** ** Library functions *)

Example Index_found :
  strings.Index "2 days ago" " days" = 1.
Proof. reflexivity. Qed.

Example Index_missing :
  strings.Index "2h" "day" = -1.
Proof. reflexivity. Qed.

Example Split_two :
  strings.Split "2h/+30m" "/" = ["2h"; "+30m"].
Proof. reflexivity. Qed.

Example Split_empty_pieces :
  strings.Split "a//b/" "/" = ["a"; ""; "b"; ""].
Proof. reflexivity. Qed.

Example Fields_runs :
  strings.Fields "  10   min  x " = ["10"; "min"; "x"].
Proof. reflexivity. Qed.

Example TrimSpace_both_ends :
  strings.TrimSpace "  a b  " = "a b".
Proof. reflexivity. Qed.

Example ReplaceAll_spaces :
  strings.ReplaceAll "1 h 30 m" " " "" = "1h30m".
Proof. reflexivity. Qed.

Example ParseInt_negative :
  strconv.ParseInt "-62135596800" = Some (-62135596800).
Proof. reflexivity. Qed.

Example ParseInt_plus :
  strconv.ParseInt "+7" = Some 7.
Proof. reflexivity. Qed.

Example ParseInt_overflow :
  strconv.ParseInt "9223372036854775808" = None.
Proof. reflexivity. Qed.

Example ParseInt_min :
  strconv.ParseInt "-9223372036854775808" = Some minInt64.
Proof. reflexivity. Qed.

Example ParseInt_underscore :
  strconv.ParseInt "1_000" = None.
Proof. reflexivity. Qed.

Example Sscanf_leading_number :
  fmt.Sscanf_d "24h 2" = Some 24.
Proof. reflexivity. Qed.

Example Sscanf_space_and_sign :
  fmt.Sscanf_d " +7x" = Some 7.
Proof. reflexivity. Qed.

Example Sscanf_no_number :
  fmt.Sscanf_d "x7" = None.
Proof. reflexivity. Qed.

Example itoa_negative :
  fmt.itoa (-120) = "-120".
Proof. reflexivity. Qed.

Example itoa_zero :
  fmt.itoa 0 = "0".
Proof. reflexivity. Qed.

Example ParseDuration_compound :
  time.ParseDuration "2h30m" = Some (150 * time.Minute).
Proof. reflexivity. Qed.

Example ParseDuration_fraction :
  time.ParseDuration "1.5h" = Some (90 * time.Minute).
Proof. reflexivity. Qed.

Example ParseDuration_negative_fraction :
  time.ParseDuration "-0.1s" = Some (-100000000).
Proof. reflexivity. Qed.

Example ParseDuration_unknown_unit :
  time.ParseDuration "5foo" = None.
Proof. reflexivity. Qed.

Example ParseDuration_empty :
  time.ParseDuration "" = None.
Proof. reflexivity. Qed.

Example ParseDuration_no_unit :
  time.ParseDuration "100" = None.
Proof. reflexivity. Qed.

Example ParseDuration_max :
  time.ParseDuration "2562047h47m16.854775807s" = Some maxInt64.
Proof. reflexivity. Qed.

Example ParseDuration_min :
  time.ParseDuration "-2562047h47m16.854775808s" = Some minInt64.
Proof. reflexivity. Qed.

Example ParseDuration_overflow :
  time.ParseDuration "2562047h47m16.854775808s" = None.
Proof. reflexivity. Qed.

Example fixedTime_seconds :
  fixedTime = time.mkTime 1765380645 0 time.UTC.
Proof. reflexivity. Qed.

Example fixedTime_date :
  time.Time_Date fixedTime = (2025, 12, 10).
Proof. reflexivity. Qed.

Example fixedTime_weekday :
  time.Time_Weekday fixedTime = time.Wednesday.
Proof. reflexivity. Qed.

Example zero_date :
  time.Time_Date time.zero = (1, 1, 1).
Proof. reflexivity. Qed.

Example zero_is_year_one :
  time.Date 1 1 1 0 0 0 0 time.UTC = time.zero.
Proof. reflexivity. Qed.

Example Date_leap_day :
  time.Time_Date (time.Date 2024 2 29 0 0 0 0 time.UTC) = (2024, 2, 29).
Proof. reflexivity. Qed.

Example Date_after_leap_day :
  time.Time_Date (time.Date 2024 3 1 0 0 0 0 time.UTC) = (2024, 3, 1).
Proof. reflexivity. Qed.

Example Date_normalises_day :
  time.Date 2023 2 29 0 0 0 0 time.UTC = time.Date 2023 3 1 0 0 0 0 time.UTC.
Proof. reflexivity. Qed.

Example Date_normalises_month :
  time.Date 2025 0 10 0 0 0 0 time.UTC = time.Date 2024 12 10 0 0 0 0 time.UTC.
Proof. reflexivity. Qed.

Example Date_year_2000 :
  time.unixSec (time.Date 2000 1 1 0 0 0 0 time.UTC) = 946684800.
Proof. reflexivity. Qed.

Example Date_before_epoch :
  time.Time_Date (time.mkTime (-1) 0 time.UTC) = (1969, 12, 31).
Proof. reflexivity. Qed.

Example Date_year_zero :
  time.Time_Date (time.Date 0 12 31 0 0 0 0 time.UTC) = (0, 12, 31).
Proof. reflexivity. Qed.

Example Date_fixed_zone :
  time.Time_Date (time.Date 2000 2 29 23 0 0 0 (time.FixedZone (-18000))) = (2000, 2, 29).
Proof. reflexivity. Qed.

Example AddDate_month :
  time.Time_Date (time.AddDate fixedTime 0 (-1) 0) = (2025, 11, 10).
Proof. reflexivity. Qed.

Example AddDate_days_back :
  time.Time_Date (time.AddDate fixedTime 0 0 (-10)) = (2025, 11, 30).
Proof. reflexivity. Qed.

Example Parse_clock :
  time.Parse time.layoutClock "09:05" = Some (time.Date 0 1 1 9 5 0 0 time.UTC).
Proof. reflexivity. Qed.

Example Parse_clock_one_digit_hour :
  time.Parse time.layoutClock "9:05" = Some (time.Date 0 1 1 9 5 0 0 time.UTC).
Proof. reflexivity. Qed.

Example Parse_clock_hour_range :
  time.Parse time.layoutClock "24:00" = None.
Proof. reflexivity. Qed.

Example Parse_date :
  time.Parse time.layoutDate "2025-12-10" = Some (time.Date 2025 12 10 0 0 0 0 time.UTC).
Proof. reflexivity. Qed.

Example Parse_date_month_range :
  time.Parse time.layoutDate "2025-13-45" = None.
Proof. reflexivity. Qed.

Example Parse_date_day_range :
  time.Parse time.layoutDate "2025-02-29" = None.
Proof. reflexivity. Qed.

Example Parse_date_year_one :
  time.Parse time.layoutDate "0001-01-01" = Some time.zero.
Proof. reflexivity. Qed.

Example Parse_date_empty :
  time.Parse time.layoutDate "" = None.
Proof. reflexivity. Qed.

Example Parse_short_date :
  time.Parse time.layoutShortDate "14-11-19" = Some (time.Date 2014 11 19 0 0 0 0 time.UTC).
Proof. reflexivity. Qed.

Example Parse_short_date_extra_text :
  time.Parse time.layoutShortDate "2025-12-10" = None.
Proof. reflexivity. Qed.

Example Parse_short_date_time :
  time.Parse time.layoutShortDateTime "14-11-19 22:04:57" = Some (time.Date 2014 11 19 22 4 57 0 time.UTC).
Proof. reflexivity. Qed.

Example Parse_date_time_fraction :
  time.Parse time.layoutDateTime "2014-11-19 22:04:57.25" = Some (time.Date 2014 11 19 22 4 57 250000000 time.UTC).
Proof. reflexivity. Qed.

Example Parse_rfc :
  time.Parse time.layoutRFC "Mon, 07 Aug 2006 12:34:56" = Some (time.Date 2006 8 7 12 34 56 0 time.UTC).
Proof. reflexivity. Qed.

Example Parse_rfc_any_case :
  time.Parse time.layoutRFC "wed, 10 dec 2025 15:30:45" = Some fixedTime.
Proof. reflexivity. Qed.

(** ** [convertCustomUnits] *)

Example convert_30_seconds :
  convertCustomUnits "30 seconds" = Ok "30s".
Proof. reflexivity. Qed.

Example convert_15_minutes :
  convertCustomUnits "15 minutes" = Ok "15m".
Proof. reflexivity. Qed.

Example convert_2_hours :
  convertCustomUnits "2 hours" = Ok "2h".
Proof. reflexivity. Qed.

Example convert_3_days :
  convertCustomUnits "3 days" = Ok "72h".
Proof. reflexivity. Qed.

Example convert_1_day :
  convertCustomUnits "1 day" = Ok "24h".
Proof. reflexivity. Qed.

Example convert_2_months :
  convertCustomUnits "2 months" = Ok "1440h".
Proof. reflexivity. Qed.

Example convert_1_year :
  convertCustomUnits "1 year" = Ok "8760h".
Proof. reflexivity. Qed.

Example convert_last_monday :
  convertCustomUnits "last monday" = Ok "last monday".
Proof. reflexivity. Qed.

Example convert_5d :
  convertCustomUnits "5d" = Ok "120h".
Proof. reflexivity. Qed.

Example convert_1y :
  convertCustomUnits "1y" = Ok "8760h".
Proof. reflexivity. Qed.

Example convert_3days :
  convertCustomUnits "3days" = Ok "72h".
Proof. reflexivity. Qed.

Example convert_35_min :
  convertCustomUnits "35 min" = Ok "35m".
Proof. reflexivity. Qed.

Example convert_plus_2_days :
  convertCustomUnits "+2 days" = Ok "48h".
Proof. reflexivity. Qed.

Example convert_2_Mondays :
  convertCustomUnits "2 Mondays" = Ok "2 Mondays".
Proof. reflexivity. Qed.

Example convert_1_day_2_hours :
  convertCustomUnits "1 day 2 hours" = Ok "24h 2 hours".
Proof. reflexivity. Qed.

Example convert_24h_2_hours :
  convertCustomUnits "24h 2 hours" = Ok "24h".
Proof. reflexivity. Qed.

(** ** [ParseTime] *)

Example ParseTime_1h :
  ParseTime "1h" fixedTime time.zero = Ok (time.Add fixedTime (- (1 * time.Hour))).
Proof. reflexivity. Qed.

Example ParseTime_30m :
  ParseTime "30m" fixedTime time.zero = Ok (time.Add fixedTime (- (30 * time.Minute))).
Proof. reflexivity. Qed.

Example ParseTime_45s :
  ParseTime "45s" fixedTime time.zero = Ok (time.Add fixedTime (- (45 * time.Second))).
Proof. reflexivity. Qed.

Example ParseTime_2h30m :
  ParseTime "2h30m" fixedTime time.zero = Ok (time.Add fixedTime (- (150 * time.Minute))).
Proof. reflexivity. Qed.

Example ParseTime_10_seconds_ago :
  ParseTime "10 seconds ago" fixedTime time.zero = Ok (time.Add fixedTime (- (10 * time.Second))).
Proof. reflexivity. Qed.

Example ParseTime_5_sec_ago :
  ParseTime "5 sec ago" fixedTime time.zero = Ok (time.Add fixedTime (- (5 * time.Second))).
Proof. reflexivity. Qed.

Example ParseTime_20_min_ago :
  ParseTime "20 min ago" fixedTime time.zero = Ok (time.Add fixedTime (- (20 * time.Minute))).
Proof. reflexivity. Qed.

Example ParseTime_3_hours_ago :
  ParseTime "3 hours ago" fixedTime time.zero = Ok (time.Add fixedTime (- (3 * time.Hour))).
Proof. reflexivity. Qed.

Example ParseTime_2_days_ago :
  ParseTime "2 days ago" fixedTime time.zero = Ok (time.Add fixedTime (- (48 * time.Hour))).
Proof. reflexivity. Qed.

Example ParseTime_5d :
  ParseTime "5d" fixedTime time.zero = Ok (time.Add fixedTime (- (120 * time.Hour))).
Proof. reflexivity. Qed.

Example ParseTime_1_month_ago :
  ParseTime "1 month ago" fixedTime time.zero = Ok (time.Add fixedTime (- (720 * time.Hour))).
Proof. reflexivity. Qed.

Example ParseTime_2_years_ago :
  ParseTime "2 years ago" fixedTime time.zero = Ok (time.Add fixedTime (- (17520 * time.Hour))).
Proof. reflexivity. Qed.

Example ParseTime_1y :
  ParseTime "1y" fixedTime time.zero = Ok (time.Add fixedTime (- (8760 * time.Hour))).
Proof. reflexivity. Qed.

Example ParseTime_2months :
  ParseTime "2months" fixedTime time.zero = Ok (time.Add fixedTime (- (1440 * time.Hour))).
Proof. reflexivity. Qed.

Example ParseTime_10seconds :
  ParseTime "10seconds" fixedTime time.zero = Ok (time.Add fixedTime (- (10 * time.Second))).
Proof. reflexivity. Qed.

Example ParseTime_5_minutes_ago :
  ParseTime "5    minutes    ago" fixedTime time.zero = Ok (time.Add fixedTime (- (5 * time.Minute))).
Proof. reflexivity. Qed.

Example ParseTime_lead_10_seconds_ago :
  ParseTime "  10 seconds ago" fixedTime time.zero = Ok (time.Add fixedTime (- (10 * time.Second))).
Proof. reflexivity. Qed.

Example ParseTime_trail_10_seconds_ago :
  ParseTime "10 seconds ago  " fixedTime time.zero = Ok (time.Add fixedTime (- (10 * time.Second))).
Proof. reflexivity. Qed.

Example ParseTime_100_years_ago :
  ParseTime "100 years ago" fixedTime time.zero = Ok (time.Add fixedTime (- (876000 * time.Hour))).
Proof. reflexivity. Qed.

Example ParseTime_yesterday :
  ParseTime "yesterday" fixedTime time.zero = Ok (time.Date 2025 12 9 0 0 0 0 time.UTC).
Proof. reflexivity. Qed.

Example ParseTime_last_week :
  ParseTime "last week" fixedTime time.zero = Ok (time.Date 2025 12 3 0 0 0 0 time.UTC).
Proof. reflexivity. Qed.

Example ParseTime_last_month :
  ParseTime "last month" fixedTime time.zero = Ok (time.Date 2025 11 10 0 0 0 0 time.UTC).
Proof. reflexivity. Qed.

Example ParseTime_last_year :
  ParseTime "last year" fixedTime time.zero = Ok (time.Date 2024 12 10 0 0 0 0 time.UTC).
Proof. reflexivity. Qed.

Example ParseTime_last_monday :
  ParseTime "last monday" fixedTime time.zero = Ok (time.Date 2025 12 8 0 0 0 0 time.UTC).
Proof. reflexivity. Qed.

Example ParseTime_last_tuesday :
  ParseTime "last tuesday" fixedTime time.zero = Ok (time.Date 2025 12 9 0 0 0 0 time.UTC).
Proof. reflexivity. Qed.

Example ParseTime_last_wednesday :
  ParseTime "last wednesday" fixedTime time.zero = Ok (time.Date 2025 12 3 0 0 0 0 time.UTC).
Proof. reflexivity. Qed.

Example ParseTime_last_thursday :
  ParseTime "last thursday" fixedTime time.zero = Ok (time.Date 2025 12 4 0 0 0 0 time.UTC).
Proof. reflexivity. Qed.

Example ParseTime_last_friday :
  ParseTime "last friday" fixedTime time.zero = Ok (time.Date 2025 12 5 0 0 0 0 time.UTC).
Proof. reflexivity. Qed.

Example ParseTime_last_saturday :
  ParseTime "last saturday" fixedTime time.zero = Ok (time.Date 2025 12 6 0 0 0 0 time.UTC).
Proof. reflexivity. Qed.

Example ParseTime_last_sunday :
  ParseTime "last sunday" fixedTime time.zero = Ok (time.Date 2025 12 7 0 0 0 0 time.UTC).
Proof. reflexivity. Qed.

Example ParseTime_LAST_MONDAY :
  ParseTime "LAST MONDAY" fixedTime time.zero = Ok (time.Date 2025 12 8 0 0 0 0 time.UTC).
Proof. reflexivity. Qed.

Example ParseTime_YeStErDaY :
  ParseTime "YeStErDaY" fixedTime time.zero = Ok (time.Date 2025 12 9 0 0 0 0 time.UTC).
Proof. reflexivity. Qed.

Example ParseTime_00_00 :
  ParseTime "00:00" fixedTime time.zero = Ok (time.Date 2025 12 10 0 0 0 0 time.UTC).
Proof. reflexivity. Qed.

Example ParseTime_18_45 :
  ParseTime "18:45" fixedTime time.zero = Ok (time.Date 2025 12 10 18 45 0 0 time.UTC).
Proof. reflexivity. Qed.

Example ParseTime_14_11_19 :
  ParseTime "14-11-19" fixedTime time.zero = Ok (time.Date 2014 11 19 0 0 0 0 time.UTC).
Proof. reflexivity. Qed.

Example ParseTime_2025_12_10 :
  ParseTime "2025-12-10" fixedTime time.zero = Ok (time.Date 2025 12 10 0 0 0 0 time.UTC).
Proof. reflexivity. Qed.

Example ParseTime_14_11_19_22_04_57 :
  ParseTime "14-11-19 22:04:57" fixedTime time.zero = Ok (time.Date 2014 11 19 22 4 57 0 time.UTC).
Proof. reflexivity. Qed.

Example ParseTime_2025_12_10_15_30_45 :
  ParseTime "2025-12-10 15:30:45" fixedTime time.zero = Ok (time.Date 2025 12 10 15 30 45 0 time.UTC).
Proof. reflexivity. Qed.

Example ParseTime_Mon_07_Aug_2006_12_34_56 :
  ParseTime "Mon, 07 Aug 2006 12:34:56" fixedTime time.zero = Ok (time.Date 2006 8 7 12 34 56 0 time.UTC).
Proof. reflexivity. Qed.

Example ParseTime_1416434697 :
  ParseTime "1416434697" fixedTime time.zero = Ok (time.Unix 1416434697 0).
Proof. reflexivity. Qed.

Example ParseTime_1416434697000 :
  ParseTime "1416434697000" fixedTime time.zero = Ok (time.Unix 1416434697 0).
Proof. reflexivity. Qed.

Example ParseTime_1416434697123 :
  ParseTime "1416434697123" fixedTime time.zero = Ok (time.Unix 1416434697 123000000).
Proof. reflexivity. Qed.

Example ParseTime_0 :
  ParseTime "0" fixedTime time.zero = Ok (time.Unix 0 0).
Proof. reflexivity. Qed.

Example ParseTime_minus_1 :
  ParseTime "-1" fixedTime time.zero = Ok (time.Unix (-1) 0).
Proof. reflexivity. Qed.

Example ParseTime_minus_15m :
  ParseTime "-15m" fixedTime time.zero = Ok (time.Add fixedTime (- (15 * time.Minute))).
Proof. reflexivity. Qed.

Example ParseTime_invalid :
  ParseTime "invalid" fixedTime time.zero = Err ErrInvalidTimeFormat.
Proof. reflexivity. Qed.

Example ParseTime_foobar :
  ParseTime "foobar" fixedTime time.zero = Err ErrInvalidTimeFormat.
Proof. reflexivity. Qed.

Example ParseTime_2025_13_45 :
  ParseTime "2025-13-45" fixedTime time.zero = Err ErrInvalidTimeFormat.
Proof. reflexivity. Qed.

Example ParseTime_2023_02_29 :
  ParseTime "2023-02-29" fixedTime time.zero = Err ErrInvalidTimeFormat.
Proof. reflexivity. Qed.

Example ParseTime_2025_11_31 :
  ParseTime "2025-11-31" fixedTime time.zero = Err ErrInvalidTimeFormat.
Proof. reflexivity. Qed.

Example ParseTime_last_funday :
  ParseTime "last funday" fixedTime time.zero = Err (ErrInvalidWeekday "funday").
Proof. reflexivity. Qed.

Example ParseTime_5_foo_ago :
  ParseTime "5 foo ago" fixedTime time.zero = Err (ErrDuration "5foo").
Proof. reflexivity. Qed.

Example ParseTime_lead_blank :
  ParseTime " " fixedTime time.zero = Err ErrInvalidTimeFormat.
Proof. reflexivity. Qed.

Example ParseTime_plus_anchor :
  ParseTime "+30m" fixedTime (time.Date 2025 12 10 12 0 0 0 time.UTC) = Ok (time.Date 2025 12 10 12 30 0 0 time.UTC).
Proof. reflexivity. Qed.

Example ParseTime_plus_unit_word :
  ParseTime "+2 days" fixedTime (time.Date 2025 12 10 12 0 0 0 time.UTC) = Ok (time.Add fixedTime (- (48 * time.Hour))).
Proof. reflexivity. Qed.

Example ParseTime_plus_no_anchor :
  ParseTime "+1h" fixedTime time.zero = Ok (time.Add fixedTime (1 * time.Hour)).
Proof. reflexivity. Qed.

(** ** [ParseTimeRange] *)

Example ParseTimeRange_empty :
  ParseTimeRange fixedTime "" = Ok (0, 0).
Proof. reflexivity. Qed.

Example ParseTimeRange_1416434697 :
  ParseTimeRange fixedTime "1416434697" = Ok (1416434697, 1416434697).
Proof. reflexivity. Qed.

Example ParseTimeRange_2h_to_1h :
  ParseTimeRange fixedTime "2h/1h" = Ok (1765373445, 1765377045).
Proof. reflexivity. Qed.

Example ParseTimeRange_1h_to_2h :
  ParseTimeRange fixedTime "1h/2h" = Err ErrEndBeforeStart.
Proof. reflexivity. Qed.

Example ParseTimeRange_2h_to_plus_30m :
  ParseTimeRange fixedTime "2h/+30m" = Ok (1765373445, 1765375245).
Proof. reflexivity. Qed.

Example ParseTimeRange_0900_to_1700 :
  ParseTimeRange fixedTime "09:00/17:00" = Ok (1765357200, 1765386000).
Proof. reflexivity. Qed.

Example ParseTimeRange_open_to_1416434697 :
  ParseTimeRange fixedTime "/1416434697" = Ok (-62135596800, 1416434697).
Proof. reflexivity. Qed.

Example ParseTimeRange_1416434697_to_open :
  ParseTimeRange fixedTime "1416434697/" = Ok (1416434697, 1765380645).
Proof. reflexivity. Qed.

Example ParseTimeRange_yesterday_to_open :
  ParseTimeRange fixedTime "yesterday/" = Ok (1765238400, 1765380645).
Proof. reflexivity. Qed.

Example ParseTimeRange_slash :
  ParseTimeRange fixedTime "/" = Ok (-62135596800, -62135596800).
Proof. reflexivity. Qed.

Example ParseTimeRange_1h_to_2h_to_3h :
  ParseTimeRange fixedTime "1h/2h/3h" = Err ErrInvalidTimeRange.
Proof. reflexivity. Qed.

Example ParseTimeRange_invalid_to_1h :
  ParseTimeRange fixedTime "invalid/1h" = Err (ErrInvalidStartTime ErrInvalidTimeFormat).
Proof. reflexivity. Qed.

Example ParseTimeRange_1h_to_invalid :
  ParseTimeRange fixedTime "1h/invalid" = Err (ErrInvalidEndTime ErrInvalidTimeFormat).
Proof. reflexivity. Qed.

Example ParseTimeRange_last_monday_to_last_friday :
  ParseTimeRange fixedTime "last monday/last friday" = Err ErrEndBeforeStart.
Proof. reflexivity. Qed.

Example ParseTimeRange_last_monday_to_yesterday :
  ParseTimeRange fixedTime "last monday/yesterday" = Ok (1765152000, 1765238400).
Proof. reflexivity. Qed.

Example ParseTimeRange_40_minutes_ago_to_35_min_ago :
  ParseTimeRange fixedTime "40 minutes ago/35 min ago" = Ok (1765378245, 1765378545).
Proof. reflexivity. Qed.

Example ParseTimeRange_1416434697_to_1416434797000 :
  ParseTimeRange fixedTime "1416434697/1416434797000" = Ok (1416434697, 1416434797).
Proof. reflexivity. Qed.

Example ParseTimeRange_5_to_minus_62135596800 :
  ParseTimeRange fixedTime "5/-62135596800" = Ok (5, -62135596800).
Proof. reflexivity. Qed.

(** * Properties

    The statements about the program, in the order of the pipeline: byte
    strings and the library grammars first, then the normaliser (C6),
    the single-time cascade (C2, C4, C5, C9, C10), the range parser (C1,
    C8) and the weekdays with the calendar behind them (C7).  The second
    pass of the normaliser (C3) comes last, after the lemmas on unit
    phrases it shares with the further properties. *)

(** ** Byte strings *)

Lemma ToLower_append (a b : string) :
  strings.ToLower (a ++ b) = strings.ToLower a ++ strings.ToLower b.
Proof. induction a as [|x a IH]; simpl; [reflexivity | now rewrite IH]. Qed.

Lemma HasPrefix_append (p r : string) : strings.HasPrefix (p ++ r) p = true.
Proof.
  induction p as [|c p IH]; simpl; [reflexivity|].
  now rewrite Ascii.eqb_refl, IH.
Qed.

Lemma Index_at_prefix (s sub : string) :
  strings.HasPrefix s sub = true -> strings.Index s sub = 0.
Proof. intros H. destruct s; simpl; now rewrite H. Qed.

(** An occurrence anywhere makes [Index] succeed. *)
Lemma Index_occurrence (pre sub post : string) :
  0 <= strings.Index (pre ++ sub ++ post) sub.
Proof.
  induction pre as [|c pre IH]; simpl.
  - rewrite Index_at_prefix by apply HasPrefix_append. lia.
  - destruct (strings.HasPrefix (String c (pre ++ sub ++ post)) sub); [lia|].
    destruct (strings.Index (pre ++ sub ++ post) sub <? 0) eqn:E.
    + apply Z.ltb_lt in E. lia.
    + lia.
Qed.

Lemma Contains_occurrence (pre sub post : string) :
  strings.Contains (pre ++ sub ++ post) sub = true.
Proof. apply Z.leb_le, Index_occurrence. Qed.

Lemma HasPrefix_hasByte (c : ascii) (pat s : string) :
  strings.HasPrefix s pat = true -> hasByte c pat = true -> hasByte c s = true.
Proof.
  revert s. induction pat as [|p pat IH]; intros s Hp Hc; [discriminate|].
  destruct s as [|x s]; simpl in *; [discriminate|].
  apply andb_true_iff in Hp as [Hx Hp].
  apply orb_true_iff in Hc as [Hc|Hc].
  - apply Ascii.eqb_eq in Hx. subst x. now rewrite Hc.
  - rewrite (IH s Hp Hc). apply orb_true_r.
Qed.

(** A pattern with a byte the text lacks does not occur in it. *)
Lemma Index_absent (c : ascii) (pat s : string) :
  hasByte c pat = true -> hasByte c s = false -> strings.Index s pat = -1.
Proof.
  intros Hc. induction s as [|x s IH]; intros Hs.
  - simpl. destruct (strings.HasPrefix "" pat) eqn:E; [|reflexivity].
    now rewrite (HasPrefix_hasByte c pat "" E Hc) in Hs.
  - simpl. destruct (strings.HasPrefix (String x s) pat) eqn:E.
    + now rewrite (HasPrefix_hasByte c pat _ E Hc) in Hs.
    + simpl in Hs. apply orb_false_iff in Hs as [_ Hs].
      now rewrite (IH Hs).
Qed.

Lemma trimLeft_spaces (s : string) :
  (forall c, hasByte c s = true -> isSpace c = true) -> strings.trimLeft s = "".
Proof.
  induction s as [|x s IH]; intros H; simpl; [reflexivity|].
  rewrite (H x) by (simpl; now rewrite Ascii.eqb_refl).
  apply IH. intros c Hc. apply H. simpl. rewrite Hc. apply orb_true_r.
Qed.

Lemma TrimSpace_spaces (s : string) :
  (forall c, hasByte c s = true -> isSpace c = true) -> strings.TrimSpace s = "".
Proof. intros H. unfold strings.TrimSpace. now rewrite trimLeft_spaces. Qed.

(** ** Decimal integers *)

Lemma digitsValue_nonneg (s : string) :
  forall acc v, 0 <= acc -> strconv.digitsValue acc s = Some v -> 0 <= v.
Proof.
  induction s as [|c s IH]; intros acc v Hacc H; cbn [strconv.digitsValue] in H.
  - injection H as <-. exact Hacc.
  - destruct (isDigit c) eqn:Ed; [|discriminate].
    apply (IH (acc * 10 + digitVal c)); [|exact H].
    unfold isDigit in Ed. apply andb_true_iff in Ed as [Ed _].
    apply Z.leb_le in Ed. unfold digitVal. lia.
Qed.

(** What [ParseInt] accepts fits 64 bits. *)
Lemma ParseInt_range (s : string) (v : Z) :
  strconv.ParseInt s = Some v -> minInt64 <= v <= maxInt64.
Proof.
  unfold strconv.ParseInt, minInt64, maxInt64.
  set (p := match s with
            | String "-" r => (true, r)
            | String "+" r => (false, r)
            | _ => (false, s)
            end).
  destruct p as [neg body]. destruct (isEmpty body); [discriminate|].
  destruct (strconv.digitsValue 0 body) as [u|] eqn:E; [|discriminate].
  apply digitsValue_nonneg in E; [|lia].
  destruct neg.
  - destruct (u <=? 2 ^ 63) eqn:Eu; [|discriminate].
    apply Z.leb_le in Eu. intros H. injection H as <-. lia.
  - destruct (u <? 2 ^ 63) eqn:Eu; [|discriminate].
    apply Z.ltb_lt in Eu. intros H. injection H as <-. lia.
Qed.

(** ** The duration grammar *)

Lemma leadingInt_length (s : string) :
  forall x v r, time.leadingInt x s = Some (v, r) ->
                (String.length r <= String.length s)%nat.
Proof.
  induction s as [|c s IH]; intros x v r H; cbn [time.leadingInt] in H.
  - injection H as _ <-. apply Nat.le_refl.
  - destruct (isDigit c).
    + destruct (2 ^ 63 / 10 <? x); [discriminate|].
      destruct (2 ^ 63 <? x * 10 + digitVal c); [discriminate|].
      apply IH in H. cbn [String.length]. lia.
    + injection H as _ <-. apply Nat.le_refl.
Qed.

Lemma leadingFraction_length (s : string) :
  forall x scale overflow,
    (String.length (snd (time.leadingFraction x scale overflow s))
     <= String.length s)%nat.
Proof.
  induction s as [|c s IH]; intros x scale overflow;
    cbn [time.leadingFraction]; [apply Nat.le_refl|].
  destruct (isDigit c); [|apply Nat.le_refl].
  cbn [String.length].
  destruct overflow; [specialize (IH x scale true); lia|].
  destruct ((2 ^ 63 - 1) / 10 <? x); [specialize (IH x scale true); lia|].
  destruct (2 ^ 63 <? x * 10 + digitVal c).
  - specialize (IH x scale true); lia.
  - specialize (IH (x * 10 + digitVal c) (scale * 10)%float false). lia.
Qed.

Lemma unitRun_length (s : string) :
  forall u r, time.unitRun s = (u, r) ->
              String.length s = (String.length u + String.length r)%nat.
Proof.
  induction s as [|c s IH]; intros u r H; cbn [time.unitRun] in H.
  - injection H as <- <-. reflexivity.
  - destruct ((code c =? 46) || isDigit c).
    + injection H as <- <-. reflexivity.
    + destruct (time.unitRun s) as [u' r'] eqn:E.
      injection H as <- <-. cbn [String.length]. now rewrite (IH u' r').
Qed.

Lemma fractionPart_length (s : string) :
  forall f scale rest post,
    time.fractionPart s = (f, scale, rest, post) ->
    (String.length rest <= String.length s)%nat.
Proof.
  intros f scale rest post. unfold time.fractionPart.
  destruct s as [|c r]; [intros H; injection H as _ _ <- _; apply Nat.le_refl|].
  destruct (code c =? 46).
  - pose proof (leadingFraction_length r 0 1%float false) as Hf.
    destruct (time.leadingFraction 0 1 false r) as [[f' scale'] rest'].
    intros H. injection H as _ _ <- _. cbn [snd String.length] in *. lia.
  - intros H. injection H as _ _ <- _. apply Nat.le_refl.
Qed.

(** Every turn of the loop consumes at least one byte. *)
Lemma durationGroup_shorter (d d' : Z) (s rest : string) :
  time.durationGroup d s = Some (d', rest) ->
  (String.length rest < String.length s)%nat.
Proof.
  unfold time.durationGroup. destruct s as [|c0 s0]; [discriminate|].
  destruct (negb _); [discriminate|].
  destruct (time.leadingInt 0 (String c0 s0)) as [[v s1]|] eqn:Ei;
    [|discriminate].
  apply leadingInt_length in Ei.
  destruct (time.fractionPart s1) as [[[f scale] s2] post] eqn:Ef.
  apply fractionPart_length in Ef. cbv zeta.
  destruct (negb _ && negb post); [discriminate|].
  destruct (time.unitRun s2) as [u s3] eqn:Eu.
  apply unitRun_length in Eu.
  destruct u as [|cu u]; [discriminate|]. cbn [isEmpty].
  destruct (time.unitMap _) as [unit|]; [|discriminate].
  destruct (2 ^ 63 / unit <? v); [discriminate|].
  destruct ((0 <? f) && _); [discriminate|].
  destruct (2 ^ 63 <? _); [discriminate|].
  intros H. injection H as _ <-.
  cbn [String.length] in *. lia.
Qed.

(** The loop does not depend on the fuel once it covers the text:
    [ParseDuration] never gives up for want of it. *)
Lemma durationGroups_fuel (fuel1 : nat) :
  forall fuel2 d s,
    (String.length s <= fuel1)%nat -> (String.length s <= fuel2)%nat ->
    time.durationGroups fuel1 d s = time.durationGroups fuel2 d s.
Proof.
  induction fuel1 as [|fuel1 IH]; intros fuel2 d s H1 H2.
  - destruct s; [now destruct fuel2 | cbn [String.length] in H1; lia].
  - destruct s as [|c s]; [now destruct fuel2|].
    destruct fuel2 as [|fuel2]; [cbn [String.length] in H2; lia|].
    cbn [time.durationGroups].
    destruct (time.durationGroup d (String c s)) as [[d' rest]|] eqn:E;
      [|reflexivity].
    apply durationGroup_shorter in E. apply IH; lia.
Qed.

(** ** The unit normaliser *)

(** Normalisation has no failing path. *)
Lemma convertCustomUnits_total (s : string) :
  exists out, convertCustomUnits s = Ok out.
Proof.
  unfold convertCustomUnits.
  repeat match goal with
         | |- exists out, (if ?b then _ else _) = _ => destruct b
         | |- exists out, match ?x with Some _ => _ | None => _ end = _ =>
             destruct x
         | |- exists out, Ok ?r = _ => now exists r
         | |- exists out, (let d := _ in _) = _ => cbv zeta
         end.
Qed.

Lemma hasReservedKeyword_occurrence (kw pre mid post : string) :
  In kw reservedKeywords -> strings.ToLower mid = kw ->
  hasReservedKeyword (pre ++ mid ++ post) = true.
Proof.
  intros Hin Hmid. unfold hasReservedKeyword.
  apply existsb_exists. exists kw. split; [exact Hin|].
  rewrite !ToLower_append, Hmid. apply Contains_occurrence.
Qed.

Lemma hasReservedKeyword_guard (s : string) :
  hasReservedKeyword s = true -> convertCustomUnits s = Ok s.
Proof. intros H. unfold convertCustomUnits. now rewrite H. Qed.

Lemma allBytes_hasByte (p : ascii -> bool) (c : ascii) (s : string) :
  allBytes p s = true -> p c = false -> hasByte c s = false.
Proof.
  intros Hs Hc. induction s as [|x s IH]; simpl in *; [reflexivity|].
  apply andb_true_iff in Hs as [Hx Hs]. rewrite (IH Hs), orb_false_r.
  destruct (Ascii.eqb x c) eqn:E; [|reflexivity].
  apply Ascii.eqb_eq in E. congruence.
Qed.

(** The rules of the normaliser on a text [s] that lacks a byte [c] of
    the unit word they look for. *)
Section AbsentByte.

Variable s : string.
Variable c : ascii.
Hypothesis c_absent : hasByte c s = false.

Lemma convertUnitAt_absent (needle : string) (k : Z) :
  hasByte c needle = true -> convertUnitAt s needle k = None.
Proof.
  intros H. unfold convertUnitAt.
  now rewrite (Index_absent c needle s H c_absent).
Qed.

Lemma tryConvertUnit_absent (pat : string) (k : Z) :
  hasByte c pat = true -> tryConvertUnit s pat k = None.
Proof.
  intros H. unfold tryConvertUnit.
  rewrite !convertUnitAt_absent; [reflexivity | exact H |].
  simpl. rewrite H. apply orb_true_r.
Qed.

Lemma convertSimpleUnitAt_absent (needle dst : string) :
  hasByte c needle = true -> convertSimpleUnitAt s needle dst = None.
Proof.
  intros H. unfold convertSimpleUnitAt.
  now rewrite (Index_absent c needle s H c_absent).
Qed.

Lemma tryConvertSimpleUnit_absent (pat dst : string) :
  hasByte c pat = true -> tryConvertSimpleUnit s pat dst = None.
Proof.
  intros H. unfold tryConvertSimpleUnit.
  rewrite !convertSimpleUnitAt_absent; [reflexivity | exact H |].
  simpl. rewrite H. apply orb_true_r.
Qed.

Lemma tryConvertShortForm_absent (short long : string) (k : Z) :
  hasByte c short = true -> tryConvertShortForm s short k long = "".
Proof.
  intros H. unfold tryConvertShortForm, strings.Contains.
  now rewrite (Index_absent c short s H c_absent).
Qed.

End AbsentByte.

(** A text in normal form is left alone by the normaliser. *)
Lemma convertCustomUnits_normalForm (s : string) :
  normalForm s = true -> convertCustomUnits s = Ok s.
Proof.
  intros H. unfold convertCustomUnits.
  destruct (hasReservedKeyword s); [reflexivity|].
  assert (Hy : hasByte "y" s = false) by (now apply (allBytes_hasByte durationByte)).
  assert (Ho : hasByte "o" s = false) by (now apply (allBytes_hasByte durationByte)).
  assert (Hd : hasByte "d" s = false) by (now apply (allBytes_hasByte durationByte)).
  assert (He : hasByte "e" s = false) by (now apply (allBytes_hasByte durationByte)).
  assert (Hi : hasByte "i" s = false) by (now apply (allBytes_hasByte durationByte)).
  cbn [firstMatch timeUnitsToHours simpleTimeUnits patterns toHours
       simplePatterns to].
  rewrite !(tryConvertUnit_absent s "y" Hy) by reflexivity.
  rewrite !(tryConvertUnit_absent s "o" Ho) by reflexivity.
  rewrite !(tryConvertUnit_absent s "d" Hd) by reflexivity.
  rewrite (tryConvertShortForm_absent s "d" Hd) by reflexivity.
  rewrite (tryConvertShortForm_absent s "y" Hy) by reflexivity.
  cbn [isEmpty negb].
  rewrite !(tryConvertSimpleUnit_absent s "e" He) by reflexivity.
  rewrite !(tryConvertSimpleUnit_absent s "i" Hi) by reflexivity.
  rewrite !(tryConvertSimpleUnit_absent s "o" Ho) by reflexivity.
  reflexivity.
Qed.

(** C6. A text with a reserved keyword inside, in any mix of cases, is
    returned exactly as it came, whatever else it holds. *)
Theorem convertCustomUnits_keyword_guard (s : string) :
  (exists kw pre mid post,
      In kw reservedKeywords /\ s = pre ++ mid ++ post
      /\ strings.ToLower mid = kw) ->
  convertCustomUnits s = Ok s.
Proof.
  intros (kw & pre & mid & post & Hin & -> & Hmid).
  apply hasReservedKeyword_guard.
  exact (hasReservedKeyword_occurrence kw pre mid post Hin Hmid).
Qed.

Lemma convertCustomUnits_keyword_guard_witness :
  convertCustomUnits "3 days before Yesterday" = Ok "3 days before Yesterday".
Proof.
  apply convertCustomUnits_keyword_guard.
  exists "yesterday", "3 days before ", "Yesterday", "".
  split; [|split; reflexivity].
  simpl. tauto.
Defined.

(** ** The single-time cascade *)

Lemma isEmpty_false (s : string) : s <> "" -> isEmpty s = false.
Proof. destruct s; [congruence | reflexivity]. Qed.

(** C9. The empty expression never fails: it resolves to [start] itself,
    the zero instant, when [start] is zero, and to [now] otherwise. *)
Theorem ParseTime_empty (now start : time.Time) :
  exists t,
    ParseTime "" now start = Ok t
    /\ if time.IsZero start
       then t = start /\ time.IsZero t = true
            /\ time.Time_Unix t = time.Time_Unix time.zero /\ time.nsec t = 0
       else t = now.
Proof.
  unfold ParseTime. cbn [isEmpty].
  destruct (time.IsZero start) eqn:E; eexists; split; try reflexivity.
  repeat split; [exact E | |];
    unfold time.IsZero in E; apply andb_true_iff in E as [E1 E2];
    [apply Z.eqb_eq in E1; exact E1 | apply Z.eqb_eq in E2; exact E2].
Qed.

(** C10. The test for the empty string precedes the trimming: a non-empty
    expression made of white space only does not get the empty-string
    resolution; it runs through the whole cascade on the empty remainder
    and fails there. *)
Theorem ParseTime_blank (s : string) (now start : time.Time) :
  s <> "" ->
  (forall c, hasByte c s = true -> isSpace c = true) ->
  ParseTime s now start = Err ErrInvalidTimeFormat.
Proof.
  intros Hne Hsp. unfold ParseTime.
  rewrite (isEmpty_false s Hne), (TrimSpace_spaces s Hsp).
  reflexivity.
Qed.

Lemma ParseTime_blank_witness :
  ParseTime " " fixedTime fixedTime = Err ErrInvalidTimeFormat.
Proof.
  apply ParseTime_blank; [discriminate|].
  intros c H. cbn [hasByte] in H. rewrite orb_false_r in H.
  apply Ascii.eqb_eq in H. now subst c.
Defined.

(** The integer path of the cascade. *)
Lemma ParseTime_integer (s : string) (v : Z) (now start : time.Time) :
  s <> "" -> strconv.ParseInt (strings.TrimSpace s) = Some v ->
  ParseTime s now start = parseUnixTimestamp v.
Proof.
  intros Hne Hv. unfold ParseTime.
  now rewrite (isEmpty_false s Hne), Hv.
Qed.

Lemma Unix_in_range (sec ns : Z) :
  0 <= ns < 1000000000 ->
  time.Unix sec ns = time.mkTime sec ns time.Local.
Proof.
  intros H. unfold time.Unix.
  destruct (ns <? 0) eqn:E1; [apply Z.ltb_lt in E1; lia|].
  destruct (1000000000 <=? ns) eqn:E2; [apply Z.leb_le in E2; lia|].
  reflexivity.
Qed.

(** C4, as the code has it: the threshold is compared with the signed
    value, so every integer that fits 64 bits and is at most 9,999,999,999
    (every negative one included) is a count of seconds, and every larger
    one is a count of milliseconds, split into whole seconds and a
    remainder of whole milliseconds. *)
Theorem ParseTime_unix_timestamp (s : string) (v : Z) (now start : time.Time) :
  s <> "" -> strconv.ParseInt (strings.TrimSpace s) = Some v ->
  exists t, ParseTime s now start = Ok t /\
    if 9999999999 <? v
    then time.unixSec t * 1000 + time.nsec t / 1000000 = v
         /\ time.nsec t mod 1000000 = 0
         /\ 0 <= time.nsec t < 1000000000
    else time.unixSec t = v /\ time.nsec t = 0.
Proof.
  intros Hne Hv. rewrite (ParseTime_integer s v now start Hne Hv).
  unfold parseUnixTimestamp.
  destruct (9999999999 <? v) eqn:E.
  - apply Z.ltb_lt in E.
    assert (Hq : Z.quot v 1000 = v / 1000) by (apply Z.quot_div_nonneg; lia).
    assert (Hr : Z.rem v 1000 = v mod 1000) by (apply Z.rem_mod_nonneg; lia).
    pose proof (Z.mod_pos_bound v 1000 ltac:(lia)) as Hb.
    pose proof (Z.div_mod v 1000 ltac:(lia)) as Hd.
    rewrite Hq, Hr, Unix_in_range by lia.
    eexists. split; [reflexivity|]. cbn [time.unixSec time.nsec].
    rewrite Z.div_mul, Z.mod_mul by lia. lia.
  - rewrite Unix_in_range by lia.
    eexists. split; [reflexivity|]. now cbn.
Qed.

Lemma ParseTime_unix_timestamp_witness :
  exists t, ParseTime " 1416434697123" fixedTime time.zero = Ok t /\
    time.unixSec t * 1000 + time.nsec t / 1000000 = 1416434697123
    /\ time.nsec t mod 1000000 = 0
    /\ 0 <= time.nsec t < 1000000000.
Proof.
  apply (ParseTime_unix_timestamp " 1416434697123" 1416434697123);
    [discriminate | reflexivity].
Defined.

(** C4 as stated fails below zero: a negative integer of large magnitude
    is read as seconds, not split as milliseconds. *)
Lemma ParseTime_unix_timestamp_magnitude_counterexample :
  9999999999 < Z.abs (-10000000000)
  /\ ParseTime "-10000000000" fixedTime time.zero
     = Ok (time.Unix (-10000000000) 0)
  /\ time.Unix (-10000000000) 0
     <> time.Unix (Z.quot (-10000000000) 1000)
          (Z.rem (-10000000000) 1000 * 1000000).
Proof.
  split; [reflexivity|]. split; [reflexivity|].
  vm_compute. discriminate.
Qed.

(** C2, as the code has it: 9999999999 is the last value read as seconds;
    10000000000 is read as milliseconds, that is ten million seconds. *)
Theorem ParseTime_boundary (now start : time.Time) :
  ParseTime "9999999999" now start = Ok (time.Unix 9999999999 0)
  /\ time.Time_Unix (time.Unix 9999999999 0) = 9999999999
  /\ ParseTime "10000000000" now start = Ok (time.Unix 10000000 0)
  /\ time.Time_Unix (time.Unix 10000000 0) = 10000000.
Proof. repeat split. Qed.

(** C2 as stated fails: the second boundary value does not resolve to
    the epoch second 10. *)
Lemma ParseTime_boundary_counterexample :
  exists t, ParseTime "10000000000" fixedTime time.zero = Ok t
            /\ time.Time_Unix t = 10000000 /\ time.Time_Unix t <> 10.
Proof.
  eexists. split; [reflexivity|]. split; [reflexivity|].
  vm_compute. discriminate.
Qed.

(** *** Errors of the cascade *)

Lemma parseWeekday_error (w : string) (e : error) :
  parseWeekday w = Err e -> e = ErrInvalidWeekday w.
Proof.
  unfold parseWeekday.
  repeat match goal with
         | |- (if ?b then _ else _) = _ -> _ => destruct b
         end; congruence.
Qed.

Lemma parseLastWeekday_error (d : string) (now : time.Time) (e : error) :
  parseLastWeekday d now = Err e -> exists w, e = ErrInvalidWeekday w.
Proof.
  unfold parseLastWeekday.
  destruct (parseWeekday (strings.TrimPrefix d "last ")) eqn:E; [discriminate|].
  intros H. injection H as <-. eexists. exact (parseWeekday_error _ _ E).
Qed.

Lemma parseRelativeTime_error (d : string) (now start : time.Time)
  (positive : bool) (e : error) :
  parseRelativeTime d now start positive = Err e -> relativeError e.
Proof.
  unfold parseRelativeTime, relativeError. cbv zeta.
  repeat match goal with
         | |- (if String.eqb _ _ then _ else _) = _ -> _ =>
             destruct (String.eqb _ _); [discriminate|]
         end.
  destruct (strings.HasPrefix _ "last ").
  - intros H. left. exact (parseLastWeekday_error _ _ _ H).
  - destruct (time.ParseDuration _) eqn:E.
    + destruct positive; [destruct (time.IsZero start)|]; discriminate.
    + intros H. injection H as <-. right. eauto.
Qed.

Lemma parseLayouts_error (t : string) (now : time.Time) (e : error) :
  parseLayouts t now = Err e -> e = ErrInvalidTimeFormat.
Proof.
  unfold parseLayouts.
  repeat match goal with
         | |- match time.Parse ?l t with Some _ => _ | None => _ end = _ -> _ =>
             destruct (time.Parse l t); [discriminate|]
         end.
  congruence.
Qed.

(** The kind of a failure of [ParseTime], by the path the expression
    takes: normalisation has no error of its own; the plain path ends in
    [ErrInvalidTimeFormat]; the relative path (" ago", a leading sign, a
    "last "/"yesterday" prefix) ends in the duration parser's own error or
    in [ErrInvalidWeekday]. *)
Lemma ParseTime_error_kind (s : string) (now start : time.Time) (e : error) :
  ParseTime s now start = Err e ->
  (forall cause, e <> ErrConvertUnits cause)
  /\ if relativePath s then relativeError e else e = ErrInvalidTimeFormat.
Proof.
  unfold ParseTime, relativePath. cbv zeta.
  destruct (isEmpty s).
  { destruct (time.IsZero start); discriminate. }
  destruct (strconv.ParseInt (strings.TrimSpace s)) as [v|].
  { unfold parseUnixTimestamp. destruct (9999999999 <? v); discriminate. }
  assert (Hrel : forall x, relativeError x -> forall cause, x <> ErrConvertUnits cause).
  { intros x [[w ->]|[text [-> _]]] cause; discriminate. }
  destruct (strings.HasPrefix (strings.ToLower (strings.TrimSpace s)) "last "
            || strings.HasPrefix (strings.ToLower (strings.TrimSpace s)) "yesterday")
    eqn:Ekw.
  { cbn [orb]. intros H. apply parseRelativeTime_error in H. auto. }
  cbn [orb].
  destruct (strings.Contains (strings.TrimSpace s) " ago").
  { cbn [orb].
    destruct (convertCustomUnits_total
                (strings.ReplaceFirst (strings.TrimSpace s) " ago" "")) as [c ->].
    intros H. apply parseRelativeTime_error in H. auto. }
  cbn [orb].
  destruct (convertCustomUnits_total (strings.TrimSpace s)) as [n ->].
  destruct (strings.HasPrefix n "+").
  { cbn [orb]. intros H. apply parseRelativeTime_error in H. auto. }
  destruct (strings.HasPrefix n "-").
  { cbn [orb]. intros H. apply parseRelativeTime_error in H. auto. }
  cbn [orb].
  destruct (time.ParseDuration n); [discriminate|].
  intros H. apply parseLayouts_error in H. subst e.
  split; [discriminate | reflexivity].
Qed.

(** C5. A phrase the duration grammar rejects must end in
    [ErrInvalidTimeFormat].  The code does so on the plain path, but with an
    " ago" suffix or a sign in front the error of the duration parser
    leaves [ParseTime] as it came, for every [now] and [start]. *)
Theorem ParseTime_malformed_unit_error (now start : time.Time) :
  time.ParseDuration "5foo" = None
  /\ ParseTime "5 foo" now start = Err ErrInvalidTimeFormat
  /\ ParseTime "5 foo ago" now start = Err (ErrDuration "5foo")
  /\ ParseTime "+5 foo" now start = Err (ErrDuration "5foo")
  /\ ParseTime "-5 foo" now start = Err (ErrDuration "5foo")
  /\ ErrDuration "5foo" <> ErrInvalidTimeFormat
  /\ (forall name, ErrDuration "5foo" <> ErrInvalidWeekday name).
Proof.
  repeat split; try reflexivity; discriminate.
Qed.

(** ** The range parser *)

(** The ordering check compares instants; it carries over to the epoch
    seconds that are returned. *)
Lemma not_Before_Unix (en st : time.Time) :
  time.Before en st = false -> time.Time_Unix st <= time.Time_Unix en.
Proof.
  unfold time.Before, time.Time_Unix. intros H.
  apply orb_false_iff in H as [H _]. apply Z.ltb_ge in H. exact H.
Qed.

(** C1, as the code has it: a successful range parse returns either the
    pair of zeros of the empty input or the epoch seconds of the two
    resolved instants, and these are ordered whenever neither instant is
    the zero instant. *)
Theorem ParseTimeRange_ordered (now : time.Time) (timeRange : string)
  (s e : Z) :
  ParseTimeRange now timeRange = Ok (s, e) ->
  (timeRange = "" /\ s = 0 /\ e = 0)
  \/ exists startTime endTime,
      rangeInstants now timeRange = Ok (startTime, endTime)
      /\ s = time.Time_Unix startTime /\ e = time.Time_Unix endTime
      /\ (time.IsZero startTime = false -> time.IsZero endTime = false ->
          s <= e).
Proof.
  unfold ParseTimeRange. destruct timeRange as [|c r]; cbn [isEmpty]; intros H.
  - injection H as <- <-. now left.
  - right.
    destruct (rangeInstants now (String c r)) as [[st en]|]; [|discriminate].
    destruct (time.IsZero en) eqn:Een, (time.IsZero st) eqn:Est;
      cbn [negb andb] in H.
    1-3: injection H as <- <-; exists st, en; repeat split; congruence.
    destruct (time.Before en st) eqn:Eb; [discriminate|].
    injection H as <- <-. exists st, en. repeat split.
    intros _ _. now apply not_Before_Unix.
Qed.

Lemma ParseTimeRange_ordered_witness :
  exists startTime endTime,
    rangeInstants fixedTime "2h/+30m" = Ok (startTime, endTime)
    /\ time.IsZero startTime = false /\ time.IsZero endTime = false
    /\ 1765373445 <= 1765375245.
Proof.
  destruct (ParseTimeRange_ordered fixedTime "2h/+30m" 1765373445 1765375245
              eq_refl)
    as [[H _]|(st & en & Hr & _ & _ & Hord)]; [discriminate|].
  exists st, en.
  assert (Hz : time.IsZero st = false /\ time.IsZero en = false).
  { vm_compute in Hr. injection Hr as <- <-. split; reflexivity. }
  destruct Hz as [Hs He].
  repeat split; [exact Hr | exact Hs | exact He | exact (Hord Hs He)].
Defined.

(** C1 as stated fails when the end resolves to the zero instant: the
    range is accepted although its end lies before its start and the
    values are not both zero. *)
Lemma ParseTimeRange_ordered_counterexample :
  ParseTimeRange fixedTime "5/-62135596800" = Ok (5, -62135596800)
  /\ ~ (5 = 0 /\ -62135596800 = 0)
  /\ ~ (-62135596800 >= 5).
Proof.
  split; [reflexivity|]. split; [intros [H _]; discriminate|].
  intros H. apply H. reflexivity.
Qed.







(** ** Weekdays *)

(** The names [parseWeekday] knows are those of [weekdayNames], with the
    numbers given there. *)
Lemma parseWeekday_names (name : string) (weekday : time.Weekday) :
  parseWeekday name = Ok weekday <-> In (name, weekday) weekdayNames.
Proof.
  unfold parseWeekday, weekdayNames. split.
  - repeat match goal with
           | |- (if String.eqb name ?w then _ else _) = _ -> _ =>
               destruct (String.eqb name w) eqn:?E
           end;
      intros H; try discriminate; injection H as <-;
      match goal with
      | E : String.eqb name _ = true |- _ => apply String.eqb_eq in E; subst name
      end; simpl; tauto.
  - intros H.
    repeat (destruct H as [H|H]; [injection H as <- <-; reflexivity|]).
    destruct H.
Qed.




(** ** The calendar *)

(** From a conjunction of comparisons that evaluates to [true] to the
    comparisons themselves, then linear arithmetic. *)
Ltac checked H :=
  repeat (apply andb_true_iff in H as [H ?]);
  repeat match goal with
         | Hx : (_ <=? _) = true |- _ => apply Z.leb_le in Hx
         | Hx : (_ <? _) = true |- _ => apply Z.ltb_lt in Hx
         | Hx : (_ =? _) = true |- _ => apply Z.eqb_eq in Hx
         end;
  lia.

Lemma checkRange_spec (f : Z -> bool) (n : nat) (start z : Z) :
  checkRange f n start = true ->
  start <= z < start + Z.of_nat n -> f z = true.
Proof.
  revert start. induction n as [|n IH]; intros start Hc Hz; [lia|].
  cbn [checkRange] in Hc. destruct (f start) eqn:E; [|discriminate].
  destruct (Z.eq_dec z start) as [->|Hne]; [exact E|].
  apply (IH (start + 1) Hc). lia.
Qed.

Lemma cycleYear_checked :
  checkRange cycleYearOk (Z.to_nat 146097) 0 = true.
Proof. vm_compute. reflexivity. Qed.

Lemma cycleYear_spec (r : Z) :
  0 <= r < 146097 ->
  let (k, yd) := cycleYear r in
  0 <= k < 400
  /\ 365 * k + k / 4 - k / 100 + yd = r
  /\ 0 <= yd < (if time.isLeap (k + 1) then 366 else 365).
Proof.
  intros Hr.
  assert (H : cycleYearOk r = true).
  { apply (checkRange_spec _ _ _ r cycleYear_checked). lia. }
  unfold cycleYearOk in H. destruct (cycleYear r) as [k yd].
  checked H.
Qed.

Lemma monthDay_checked :
  checkRange (monthDayOk true) 366 0 = true
  /\ checkRange (monthDayOk false) 365 0 = true.
Proof. split; vm_compute; reflexivity. Qed.

Lemma monthDay_spec (leap : bool) (yd : Z) :
  0 <= yd < (if leap then 366 else 365) ->
  let (m, d) := time.monthDay leap yd in
  1 <= m <= 12 /\ 1 <= d
  /\ time.daysBefore m + (if leap && (3 <=? m) then 1 else 0) + (d - 1) = yd.
Proof.
  intros Hr.
  assert (H : monthDayOk leap yd = true).
  { destruct monthDay_checked as [Ht Hf]. destruct leap.
    - apply (checkRange_spec _ _ _ yd Ht). lia.
    - apply (checkRange_spec _ _ _ yd Hf). lia. }
  unfold monthDayOk in H. destruct (time.monthDay leap yd) as [m d].
  checked H.
Qed.

Lemma yearDay_cycle (days : Z) :
  time.yearDay days =
  let d := days + 719162 in
  let (k, yd) := cycleYear (d mod 146097) in
  (400 * (d / 146097) + k + 1, yd).
Proof.
  unfold time.yearDay, cycleYear. cbv zeta.
  rewrite (Z.mod_eq (days + 719162) 146097) by lia.
  f_equal. lia.
Qed.

Lemma isLeap_cycle (q k : Z) :
  time.isLeap (400 * q + k + 1) = time.isLeap (k + 1).
Proof.
  unfold time.isLeap.
  replace (400 * q + k + 1) with (k + 1 + q * 400) by lia.
  rewrite Z.mod_add by lia.
  replace (k + 1 + q * 400) with (k + 1 + (q * 4) * 100) by lia.
  rewrite Z.mod_add by lia.
  replace (k + 1 + q * 4 * 100) with (k + 1 + (q * 100) * 4) by lia.
  now rewrite Z.mod_add by lia.
Qed.

Lemma daysSinceEpoch_cycle (q k : Z) :
  0 <= k < 400 ->
  time.daysSinceEpoch (400 * q + k + 1)
  = 146097 * q + 365 * k + k / 4 - k / 100 - 719162.
Proof.
  intros Hk. unfold time.daysSinceEpoch. cbv zeta.
  replace (400 * q + k + 1 - 1) with (k + q * 400) by lia.
  rewrite (Z.div_add k q 400) by lia.
  replace (k + q * 400) with (k + (q * 4) * 100) by lia.
  rewrite (Z.div_add k (q * 4) 100) by lia.
  replace (k + q * 4 * 100) with (k + (q * 100) * 4) by lia.
  rewrite (Z.div_add k (q * 100) 4) by lia.
  rewrite (Z.div_small k 400) by lia. lia.
Qed.

(** The date of a day number names that day. *)
Lemma Time_Date_dayNumber (t : time.Time) :
  let '(year, month, day) := time.Time_Date t in
  1 <= month <= 12 /\ dayNumber year month day = time.localDay t.
Proof.
  unfold time.Time_Date. rewrite yearDay_cycle. cbv zeta.
  set (d := time.localDay t + 719162).
  pose proof (Z.mod_pos_bound d 146097 ltac:(lia)) as Hr.
  pose proof (cycleYear_spec (d mod 146097) Hr) as Hc.
  destruct (cycleYear (d mod 146097)) as [k yd].
  destruct Hc as (Hk & Hsum & Hyd).
  rewrite isLeap_cycle.
  pose proof (monthDay_spec (time.isLeap (k + 1)) yd Hyd) as Hm.
  destruct (time.monthDay (time.isLeap (k + 1)) yd) as [m dd].
  destruct Hm as (Hm & Hd & Hmd).
  split; [exact Hm|].
  unfold dayNumber. rewrite isLeap_cycle, daysSinceEpoch_cycle by exact Hk.
  pose proof (Z.div_mod d 146097 ltac:(lia)) as Hdm.
  unfold d in *. lia.
Qed.

Lemma offsetAt_lookup (l : time.Location) (sec : Z) :
  exists start end_,
    time.Location_lookup l sec = (time.offsetAt l sec, start, end_).
Proof.
  unfold time.offsetAt.
  destruct (time.Location_lookup l sec) as [[offset start] end_]. eauto.
Qed.

Lemma localSec_unfold (x : time.Time) :
  time.localSec x = time.unixSec x + time.offsetAt (time.loc x) (time.unixSec x).
Proof. reflexivity. Qed.

Lemma localDay_unfold (x : time.Time) :
  time.localDay x = time.localSec x / 86400.
Proof. reflexivity. Qed.

(** The nanoseconds and the zone of the result of [time.Date]. *)
Lemma Date_nsec_loc (year month day hour min sec ns : Z) (l : time.Location) :
  time.nsec (time.Date year month day hour min sec ns l) = ns mod 1000000000
  /\ time.loc (time.Date year month day hour min sec ns l) = l.
Proof.
  unfold time.Date, time.norm.
  match goal with
  | |- context [time.Location_lookup l ?u] =>
      destruct (time.Location_lookup l u) as [[offset start] end_]
  end.
  split; reflexivity.
Qed.

(** [time.Date] counts seconds linearly from the day of its date, and
    takes off the offset of the zone where the zone has one offset at
    the count and at the instant found. *)
Lemma Date_unixSec (year month day hour min sec ns : Z) (l : time.Location)
  (k : Z) :
  1 <= month <= 12 ->
  time.offsetAt l (dayNumber year month day * 86400 + hour * 3600 + min * 60
                   + sec + ns / 1000000000) = k ->
  time.offsetAt l (dayNumber year month day * 86400 + hour * 3600 + min * 60
                   + sec + ns / 1000000000 - k) = k ->
  time.unixSec (time.Date year month day hour min sec ns l)
  = dayNumber year month day * 86400 + hour * 3600 + min * 60 + sec
    + ns / 1000000000 - k.
Proof.
  intros Hm. set (u := dayNumber year month day * 86400 + hour * 3600
                       + min * 60 + sec + ns / 1000000000).
  intros H1 H2. unfold time.Date, time.norm.
  rewrite (Z.div_small (month - 1) 12), (Z.mod_small (month - 1) 12) by lia.
  rewrite Z.add_0_r. replace (month - 1 + 1) with month by lia.
  match goal with
  | |- context [time.Location_lookup l ?x] =>
      assert (Hu : x = u); [| rewrite Hu]
  end.
  { unfold u, dayNumber.
    set (leapDay := if time.isLeap year && (3 <=? month) then 1 else 0).
    replace (if time.isLeap year && (3 <=? month)
             then time.daysSinceEpoch year + time.daysBefore month + 1
             else time.daysSinceEpoch year + time.daysBefore month)
      with (time.daysSinceEpoch year + time.daysBefore month + leapDay)
      by (unfold leapDay; destruct (time.isLeap year && (3 <=? month)); lia).
    set (s1 := sec + ns / 1000000000).
    set (m1 := min + s1 / 60).
    set (h1 := hour + m1 / 60).
    pose proof (Z.div_mod s1 60 ltac:(lia)).
    pose proof (Z.div_mod m1 60 ltac:(lia)).
    pose proof (Z.div_mod h1 24 ltac:(lia)).
    lia. }
  destruct (offsetAt_lookup l u) as (start & end_ & Hl).
  rewrite Hl, H1. cbn [time.unixSec].
  destruct (k =? 0) eqn:E; [apply Z.eqb_eq in E; lia|].
  destruct ((u - k <? start) || (end_ <=? u - k)); [rewrite H2|]; reflexivity.
Qed.

Lemma Date_localSec (year month day hour min sec ns : Z) (l : time.Location)
  (k : Z) :
  1 <= month <= 12 ->
  time.offsetAt l (dayNumber year month day * 86400 + hour * 3600 + min * 60
                   + sec + ns / 1000000000) = k ->
  time.offsetAt l (dayNumber year month day * 86400 + hour * 3600 + min * 60
                   + sec + ns / 1000000000 - k) = k ->
  time.localSec (time.Date year month day hour min sec ns l)
  = dayNumber year month day * 86400 + hour * 3600 + min * 60 + sec
    + ns / 1000000000.
Proof.
  intros Hm H1 H2. rewrite localSec_unfold.
  destruct (Date_nsec_loc year month day hour min sec ns l) as [_ Hl].
  rewrite Hl, (Date_unixSec _ _ _ _ _ _ _ _ k Hm H1 H2), H2. lia.
Qed.

Lemma clock_of_day (t : time.Time) :
  time.Hour_of t * 3600 + time.Minute_of t * 60 + time.Second_of t
  = time.localSec t mod 86400.
Proof.
  unfold time.Hour_of, time.Minute_of, time.Second_of.
  set (L := time.localSec t).
  pose proof (Z.div_mod L 86400 ltac:(lia)).
  pose proof (Z.mod_pos_bound L 86400 ltac:(lia)).
  pose proof (Z.div_mod (L mod 86400) 3600 ltac:(lia)).
  pose proof (Z.mod_pos_bound (L mod 86400) 3600 ltac:(lia)).
  pose proof (Z.div_mod L 3600 ltac:(lia)).
  pose proof (Z.mod_pos_bound L 3600 ltac:(lia)).
  pose proof (Z.div_mod (L mod 3600) 60 ltac:(lia)).
  pose proof (Z.mod_pos_bound (L mod 3600) 60 ltac:(lia)).
  pose proof (Z.div_mod L 60 ltac:(lia)).
  pose proof (Z.mod_pos_bound L 60 ltac:(lia)).
  lia.
Qed.

(** A date with the clock of [t], in a zone steady around the day of the
    date, is that clock on that day. *)
Lemma Date_clock (t : time.Time) (year month day : Z) (l : time.Location)
  (k : Z) :
  validTime t -> 1 <= month <= 12 ->
  steadyZone l (dayNumber year month day) k ->
  time.localSec (time.Date year month day (time.Hour_of t) (time.Minute_of t)
                   (time.Second_of t) (time.nsec t) l)
  = dayNumber year month day * 86400 + time.localSec t mod 86400.
Proof.
  intros Hv Hm (_ & Hk & Hz). unfold validTime in Hv.
  pose proof (clock_of_day t) as Hc.
  pose proof (Z.mod_pos_bound (time.localSec t) 86400 ltac:(lia)) as Hb.
  assert (Hn : time.nsec t / 1000000000 = 0) by (apply Z.div_small; lia).
  rewrite (Date_localSec _ _ _ _ _ _ _ _ k Hm); rewrite ?Hn;
    [lia | apply Hz; lia | apply Hz; lia].
Qed.

(** [AddDate(0, 0, n)] moves an instant by [n] whole days where the zone
    is steady around the day reached. *)
Lemma AddDate_days (t : time.Time) (n k : Z) :
  validTime t ->
  steadyZone (time.loc t) (time.localDay t + n) k ->
  time.localSec (time.AddDate t 0 0 n)
  = (time.localDay t + n) * 86400 + time.localSec t mod 86400
  /\ time.localDay (time.AddDate t 0 0 n) = time.localDay t + n
  /\ time.nsec (time.AddDate t 0 0 n) = time.nsec t
  /\ time.loc (time.AddDate t 0 0 n) = time.loc t.
Proof.
  intros Hv Hz. unfold time.AddDate.
  pose proof (Time_Date_dayNumber t) as Hd.
  destruct (time.Time_Date t) as [[y m] d]. destruct Hd as [Hm Hd].
  rewrite !Z.add_0_r.
  assert (Hk : dayNumber y m (d + n) = time.localDay t + n)
    by (unfold dayNumber in *; lia).
  rewrite <- Hk in Hz.
  pose proof (Date_clock t y m (d + n) (time.loc t) k Hv Hm Hz) as Hs.
  destruct (Date_nsec_loc y m (d + n) (time.Hour_of t) (time.Minute_of t)
              (time.Second_of t) (time.nsec t) (time.loc t)) as [Hn Hl].
  rewrite Hk in Hs.
  pose proof (Z.mod_pos_bound (time.localSec t) 86400 ltac:(lia)) as Hb.
  split; [exact Hs|]. split.
  { rewrite localDay_unfold, Hs, Z.add_comm, Z.div_add by lia.
    rewrite Z.div_small by lia. lia. }
  split; [| exact Hl]. rewrite Hn. unfold validTime in Hv.
  apply Z.mod_small. lia.
Qed.

Lemma getMidnight_nsec_loc (t : time.Time) :
  time.nsec (getMidnight t) = 0 /\ time.loc (getMidnight t) = time.loc t.
Proof.
  unfold getMidnight, time.Time_Location. split; apply Date_nsec_loc.
Qed.

(** [getMidnight] keeps the day and clears the clock where the zone is
    steady around the day. *)
Lemma getMidnight_spec (t : time.Time) (k : Z) :
  steadyZone (time.loc t) (time.localDay t) k ->
  time.unixSec (getMidnight t) = time.localDay t * 86400 - k
  /\ time.localSec (getMidnight t) = time.localDay t * 86400.
Proof.
  intros (_ & Hk & Hz).
  unfold getMidnight, time.Year, time.Month, time.Day, time.Time_Location.
  pose proof (Time_Date_dayNumber t) as Hd.
  destruct (time.Time_Date t) as [[y m] d]. destruct Hd as [Hm Hd].
  assert (H1 : time.offsetAt (time.loc t)
                 (dayNumber y m d * 86400 + 0 * 3600 + 0 * 60 + 0
                  + 0 / 1000000000) = k)
    by (apply Hz; rewrite Hd; cbn; lia).
  assert (H2 : time.offsetAt (time.loc t)
                 (dayNumber y m d * 86400 + 0 * 3600 + 0 * 60 + 0
                  + 0 / 1000000000 - k) = k)
    by (apply Hz; rewrite Hd; cbn; lia).
  rewrite (Date_unixSec _ _ _ _ _ _ _ _ k Hm H1 H2).
  rewrite (Date_localSec _ _ _ _ _ _ _ _ k Hm H1 H2).
  rewrite Hd. cbn. lia.
Qed.


Lemma AddDate_loc (t : time.Time) (years months days : Z) :
  time.loc (time.AddDate t years months days) = time.loc t.
Proof.
  unfold time.AddDate. destruct (time.Time_Date t) as [[y m] d].
  apply Date_nsec_loc.
Qed.




(** * Further properties: phrases, ranges and the calendar *)

(** ** Decimal digits *)

(** Case analysis on a byte that is a digit. *)
Ltac digit_cases c H :=
  destruct c as [[] [] [] [] [] [] [] []];
  try (cbv in H; discriminate H); clear H.

Lemma digit_not_space (c : ascii) : isDigit c = true -> isSpace c = false.
Proof. intros H. digit_cases c H; reflexivity. Qed.

Lemma digit_not_letter (c : ascii) : isDigit c = true -> isLetter c = false.
Proof. intros H. digit_cases c H; reflexivity. Qed.

Lemma digit_lower (c : ascii) : isDigit c = true -> strings.lower c = c.
Proof. intros H. digit_cases c H; reflexivity. Qed.

Lemma digit_code (c : ascii) : isDigit c = true -> 48 <= code c <= 57.
Proof. intros H. digit_cases c H; cbv; split; discriminate. Qed.

Lemma digitVal_range (c : ascii) : isDigit c = true -> 0 <= digitVal c <= 9.
Proof. intros H. apply digit_code in H. unfold digitVal. lia. Qed.

Lemma string_of_uint_digits (d : Decimal.uint) :
  allBytes isDigit (NilEmpty.string_of_uint d) = true.
Proof.
  induction d; [reflexivity | ..];
    cbn [NilEmpty.string_of_uint allBytes]; rewrite IHd; reflexivity.
Qed.

Lemma digitsValue_of_uint_acc (d : Decimal.uint) :
  forall acc,
    strconv.digitsValue (Z.pos acc) (NilEmpty.string_of_uint d)
    = Some (Z.pos (Pos.of_uint_acc d acc)).
Proof.
  induction d; intros acc; [reflexivity | ..];
    cbn [NilEmpty.string_of_uint strconv.digitsValue Pos.of_uint_acc];
    change (isDigit _) with true; cbv iota;
    match goal with
    | |- strconv.digitsValue ?v _ = _ =>
        match goal with
        | |- _ = Some (Z.pos (Pos.of_uint_acc _ ?p)) =>
            replace v with (Z.pos p)
              by (match goal with
                  | |- context [digitVal ?c] =>
                      let x := eval vm_compute in (digitVal c) in
                      change (digitVal c) with x
                  end; lia)
        end
    end; apply IHd.
Qed.

Lemma digitsValue_of_uint (d : Decimal.uint) :
  strconv.digitsValue 0 (NilEmpty.string_of_uint d)
  = Some (Z.of_N (Pos.of_uint d)).
Proof.
  induction d; [reflexivity | ..];
    cbn [NilEmpty.string_of_uint strconv.digitsValue Pos.of_uint];
    change (isDigit _) with true; cbv iota;
    [exact IHd | ..]; apply (digitsValue_of_uint_acc d).
Qed.

(** [Sprintf("%d", n)] of a natural number is its decimal numeral. *)
Lemma itoa_nonneg (n : Z) :
  0 <= n ->
  digitString (fmt.itoa n) = true
  /\ strconv.digitsValue 0 (fmt.itoa n) = Some n.
Proof.
  intros Hn. destruct n as [| p | p]; [split; reflexivity | | lia].
  unfold fmt.itoa. cbn [Z.to_int NilZero.string_of_int].
  assert (Hs : NilZero.string_of_uint (Pos.to_uint p)
               = NilEmpty.string_of_uint (Pos.to_uint p)).
  { pose proof (Unsigned.to_uint_nonnil p) as Hnil.
    destruct (Pos.to_uint p); [contradiction | reflexivity ..]. }
  rewrite Hs. split.
  - unfold digitString. rewrite string_of_uint_digits, andb_true_r.
    pose proof (Unsigned.to_uint_nonnil p) as Hnil.
    destruct (Pos.to_uint p); [contradiction | reflexivity ..].
  - rewrite digitsValue_of_uint, Unsigned.of_to. reflexivity.
Qed.

(** ** Texts with a known front *)

Lemma len_append (a b : string) : len (a ++ b) = len a + len b.
Proof.
  unfold len. induction a as [| c a IH]; [reflexivity |].
  cbn [append String.length] in *. lia.
Qed.

Lemma len_nonneg (s : string) : 0 <= len s.
Proof. unfold len. lia. Qed.

Lemma append_empty (s : string) : s ++ "" = s.
Proof. induction s as [| c s IH]; [reflexivity |]. cbn. now rewrite IH. Qed.

Lemma append_assoc (a b c : string) : (a ++ b) ++ c = a ++ b ++ c.
Proof. induction a as [| x a IH]; [reflexivity |]. cbn. now rewrite IH. Qed.

Lemma take_append (a b : string) : take (String.length a) (a ++ b) = a.
Proof. induction a as [| c a IH]; [now destruct b |]. cbn. now rewrite IH. Qed.


Lemma sliceTo_append (a b : string) : sliceTo (a ++ b) (len a) = a.
Proof. unfold sliceTo, len. rewrite Nat2Z.id. apply take_append. Qed.


Lemma isEmpty_append (a b : string) :
  isEmpty (a ++ b) = isEmpty a && isEmpty b.
Proof. now destruct a. Qed.

Lemma hasByte_append (c : ascii) (a b : string) :
  hasByte c (a ++ b) = hasByte c a || hasByte c b.
Proof.
  induction a as [| x a IH]; [reflexivity |].
  cbn [append hasByte]. now rewrite IH, orb_assoc.
Qed.

Lemma allBytes_append (p : ascii -> bool) (a b : string) :
  allBytes p (a ++ b) = allBytes p a && allBytes p b.
Proof.
  induction a as [| x a IH]; [reflexivity |].
  cbn [append allBytes]. now rewrite IH, andb_assoc.
Qed.

(** An occurrence of [sub] cannot begin inside a front [pre] that lacks
    the first byte of [sub]. *)
Section Front.

Variable pre : string.
Variable c : ascii.
Hypothesis c_absent : hasByte c pre = false.

Lemma HasPrefix_front (sub' s : string) :
  pre <> "" -> strings.HasPrefix (pre ++ s) (String c sub') = false.
Proof.
  destruct pre as [| x r]; [congruence | intros _].
  cbn [hasByte] in c_absent. apply orb_false_iff in c_absent as [Hx _].
  cbn [append strings.HasPrefix]. now rewrite Hx.
Qed.

Lemma Index_front (sub' s : string) :
  strings.Index (pre ++ s) (String c sub')
  = let i := strings.Index s (String c sub') in
    if i <? 0 then -1 else len pre + i.
Proof.
  revert c_absent. induction pre as [| x r IH]; intros Habs.
  - cbn [append]. unfold len. cbn [String.length Z.of_nat Z.add].
    cbv zeta. destruct (strings.Index s (String c sub') <? 0) eqn:E;
      [apply Z.ltb_lt in E | reflexivity].
    assert (H : -1 <= strings.Index s (String c sub')).
    { clear E. induction s as [| y t IHt]; [cbn; lia |].
      cbn [strings.Index].
      destruct (strings.HasPrefix (String y t) (String c sub')); [lia |].
      destruct (strings.Index t (String c sub') <? 0); lia. }
    lia.
  - cbn [hasByte] in Habs. apply orb_false_iff in Habs as [Hx Hr].
    specialize (IH Hr). cbn [append strings.Index strings.HasPrefix].
    rewrite Hx. cbn [andb]. rewrite IH. cbv zeta.
    destruct (strings.Index s (String c sub') <? 0) eqn:E.
    + reflexivity.
    + apply Z.ltb_ge in E. pose proof (len_nonneg r).
      destruct (len r + strings.Index s (String c sub') <? 0) eqn:E2;
        [apply Z.ltb_lt in E2; lia |].
      unfold len. cbn [String.length]. lia.
Qed.

Lemma Contains_front (sub' s : string) :
  strings.Contains (pre ++ s) (String c sub')
  = strings.Contains s (String c sub').
Proof.
  unfold strings.Contains. rewrite Index_front. cbv zeta.
  destruct (strings.Index s (String c sub') <? 0) eqn:E.
  - apply Z.ltb_lt in E. symmetry. apply Z.leb_gt. lia.
  - apply Z.ltb_ge in E. pose proof (len_nonneg pre).
    transitivity true; [apply Z.leb_le; lia | symmetry; apply Z.leb_le; lia].
Qed.

Lemma ReplaceFirst_front (sub' s new : string) :
  strings.ReplaceFirst (pre ++ s) (String c sub') new
  = pre ++ strings.ReplaceFirst s (String c sub') new.
Proof.
  revert c_absent. induction pre as [| x r IH]; intros Habs; [reflexivity |].
  cbn [hasByte] in Habs. apply orb_false_iff in Habs as [Hx Hr].
  cbn [append strings.ReplaceFirst strings.HasPrefix].
  rewrite Hx. cbn [andb]. now rewrite (IH Hr).
Qed.

End Front.

(** ** Reading a decimal numeral at the front of a text *)

Lemma digitsValue_append (a b : string) :
  forall acc,
    strconv.digitsValue acc (a ++ b)
    = match strconv.digitsValue acc a with
      | Some x => strconv.digitsValue x b
      | None => None
      end.
Proof.
  induction a as [| c a IH]; intros acc; [reflexivity |].
  cbn [append strconv.digitsValue]. destruct (isDigit c); [apply IH | reflexivity].
Qed.

Lemma digitsValue_digits (s : string) :
  forall acc v, strconv.digitsValue acc s = Some v -> allBytes isDigit s = true.
Proof.
  induction s as [| c s IH]; intros acc v H; [reflexivity |].
  cbn [strconv.digitsValue allBytes] in *.
  destruct (isDigit c); [exact (IH _ _ H) | discriminate].
Qed.

Lemma digitsValue_grows (s : string) :
  forall acc v, 0 <= acc -> strconv.digitsValue acc s = Some v -> acc <= v.
Proof.
  induction s as [| c s IH]; intros acc v Hacc H; cbn [strconv.digitsValue] in H.
  - injection H as <-. lia.
  - destruct (isDigit c) eqn:Hc; [| discriminate].
    pose proof (digitVal_range c Hc). apply IH in H; lia.
Qed.

Lemma digitRun_front (d r : string) :
  allBytes isDigit d = true -> fmt.digitRun r = "" -> fmt.digitRun (d ++ r) = d.
Proof.
  intros Hd Hr. induction d as [| c d IH]; [exact Hr |].
  cbn [allBytes] in Hd. apply andb_true_iff in Hd as [Hc Hd].
  cbn [append fmt.digitRun]. now rewrite Hc, IH.
Qed.

Lemma ParseInt_digit_first (c : ascii) (r : string) :
  isDigit c = true ->
  strconv.ParseInt (String c r)
  = match strconv.digitsValue 0 (String c r) with
    | Some u => if u <? 2 ^ 63 then Some u else None
    | None => None
    end.
Proof. intros H. digit_cases c H; reflexivity. Qed.

Lemma Sscanf_d_digit_first (c : ascii) (r : string) :
  isDigit c = true ->
  fmt.Sscanf_d (String c r) = strconv.ParseInt (fmt.digitRun (String c r)).
Proof. intros H. digit_cases c H; reflexivity. Qed.

Lemma Sscanf_d_plus_digit (c : ascii) (r : string) :
  isDigit c = true ->
  fmt.Sscanf_d (String "+" (String c r))
  = strconv.ParseInt (String "+" (fmt.digitRun (String c r))).
Proof. intros H. digit_cases c H; reflexivity. Qed.

(** The numeral [d] with the value [v]. *)
Section Numeral.

Variable d : string.
Variable v : Z.
Hypothesis d_digits : digitString d = true.
Hypothesis d_value : strconv.digitsValue 0 d = Some v.

Lemma numeral_digits : allBytes isDigit d = true.
Proof. apply andb_true_iff in d_digits as [_ H]. exact H. Qed.

Lemma numeral_nonempty : d <> "".
Proof. intros ->. discriminate d_digits. Qed.

Lemma numeral_nonneg : 0 <= v.
Proof. apply (digitsValue_nonneg d 0 v); [lia | exact d_value]. Qed.

Lemma numeral_len : 0 < len d.
Proof.
  pose proof numeral_nonempty. unfold len.
  destruct d; [congruence | cbn [String.length]; lia].
Qed.

Lemma numeral_absent (c : ascii) : isDigit c = false -> hasByte c d = false.
Proof. intros Hc. exact (allBytes_hasByte isDigit c d numeral_digits Hc). Qed.

Lemma ParseInt_numeral : v < 2 ^ 63 -> strconv.ParseInt d = Some v.
Proof.
  intros Hv. pose proof numeral_digits as Hd. pose proof numeral_nonempty.
  destruct d as [| c r] eqn:E; [congruence |].
  cbn [allBytes] in Hd. apply andb_true_iff in Hd as [Hc _].
  rewrite (ParseInt_digit_first c r Hc), d_value.
  now apply Z.ltb_lt in Hv as ->.
Qed.

Lemma Sscanf_d_numeral (r : string) :
  v < 2 ^ 63 -> fmt.digitRun r = "" -> fmt.Sscanf_d (d ++ r) = Some v.
Proof.
  intros Hv Hr. pose proof numeral_digits as Hd. pose proof numeral_nonempty.
  pose proof (digitRun_front d r Hd Hr) as Hrun.
  pose proof (ParseInt_numeral Hv) as Hp.
  destruct d as [| c t] eqn:E; [congruence |].
  cbn [allBytes] in Hd. apply andb_true_iff in Hd as [Hc _].
  cbn [append] in *. now rewrite (Sscanf_d_digit_first c _ Hc), Hrun.
Qed.

Lemma Sscanf_d_plus_numeral (r : string) :
  v < 2 ^ 63 -> fmt.digitRun r = "" ->
  fmt.Sscanf_d ("+" ++ d ++ r) = Some v.
Proof.
  intros Hv Hr. pose proof numeral_digits as Hd. pose proof numeral_nonempty.
  pose proof (digitRun_front d r Hd Hr) as Hrun.
  pose proof (ParseInt_numeral Hv) as Hp.
  destruct d as [| c t] eqn:E; [congruence |].
  cbn [allBytes] in Hd. apply andb_true_iff in Hd as [Hc _].
  cbn [append] in *. rewrite (Sscanf_d_plus_digit c _ Hc), Hrun.
  rewrite (ParseInt_digit_first c t Hc) in Hp.
  unfold strconv.ParseInt. cbn [isEmpty].
  destruct (strconv.digitsValue 0 (String c t)); exact Hp.
Qed.

Lemma leadingInt_numeral (r : string) :
  v <= 2 ^ 63 -> fmt.digitRun r = "" -> time.leadingInt 0 (d ++ r) = Some (v, r).
Proof.
  intros Hv Hr. pose proof numeral_digits as Hd.
  assert (G : forall s acc,
             allBytes isDigit s = true -> 0 <= acc ->
             strconv.digitsValue acc s = Some v ->
             time.leadingInt acc (s ++ r) = Some (v, r)).
  { induction s as [| c s IH]; intros acc Hs Hacc Hval.
    - cbn in Hval. injection Hval as ->. cbn [append].
      destruct r as [| c r']; [reflexivity |].
      cbn [fmt.digitRun] in Hr. cbn [time.leadingInt].
      destruct (isDigit c); [discriminate | reflexivity].
    - cbn [allBytes] in Hs. apply andb_true_iff in Hs as [Hc Hs].
      cbn [strconv.digitsValue] in Hval. rewrite Hc in Hval.
      pose proof (digitVal_range c Hc) as Hdv.
      assert (Hle : acc * 10 + digitVal c <= v)
        by (apply (digitsValue_grows s); [lia | exact Hval]).
      cbn [append time.leadingInt]. rewrite Hc.
      assert (H1 : (2 ^ 63 / 10 <? acc) = false).
      { apply Z.ltb_ge. apply Z.div_le_lower_bound; lia. }
      assert (H2 : (2 ^ 63 <? acc * 10 + digitVal c) = false)
        by (apply Z.ltb_ge; lia).
      rewrite H1. cbv zeta. rewrite H2. apply IH; [exact Hs | lia | exact Hval]. }
  apply G; [exact Hd | lia | exact d_value].
Qed.

End Numeral.

(** ** One unit phrase through the normaliser *)

Lemma HasPrefix_refl (s : string) : strings.HasPrefix s s = true.
Proof.
  induction s as [| c s IH]; [reflexivity |].
  cbn [strings.HasPrefix]. now rewrite Ascii.eqb_refl, IH.
Qed.

Lemma Index_refl (s : string) : strings.Index s s = 0.
Proof. apply Index_at_prefix, HasPrefix_refl. Qed.

Lemma unitEndsAt_end (s : string) : unitEndsAt s (len s) = true.
Proof. unfold unitEndsAt. now rewrite Z.leb_refl. Qed.

Lemma HasPrefix_digitThen (x : string) :
  forall s c t,
    x <> "" -> allBytes isDigit x = true ->
    strings.HasPrefix s (x ++ String c t) = true -> digitThen c s = true.
Proof.
  induction x as [| a x IH]; intros s c t Hne Hx H; [congruence |].
  cbn [allBytes] in Hx. apply andb_true_iff in Hx as [Ha Hx].
  destruct s as [| a' s']; [discriminate H |].
  cbn [append strings.HasPrefix] in H. apply andb_true_iff in H as [Haa H].
  apply Ascii.eqb_eq in Haa as ->.
  destruct x as [| b x'].
  - cbn [append] in H. destruct s' as [| b' s'']; [discriminate H |].
    cbn [strings.HasPrefix] in H. apply andb_true_iff in H as [Hb _].
    cbn [digitThen]. now rewrite Ha, Hb.
  - assert (Hd : digitThen c s' = true)
      by (apply (IH s' c t); [discriminate | exact Hx | exact H]).
    destruct s' as [| b' s'']; [discriminate Hd |].
    change (digitThen c (String a (String b' s'')))
      with ((isDigit a && Ascii.eqb b' c) || digitThen c (String b' s'')).
    rewrite Hd. apply orb_true_r.
Qed.

Lemma Index_no_digitThen (x : string) (c : ascii) (t s : string) :
  x <> "" -> allBytes isDigit x = true -> digitThen c s = false ->
  strings.Index s (x ++ String c t) = -1.
Proof.
  intros Hne Hx. induction s as [| a s IH]; intros Hd.
  - destruct x; [congruence | reflexivity].
  - cbn [strings.Index].
    destruct (strings.HasPrefix (String a s) (x ++ String c t)) eqn:E.
    + apply HasPrefix_digitThen in E; [congruence | exact Hne | exact Hx].
    + assert (Hs : digitThen c s = false).
      { destruct s as [| b s']; [reflexivity |].
        change (digitThen c (String a (String b s')))
          with ((isDigit a && Ascii.eqb b c) || digitThen c (String b s')) in Hd.
        now apply orb_false_iff in Hd as [_ Hd]. }
      now rewrite (IH Hs).
Qed.

Lemma digitThen_front (pre : string) (c : ascii) (k : string) :
  hasByte c pre = false -> digitThen c k = false ->
  strings.HasPrefix k (String c "") = false ->
  digitThen c (pre ++ k) = false.
Proof.
  intros Hpre Hk Hk0. induction pre as [| a pre IH]; [exact Hk |].
  cbn [hasByte] in Hpre. apply orb_false_iff in Hpre as [_ Hpre].
  specialize (IH Hpre). cbn [append].
  destruct pre as [| b pre'].
  - cbn [append] in *. destruct k as [| b k']; [reflexivity |].
    change (digitThen c (String a (String b k')))
      with ((isDigit a && Ascii.eqb b c) || digitThen c (String b k')).
    rewrite Hk. cbn [strings.HasPrefix] in Hk0. rewrite andb_true_r in Hk0.
    now rewrite Hk0, andb_false_r.
  - cbn [append] in *.
    change (digitThen c (String a (String b (pre' ++ k))))
      with ((isDigit a && Ascii.eqb b c) || digitThen c (String b (pre' ++ k))).
    rewrite IH. cbn [hasByte] in Hpre. apply orb_false_iff in Hpre as [Hb _].
    now rewrite Hb, andb_false_r.
Qed.

Lemma tryConvertShortForm_no_digit (s : string) (c : ascii) (long : string)
  (hours : Z) :
  digitThen c s = false -> tryConvertShortForm s (String c "") hours long = "".
Proof.
  intros H. unfold tryConvertShortForm.
  destruct (negb _ || _); [reflexivity |].
  destruct (fmt.Sscanf_d s) as [a |]; [| reflexivity].
  destruct (0 <=? a) eqn:Ha; [| reflexivity]. apply Z.leb_le in Ha.
  destruct (itoa_nonneg a Ha) as [Hd _]. unfold digitString in Hd.
  apply andb_true_iff in Hd as [Hne Hd].
  rewrite Index_no_digitThen; [reflexivity | | exact Hd | exact H].
  intros E. now rewrite E in Hne.
Qed.

(** A text [pre ++ k] whose front [pre] lacks the first byte [c] of the
    needle: the rule misses when the needle is not in [k], and hits when
    [k] is the needle and [pre] scans as a number. *)
Section Phrase.

Variable pre : string.
Variable c : ascii.
Hypothesis c_absent : hasByte c pre = false.

Lemma convertUnitAt_miss (n k : string) (hours : Z) :
  strings.Index k (String c n) = -1 ->
  convertUnitAt (pre ++ k) (String c n) hours = None.
Proof.
  intros H. unfold convertUnitAt. rewrite (Index_front pre c c_absent), H.
  reflexivity.
Qed.

Lemma convertSimpleUnitAt_miss (n k dst : string) :
  strings.Index k (String c n) = -1 ->
  convertSimpleUnitAt (pre ++ k) (String c n) dst = None.
Proof.
  intros H. unfold convertSimpleUnitAt.
  rewrite (Index_front pre c c_absent), H. reflexivity.
Qed.

Lemma tryConvertShortForm_miss (n k long : string) (hours : Z) :
  strings.Contains k (String c n) = false ->
  tryConvertShortForm (pre ++ k) (String c n) hours long = "".
Proof.
  intros H. unfold tryConvertShortForm.
  now rewrite (Contains_front pre c c_absent), H.
Qed.

Variable v : Z.
Hypothesis pre_nonempty : pre <> "".
Hypothesis pre_scans : fmt.Sscanf_d pre = Some v.
Hypothesis v_nonneg : 0 <= v.

Lemma phrase_index (n : string) :
  strings.Index (pre ++ String c n) (String c n) = len pre /\ 0 < len pre.
Proof.
  rewrite (Index_front pre c c_absent), Index_refl. cbv zeta.
  change (0 <? 0) with false. cbv iota. split; [lia |].
  unfold len. destruct pre; [congruence | cbn [String.length]; lia].
Qed.

Lemma convertUnitAt_hit (n : string) (hours : Z) :
  convertUnitAt (pre ++ String c n) (String c n) hours
  = Some (fmt.itoa (wrap64 (v * hours)) ++ "h").
Proof.
  destruct (phrase_index n) as [Hi Hl]. unfold convertUnitAt. rewrite Hi.
  apply Z.ltb_lt in Hl as ->. rewrite sliceTo_append, pre_scans.
  apply Z.leb_le in v_nonneg as ->.
  rewrite <- len_append, unitEndsAt_end, Z.ltb_irrefl. reflexivity.
Qed.

Lemma convertSimpleUnitAt_hit (n dst : string) :
  convertSimpleUnitAt (pre ++ String c n) (String c n) dst
  = Some (fmt.itoa v ++ dst).
Proof.
  destruct (phrase_index n) as [Hi Hl]. unfold convertSimpleUnitAt. rewrite Hi.
  apply Z.ltb_lt in Hl as ->. rewrite sliceTo_append, pre_scans.
  apply Z.leb_le in v_nonneg as ->.
  rewrite <- len_append, unitEndsAt_end, Z.ltb_irrefl.
  now rewrite append_empty.
Qed.

End Phrase.

Lemma ToLower_letterFree (s : string) :
  letterFree s = true -> strings.ToLower s = s.
Proof.
  unfold letterFree. induction s as [| c s IH]; intros H; [reflexivity |].
  cbn [allBytes] in H. apply andb_true_iff in H as [Hc Hs].
  cbn [strings.ToLower]. rewrite (IH Hs). f_equal.
  unfold strings.lower, isLetter in *.
  destruct ((65 <=? code c) && (code c <=? 90)); [| reflexivity].
  now rewrite orb_true_r in Hc.
Qed.

Lemma letterFree_absent (s : string) (c : ascii) :
  letterFree s = true -> isLetter c = true -> hasByte c s = false.
Proof.
  intros Hs Hc. apply (allBytes_hasByte _ c s Hs). now rewrite Hc.
Qed.

Lemma hasReservedKeyword_front (pre k : string) :
  letterFree pre = true ->
  hasReservedKeyword (pre ++ k) = hasReservedKeyword k.
Proof.
  intros Hpre. unfold hasReservedKeyword, reservedKeywords.
  rewrite ToLower_append, (ToLower_letterFree pre Hpre). cbn [existsb].
  rewrite !Contains_front by (apply letterFree_absent; [exact Hpre | reflexivity]).
  reflexivity.
Qed.

(** Replace a closed term by its value. *)
Ltac evaluate t :=
  let x := eval vm_compute in t in
  replace t with x by (vm_compute; reflexivity).

(** The phrases [pre ++ sep ++ unit]: [pre] is a numeral, possibly after
    a plus sign, and [sep] is empty or one space. *)
Section UnitPhrase.

Variable pre : string.
Variable v : Z.
Hypothesis pre_absent :
  forall c, isDigit c = false -> Ascii.eqb "+" c = false -> hasByte c pre = false.
Hypothesis pre_letterFree : letterFree pre = true.
Hypothesis pre_nonempty : pre <> "".
Hypothesis pre_scans : fmt.Sscanf_d pre = Some v.
Hypothesis v_nonneg : 0 <= v.

Ltac absent := apply pre_absent; reflexivity.

Ltac miss :=
  first
    [ rewrite (convertUnitAt_miss pre) by (absent || (vm_compute; reflexivity))
    | rewrite (convertSimpleUnitAt_miss pre)
        by (absent || (vm_compute; reflexivity))
    | rewrite (tryConvertShortForm_miss pre)
        by (absent || (vm_compute; reflexivity)) ].

Ltac hit :=
  match goal with
  | |- context [convertUnitAt (pre ++ String ?c ?n) (String ?c ?n) ?h] =>
      rewrite (convertUnitAt_hit pre c ltac:(absent) v pre_nonempty pre_scans
                 v_nonneg n h)
  | |- context [convertSimpleUnitAt (pre ++ String ?c ?n) (String ?c ?n) ?t] =>
      rewrite (convertSimpleUnitAt_hit pre c ltac:(absent) v pre_nonempty
                 pre_scans v_nonneg n t)
  end.

Ltac keyword_free :=
  unfold convertCustomUnits;
  rewrite (hasReservedKeyword_front pre _ pre_letterFree);
  match goal with
  | |- context [hasReservedKeyword ?k] => evaluate (hasReservedKeyword k)
  end;
  cbv iota;
  cbn [firstMatch timeUnitsToHours simpleTimeUnits patterns toHours
       simplePatterns to];
  unfold tryConvertUnit, tryConvertSimpleUnit; cbn [append].

Lemma convertCustomUnits_hours (conv : unitConversion) (pattern sep : string) :
  In conv timeUnitsToHours -> In pattern (patterns conv) ->
  sep = "" \/ sep = " " ->
  convertCustomUnits (pre ++ sep ++ pattern)
  = Ok (fmt.itoa (wrap64 (v * toHours conv)) ++ "h").
Proof.
  intros Hconv Hpat Hsep.
  repeat (destruct Hconv as [<- | Hconv]; [| try contradiction]);
    cbn [patterns toHours] in *;
    repeat (destruct Hpat as [<- | Hpat]; [| try contradiction]);
    destruct Hsep as [-> | ->]; cbn [append];
    keyword_free; repeat miss; hit; reflexivity.
Qed.

Ltac no_digit :=
  rewrite tryConvertShortForm_no_digit
    by (apply digitThen_front; [absent | vm_compute; reflexivity ..]).

Lemma convertCustomUnits_simple (conv : simpleUnit) (pattern sep : string) :
  In conv simpleTimeUnits -> In pattern (simplePatterns conv) ->
  sep = "" \/ sep = " " ->
  convertCustomUnits (pre ++ sep ++ pattern) = Ok (fmt.itoa v ++ to conv).
Proof.
  intros Hconv Hpat Hsep.
  repeat (destruct Hconv as [<- | Hconv]; [| try contradiction]);
    cbn [simplePatterns to] in *;
    repeat (destruct Hpat as [<- | Hpat]; [| try contradiction]);
    destruct Hsep as [-> | ->]; cbn [append];
    keyword_free; repeat miss; try no_digit; repeat miss; hit; reflexivity.
Qed.

End UnitPhrase.

Lemma drop_all (s : string) : drop (String.length s) s = "".
Proof. induction s as [| c s IH]; [reflexivity | exact IH]. Qed.

Lemma ReplaceFirst_whole (s new : string) :
  strings.ReplaceFirst s s new = new.
Proof.
  destruct s as [| c s]; [now rewrite <- (append_empty new) at 2 |].
  unfold strings.ReplaceFirst.
  rewrite HasPrefix_refl, drop_all. apply append_empty.
Qed.

Lemma digits_letterFree (s : string) :
  allBytes isDigit s = true -> letterFree s = true.
Proof.
  unfold letterFree. induction s as [| c s IH]; intros H; [reflexivity |].
  cbn [allBytes] in *. apply andb_true_iff in H as [Hc Hs].
  now rewrite (digit_not_letter c Hc), (IH Hs).
Qed.

Lemma digits_normalForm (s : string) :
  allBytes isDigit s = true -> allBytes durationByte s = true.
Proof.
  induction s as [| c s IH]; intros H; [reflexivity |].
  cbn [allBytes] in *. apply andb_true_iff in H as [Hc Hs].
  unfold durationByte at 1. now rewrite (digit_not_letter c Hc), (IH Hs).
Qed.

(** The short forms: a numeral directly followed by [d] or [y]. *)
Section ShortForm.

Variable n : Z.
Hypothesis n_range : 0 <= n < 2 ^ 63.


Lemma itoa_absent (c : ascii) : isDigit c = false -> hasByte c (fmt.itoa n) = false.
Proof.
  destruct (itoa_nonneg n (proj1 n_range)) as [Hd _].
  exact (numeral_absent (fmt.itoa n) Hd c).
Qed.

Lemma itoa_letterFree : letterFree (fmt.itoa n) = true.
Proof.
  destruct (itoa_nonneg n (proj1 n_range)) as [Hd _].
  apply andb_true_iff in Hd as [_ Hd]. now apply digits_letterFree.
Qed.

Lemma tryConvertShortForm_hit (c : ascii) (long : string) (hours : Z) :
  isDigit c = false ->
  strings.Contains ((fmt.itoa n) ++ String c "") long = false ->
  tryConvertShortForm ((fmt.itoa n) ++ String c "") (String c "") hours long
  = fmt.itoa (wrap64 (n * hours)) ++ "h".
Proof.
  intros Hc Hlong. destruct (itoa_nonneg n (proj1 n_range)) as [Hd Hv].
  unfold tryConvertShortForm.
  rewrite (Contains_front (fmt.itoa n) c (itoa_absent c Hc)), Hlong.
  unfold strings.Contains at 1. rewrite Index_refl. cbn [Z.leb negb orb].
  rewrite (Sscanf_d_numeral (fmt.itoa n) n Hd Hv) by
    (try (apply n_range); cbn [fmt.digitRun]; now rewrite Hc).
  destruct n_range as [H0 _]. apply Z.leb_le in H0 as ->.
  rewrite Index_refl. cbn [Z.leb Z.add].
  now rewrite unitEndsAt_end, ReplaceFirst_whole.
Qed.

Ltac absent := apply itoa_absent; reflexivity.

Ltac miss :=
  first
    [ rewrite (convertUnitAt_miss (fmt.itoa n))
        by (absent || (vm_compute; reflexivity))
    | rewrite (tryConvertShortForm_miss (fmt.itoa n))
        by (absent || (vm_compute; reflexivity)) ].

Ltac hit :=
  rewrite tryConvertShortForm_hit
    by (reflexivity
        || (rewrite (Contains_front (fmt.itoa n)) by absent; vm_compute; reflexivity)).

Lemma convertCustomUnits_short (short : string) (hours : Z) :
  (short, hours) = ("d", 24) \/ (short, hours) = ("y", 8760) ->
  convertCustomUnits ((fmt.itoa n) ++ short)
  = Ok (fmt.itoa (wrap64 (n * hours)) ++ "h").
Proof.
  intros [E | E]; injection E as -> ->;
    unfold convertCustomUnits;
    rewrite (hasReservedKeyword_front (fmt.itoa n) _ itoa_letterFree);
    match goal with
    | |- context [hasReservedKeyword ?k] => evaluate (hasReservedKeyword k)
    end;
    cbv iota;
    cbn [firstMatch timeUnitsToHours patterns toHours];
    unfold tryConvertUnit; cbn [append];
    repeat miss; hit; cbv iota;
    rewrite isEmpty_append, andb_false_r; reflexivity.
Qed.

End ShortForm.

(** ** A numeral and a unit letter as a duration *)

Lemma ParseDuration_digit_first (c : ascii) (r : string) :
  isDigit c = true ->
  time.ParseDuration (String c r)
  = if String.eqb (String c r) "0" then Some 0
    else match time.durationGroups (String.length (String c r)) 0 (String c r) with
         | Some d => if 2 ^ 63 - 1 <? d then None else Some d
         | None => None
         end.
Proof. intros H. digit_cases c H; reflexivity. Qed.

(** The unit letters of the duration grammar that the normaliser
    produces, with their lengths in nanoseconds. *)
Lemma ParseDuration_numeral (d u : string) (v unit : Z) :
  digitString d = true -> strconv.digitsValue 0 d = Some v ->
  In (u, unit) [("h", time.Hour); ("m", time.Minute); ("s", time.Second)] ->
  v * unit <= maxInt64 ->
  time.ParseDuration (d ++ u) = Some (v * unit).
Proof.
  intros Hd Hv Hu Hmax.
  pose proof (numeral_nonneg d v Hv) as H0.
  assert (Hunit : 0 < unit /\ time.unitMap u = Some unit
                  /\ fmt.digitRun u = "" /\ u <> ""
                  /\ time.fractionPart u = (0, 1%float, u, false)
                  /\ time.unitRun u = (u, "")).
  { repeat (destruct Hu as [Hu | Hu]; [injection Hu as <- <- |]);
      try contradiction; repeat split; try reflexivity; discriminate. }
  destruct Hunit as (Hpos & Hmap & Hrun & Hne & Hfrac & HunitRun).
  assert (Hle : v <= 2 ^ 63) by (unfold maxInt64 in Hmax; nia).
  pose proof (leadingInt_numeral d v Hd Hv u Hle Hrun) as Hlead.
  pose proof (numeral_len d v Hd Hv) as Hlen.
  pose proof (numeral_digits d Hd) as Hdig.
  destruct d as [| c t] eqn:E; [discriminate Hd |].
  cbn [allBytes] in Hdig. apply andb_true_iff in Hdig as [Hc _].
  cbn [append] in *. rewrite (ParseDuration_digit_first c _ Hc).
  assert (Hz : String.eqb (String c (t ++ u)) "0" = false).
  { cbn [String.eqb]. destruct (Ascii.eqb c "0"); [| reflexivity].
    destruct t; [destruct u; [congruence | reflexivity] | reflexivity]. }
  rewrite Hz. cbn [String.length time.durationGroups].
  assert (Hg : time.durationGroup 0 (String c (t ++ u)) = Some (v * unit, "")).
  { unfold time.durationGroup. rewrite Hc, orb_true_r. cbn [negb].
    rewrite Hlead.
    assert (Hpre : (len (String c (t ++ u)) =? len u) = false).
    { apply Z.eqb_neq. change (String c (t ++ u)) with (String c t ++ u).
      rewrite len_append. lia. }
    rewrite Hpre, Hfrac. cbn [negb andb]. rewrite HunitRun.
    destruct u as [| u0 u']; [congruence |]. cbn [isEmpty]. rewrite Hmap.
    assert (H1 : (2 ^ 63 / unit <? v) = false).
    { apply Z.ltb_ge. apply Z.div_le_lower_bound; [lia |].
      unfold maxInt64 in Hmax. lia. }
    rewrite H1. cbn [Z.ltb Z.compare andb]. cbv zeta.
    assert (Hmod : (0 + v * unit) mod 2 ^ 64 = v * unit).
    { apply Z.mod_small. unfold maxInt64 in Hmax. nia. }
    rewrite Hmod.
    assert (H2 : (2 ^ 63 <? v * unit) = false)
      by (apply Z.ltb_ge; unfold maxInt64 in Hmax; lia).
    now rewrite H2. }
  rewrite Hg.
  assert (Hend : forall fuel, time.durationGroups fuel (v * unit) "" = Some (v * unit))
    by (now destruct fuel).
  rewrite Hend.
  assert (H3 : (2 ^ 63 - 1 <? v * unit) = false)
    by (apply Z.ltb_ge; unfold maxInt64 in Hmax; lia).
  now rewrite H3.
Qed.

(** ** A numeral phrase through [ParseTime] *)

Lemma wrap64_small (z : Z) : minInt64 <= z <= maxInt64 -> wrap64 z = z.
Proof.
  unfold minInt64, maxInt64, wrap64. intros H.
  rewrite Z.mod_small; lia.
Qed.

Lemma trimRight_front (pre k : string) :
  strings.trimRight k = k -> k <> "" ->
  strings.trimRight (pre ++ k) = pre ++ k.
Proof.
  intros Hk Hne. induction pre as [| c pre IH]; [exact Hk |].
  cbn [append strings.trimRight]. rewrite IH.
  rewrite isEmpty_append.
  destruct k; [congruence |]. cbn [isEmpty].
  now rewrite !andb_false_r.
Qed.

Lemma eqb_front (pre : string) (c : ascii) (k r : string) :
  pre <> "" -> hasByte c pre = false ->
  String.eqb (pre ++ k) (String c r) = false.
Proof.
  intros Hne Habs. destruct pre as [| x pre]; [congruence |].
  cbn [hasByte] in Habs. apply orb_false_iff in Habs as [Hx _].
  cbn [append String.eqb]. now rewrite Hx.
Qed.

Lemma replaceAllFrom_front (pre : string) (c : ascii) (old' k new : string) :
  hasByte c pre = false ->
  strings.replaceAllFrom O (pre ++ k) (String c old') new
  = pre ++ strings.replaceAllFrom O k (String c old') new.
Proof.
  intros Habs. induction pre as [| x pre IH]; [reflexivity |].
  cbn [hasByte] in Habs. apply orb_false_iff in Habs as [Hx Hpre].
  cbn [append strings.replaceAllFrom strings.HasPrefix].
  rewrite Hx. cbn [andb]. now rewrite (IH Hpre).
Qed.

Lemma Fields_word (s : string) :
  s <> "" -> allBytes (fun c => negb (isSpace c)) s = true ->
  strings.Fields s = [s].
Proof.
  induction s as [| c s IH]; intros Hne Hs; [congruence |].
  cbn [allBytes] in Hs. apply andb_true_iff in Hs as [Hc Hs].
  apply negb_true_iff in Hc. cbn [strings.Fields]. rewrite Hc.
  destruct s as [| c' s']; [reflexivity |].
  pose proof Hs as Hs'. cbn [allBytes] in Hs'.
  apply andb_true_iff in Hs' as [Hc' _]. apply negb_true_iff in Hc'.
  rewrite Hc', IH; [reflexivity | discriminate | exact Hs].
Qed.

Lemma digits_spaceFree (s : string) :
  allBytes isDigit s = true ->
  allBytes (fun c => negb (isSpace c)) s = true.
Proof.
  induction s as [| c s IH]; intros H; [reflexivity |].
  cbn [allBytes] in *. apply andb_true_iff in H as [Hc Hs].
  now rewrite (digit_not_space c Hc), (IH Hs).
Qed.

Section NumeralPhrase.

Variable d : string.
Variable v : Z.
Hypothesis d_digits : digitString d = true.
Hypothesis d_value : strconv.digitsValue 0 d = Some v.

Lemma numeral_front (c : ascii) :
  isDigit c = false -> d <> "" /\ hasByte c d = false.
Proof.
  intros Hc. split; [| exact (numeral_absent d d_digits c Hc)].
  intros E. rewrite E in d_digits. discriminate d_digits.
Qed.

Lemma TrimSpace_numeral_front (k : string) :
  k <> "" -> strings.trimRight k = k -> strings.TrimSpace (d ++ k) = d ++ k.
Proof.
  intros Hne Hk. pose proof (numeral_digits d d_digits) as Hd.
  unfold strings.TrimSpace.
  assert (Hl : strings.trimLeft (d ++ k) = d ++ k).
  { destruct d as [| c t]; [discriminate d_digits |].
    cbn [allBytes] in Hd. apply andb_true_iff in Hd as [Hc _].
    cbn [append strings.trimLeft]. now rewrite (digit_not_space c Hc). }
  rewrite Hl. now apply trimRight_front.
Qed.

Lemma ParseInt_numeral_front (k : string) :
  k <> "" -> fmt.digitRun k = "" -> strconv.ParseInt (d ++ k) = None.
Proof.
  intros Hne Hk. pose proof (numeral_digits d d_digits) as Hd.
  assert (Hval : strconv.digitsValue 0 (d ++ k) = None).
  { rewrite digitsValue_append, d_value.
    destruct k as [| c r]; [congruence |].
    cbn [fmt.digitRun] in Hk. cbn [strconv.digitsValue].
    destruct (isDigit c); [discriminate | reflexivity]. }
  destruct d as [| c t]; [discriminate d_digits |].
  cbn [allBytes] in Hd. apply andb_true_iff in Hd as [Hc _].
  cbn [append] in *. now rewrite (ParseInt_digit_first c _ Hc), Hval.
Qed.

(** The cascade of [ParseTime] on a text that begins with a numeral and
    goes on with other bytes: the timestamp and keyword branches are
    passed over. *)
Lemma ParseTime_numeral_front (k : string) (now start : time.Time) :
  k <> "" -> fmt.digitRun k = "" -> strings.trimRight k = k ->
  ParseTime (d ++ k) now start = ParseTime_rest (d ++ k) now start.
Proof.
  intros Hne Hrun Htrim.
  destruct (numeral_front "l" eq_refl) as [Hd Hl].
  destruct (numeral_front "y" eq_refl) as [_ Hy].
  unfold ParseTime. rewrite isEmpty_append.
  destruct (isEmpty d) eqn:Ed; [destruct d; [congruence | discriminate] |].
  cbn [andb]. rewrite (TrimSpace_numeral_front k Hne Htrim).
  rewrite (ParseInt_numeral_front k Hne Hrun).
  rewrite ToLower_append.
  rewrite (ToLower_letterFree d (digits_letterFree d (numeral_digits d d_digits))).
  rewrite (HasPrefix_front d "l" Hl _ _ Hd), (HasPrefix_front d "y" Hy _ _ Hd).
  reflexivity.
Qed.

(** The same with a plus sign before the numeral. *)
Lemma ParseTime_plus_front (k : string) (now start : time.Time) :
  k <> "" -> fmt.digitRun k = "" -> strings.trimRight k = k ->
  ParseTime ("+" ++ d ++ k) now start = ParseTime_rest ("+" ++ d ++ k) now start.
Proof.
  intros Hne Hrun Htrim.
  assert (Hval : strconv.digitsValue 0 (d ++ k) = None).
  { rewrite digitsValue_append, d_value.
    destruct k as [| c r]; [congruence |].
    cbn [fmt.digitRun] in Hrun. cbn [strconv.digitsValue].
    destruct (isDigit c); [discriminate | reflexivity]. }
  assert (Hd : d <> "") by (intros E; rewrite E in d_digits; discriminate).
  unfold ParseTime. cbn [append isEmpty].
  assert (Ht : strings.TrimSpace (String "+" (d ++ k)) = String "+" (d ++ k)).
  { unfold strings.TrimSpace. change (strings.trimLeft (String "+" (d ++ k)))
      with (String "+" (d ++ k)).
    change (String "+" (d ++ k)) with (("+" ++ d) ++ k).
    now apply trimRight_front. }
  rewrite Ht.
  assert (Hp : strconv.ParseInt (String "+" (d ++ k)) = None).
  { unfold strconv.ParseInt. rewrite isEmpty_append, Hval.
    destruct d; [congruence | reflexivity]. }
  rewrite Hp. reflexivity.
Qed.

(** A numeral and a unit letter, as [parseRelativeTime] and the tail of
    [ParseTime] read it. *)
Lemma parseRelativeTime_numeral (u : string) (unit : Z)
  (now start : time.Time) (positive : bool) :
  In (u, unit) [("h", time.Hour); ("m", time.Minute); ("s", time.Second)] ->
  v * unit <= maxInt64 ->
  parseRelativeTime (d ++ u) now start positive
  = Ok (if positive
        then time.Add (if time.IsZero start then now else start) (v * unit)
        else time.Add now (- (v * unit))).
Proof.
  intros Hu Hmax.
  pose proof (ParseDuration_numeral d u v unit d_digits d_value Hu Hmax) as Hdur.
  pose proof (numeral_nonneg d v d_value) as H0.
  destruct (numeral_front "l" eq_refl) as [Hd Hl].
  destruct (numeral_front "y" eq_refl) as [_ Hy].
  destruct (numeral_front " " eq_refl) as [_ Hsp].
  assert (Hk : u <> "" /\ strings.trimRight u = u /\ strings.ToLower u = u
               /\ strings.replaceAllFrom O u " " "" = u /\ 0 < unit).
  { repeat (destruct Hu as [Hu | Hu]; [injection Hu as <- <- |]);
      try contradiction; repeat split; try reflexivity; discriminate. }
  destruct Hk as (Hne & Htrim & Hlow & Hrep & Hpos).
  unfold parseRelativeTime.
  rewrite (TrimSpace_numeral_front u Hne Htrim), ToLower_append, Hlow.
  rewrite (ToLower_letterFree d (digits_letterFree d (numeral_digits d d_digits))).
  rewrite (eqb_front d "y" u _ Hd Hy), !(eqb_front d "l" u _ Hd Hl).
  rewrite (HasPrefix_front d "l" Hl _ _ Hd).
  unfold strings.ReplaceAll. rewrite (replaceAllFrom_front d " " _ _ _ Hsp), Hrep.
  rewrite Hdur. rewrite wrap64_small by (unfold minInt64, maxInt64 in *; nia).
  destruct positive; [destruct (time.IsZero start) |]; reflexivity.
Qed.

Lemma ParseTime_tail_numeral (u : string) (unit : Z) :
  In (u, unit) [("h", time.Hour); ("m", time.Minute); ("s", time.Second)] ->
  v * unit <= maxInt64 ->
  strings.HasPrefix (d ++ u) "+" = false
  /\ strings.HasPrefix (d ++ u) "-" = false
  /\ time.ParseDuration (d ++ u) = Some (v * unit)
  /\ wrap64 (- (v * unit)) = - (v * unit).
Proof.
  intros Hu Hmax.
  pose proof (ParseDuration_numeral d u v unit d_digits d_value Hu Hmax) as Hdur.
  pose proof (numeral_nonneg d v d_value) as H0.
  destruct (numeral_front "+" eq_refl) as [Hd Hplus].
  destruct (numeral_front "-" eq_refl) as [_ Hminus].
  assert (Hpos : 0 < unit).
  { repeat (destruct Hu as [Hu | Hu]; [injection Hu as <- <- |]);
      try contradiction; reflexivity. }
  repeat split.
  - exact (HasPrefix_front d "+" Hplus _ _ Hd).
  - exact (HasPrefix_front d "-" Hminus _ _ Hd).
  - exact Hdur.
  - apply wrap64_small. unfold minInt64, maxInt64 in *. nia.
Qed.

End NumeralPhrase.

Lemma Join_single (w sep : string) : strings.Join [w] sep = w.
Proof. reflexivity. Qed.

Lemma itoa_unit_word (h : Z) (u : string) (unit : Z) :
  0 <= h ->
  In (u, unit) [("h", time.Hour); ("m", time.Minute); ("s", time.Second)] ->
  strings.Join (strings.Fields (fmt.itoa h ++ u)) "" = fmt.itoa h ++ u.
Proof.
  intros H0 Hu. destruct (itoa_nonneg h H0) as [Hd _].
  apply andb_true_iff in Hd as [Hne Hd].
  rewrite Fields_word; [reflexivity | |].
  - destruct (fmt.itoa h); [discriminate Hne | discriminate].
  - rewrite allBytes_append, (digits_spaceFree _ Hd).
    repeat (destruct Hu as [Hu | Hu]; [injection Hu as <- <- |]);
      try contradiction; reflexivity.
Qed.

(** A phrase [d ++ k] that the normaliser turns into [h] units, with
    and without the word "ago" after it. *)
Lemma ParseTime_converted (d k u : string) (v h unit : Z)
  (now start : time.Time) :
  digitString d = true -> strconv.digitsValue 0 d = Some v ->
  k <> "" -> fmt.digitRun k = "" -> strings.trimRight k = k ->
  strings.Contains k " ago" = false ->
  strings.ReplaceFirst (k ++ " ago") " ago" "" = k ->
  convertCustomUnits (d ++ k) = Ok (fmt.itoa h ++ u) ->
  0 <= h ->
  In (u, unit) [("h", time.Hour); ("m", time.Minute); ("s", time.Second)] ->
  h * unit <= maxInt64 ->
  ParseTime (d ++ k) now start = Ok (time.Add now (- (h * unit)))
  /\ ParseTime (d ++ k ++ " ago") now start = Ok (time.Add now (- (h * unit))).
Proof.
  intros Hd Hv Hne Hrun Htrim Hago Hrep Hconv H0 Hu Hmax.
  destruct (itoa_nonneg h H0) as [Hhd Hhv].
  destruct (ParseTime_tail_numeral (fmt.itoa h) h Hhd Hhv u unit Hu Hmax)
    as (Hplus & Hminus & Hdur & Hwrap).
  split.
  - rewrite (ParseTime_numeral_front d v Hd Hv k now start Hne Hrun Htrim).
    unfold ParseTime_rest.
    rewrite (Contains_front d " " (numeral_absent d Hd " " eq_refl)).
    now rewrite Hago, Hconv, Hplus, Hminus, Hdur, Hwrap.
  - rewrite (ParseTime_numeral_front d v Hd Hv (k ++ " ago") now start).
    + unfold ParseTime_rest.
      rewrite (Contains_front d " " (numeral_absent d Hd " " eq_refl)).
      rewrite (ReplaceFirst_front d " " (numeral_absent d Hd " " eq_refl)).
      pose proof (Contains_occurrence k " ago" "") as Hc.
      cbn [append] in Hc. rewrite Hc, Hrep, Hconv.
      rewrite (itoa_unit_word h u unit H0 Hu).
      now rewrite (parseRelativeTime_numeral (fmt.itoa h) h Hhd Hhv u unit
                     now start false Hu Hmax).
    + destruct k; [congruence | discriminate].
    + destruct k as [| c r]; [congruence |].
      cbn [append fmt.digitRun] in *. destruct (isDigit c); [discriminate | reflexivity].
    + apply trimRight_front; [reflexivity | discriminate].
Qed.

(** ** The unit phrases *)

Lemma numeral_scans (d : string) (v : Z) :
  digitString d = true -> strconv.digitsValue 0 d = Some v -> v < 2 ^ 63 ->
  (forall c, isDigit c = false -> Ascii.eqb "+" c = false -> hasByte c d = false)
  /\ letterFree d = true /\ d <> "" /\ fmt.Sscanf_d d = Some v /\ 0 <= v.
Proof.
  intros Hd Hv Hlt. repeat split.
  - intros c Hc _. exact (numeral_absent d Hd c Hc).
  - exact (digits_letterFree d (numeral_digits d Hd)).
  - exact (numeral_nonempty d v Hd Hv).
  - rewrite <- (append_empty d). now apply (Sscanf_d_numeral d v Hd Hv "").
  - exact (numeral_nonneg d v Hv).
Qed.

Lemma plus_numeral_scans (d : string) (v : Z) :
  digitString d = true -> strconv.digitsValue 0 d = Some v -> v < 2 ^ 63 ->
  (forall c, isDigit c = false -> Ascii.eqb "+" c = false
             -> hasByte c ("+" ++ d) = false)
  /\ letterFree ("+" ++ d) = true /\ "+" ++ d <> ""
  /\ fmt.Sscanf_d ("+" ++ d) = Some v /\ 0 <= v.
Proof.
  intros Hd Hv Hlt. repeat split.
  - intros c Hc Hplus. cbn [append hasByte]. rewrite Hplus.
    exact (numeral_absent d Hd c Hc).
  - unfold letterFree. cbn [append allBytes].
    exact (digits_letterFree d (numeral_digits d Hd)).
  - discriminate.
  - rewrite <- (append_empty d). now apply (Sscanf_d_plus_numeral d v Hd Hv "").
  - exact (numeral_nonneg d v Hv).
Qed.

Lemma toHours_positive (conv : unitConversion) :
  In conv timeUnitsToHours -> 24 <= toHours conv.
Proof.
  intros H. repeat (destruct H as [<- | H]; [cbn; lia |]). destruct H.
Qed.

(** X1.  The verbose units of [timeUnitsToHours].  A numeral directly
    followed, or followed after one space, by one of the words years,
    year, months, month, days, day is rewritten to a count of hours:
    8760 per year, 720 per month, 24 per day.  The count is computed in
    64 bits; when the product fits, it is the product itself. *)
Theorem convertCustomUnits_hours_phrase (d sep pattern : string)
  (conv : unitConversion) (v : Z) :
  digitString d = true -> strconv.digitsValue 0 d = Some v -> v < 2 ^ 63 ->
  In conv timeUnitsToHours -> In pattern (patterns conv) ->
  sep = "" \/ sep = " " ->
  convertCustomUnits (d ++ sep ++ pattern)
  = Ok (fmt.itoa (wrap64 (v * toHours conv)) ++ "h")
  /\ (v * toHours conv <= maxInt64 ->
      convertCustomUnits (d ++ sep ++ pattern)
      = Ok (fmt.itoa (v * toHours conv) ++ "h")).
Proof.
  intros Hd Hv Hlt Hconv Hpat Hsep.
  destruct (numeral_scans d v Hd Hv Hlt) as (Habs & Hlf & Hne & Hscan & H0).
  pose proof (convertCustomUnits_hours d v Habs Hlf Hne Hscan H0 conv pattern
                sep Hconv Hpat Hsep) as H.
  split; [exact H |]. intros Hmax. rewrite H, wrap64_small; [reflexivity |].
  pose proof (toHours_positive conv Hconv). unfold minInt64. nia.
Qed.

Lemma convertCustomUnits_hours_phrase_witness :
  convertCustomUnits "2 days" = Ok "48h".
Proof.
  refine (proj2 (convertCustomUnits_hours_phrase "2" " " "days"
                   {| patterns := ["days"; "day"]; toHours := 24 |} 2
                   eq_refl eq_refl _ _ _ _) _).
  - reflexivity.
  - right. right. left. reflexivity.
  - left. reflexivity.
  - right. reflexivity.
  - vm_compute. discriminate.
Defined.

(** X2.  The verbose units of [simpleTimeUnits].  A numeral directly
    followed, or followed after one space, by seconds, second, sec,
    minutes, minute, min, hours or hour is rewritten to the value of the
    numeral, printed anew, and the unit letter of the word. *)
Theorem convertCustomUnits_simple_phrase (d sep pattern : string)
  (conv : simpleUnit) (v : Z) :
  digitString d = true -> strconv.digitsValue 0 d = Some v -> v < 2 ^ 63 ->
  In conv simpleTimeUnits -> In pattern (simplePatterns conv) ->
  sep = "" \/ sep = " " ->
  convertCustomUnits (d ++ sep ++ pattern) = Ok (fmt.itoa v ++ to conv).
Proof.
  intros Hd Hv Hlt Hconv Hpat Hsep.
  destruct (numeral_scans d v Hd Hv Hlt) as (Habs & Hlf & Hne & Hscan & H0).
  exact (convertCustomUnits_simple d v Habs Hlf Hne Hscan H0 conv pattern
           sep Hconv Hpat Hsep).
Qed.

Lemma convertCustomUnits_simple_phrase_witness :
  convertCustomUnits "007 seconds" = Ok "7s".
Proof.
  refine (convertCustomUnits_simple_phrase "007" " " "seconds"
            {| simplePatterns := ["seconds"; "second"; "sec"]; to := "s" |} 7
            eq_refl eq_refl _ _ _ _).
  - reflexivity.
  - left. reflexivity.
  - left. reflexivity.
  - right. reflexivity.
Defined.

(** X3.  The short forms.  The decimal numeral of [n] directly followed
    by the letter d or y is rewritten to 24 or 8760 times [n] hours. *)
Theorem convertCustomUnits_short_form (n : Z) (short : string) (hours : Z) :
  0 <= n < 2 ^ 63 ->
  (short, hours) = ("d", 24) \/ (short, hours) = ("y", 8760) ->
  convertCustomUnits (fmt.itoa n ++ short)
  = Ok (fmt.itoa (wrap64 (n * hours)) ++ "h")
  /\ (n * hours <= maxInt64 ->
      convertCustomUnits (fmt.itoa n ++ short) = Ok (fmt.itoa (n * hours) ++ "h")).
Proof.
  intros Hn Hs. pose proof (convertCustomUnits_short n Hn short hours Hs) as H.
  split; [exact H |]. intros Hmax. rewrite H, wrap64_small; [reflexivity |].
  assert (0 < hours) by (destruct Hs as [E | E]; inversion E; lia).
  unfold minInt64. nia.
Qed.

Lemma convertCustomUnits_short_form_witness :
  convertCustomUnits "4d" = Ok "96h".
Proof.
  refine (proj2 (convertCustomUnits_short_form 4 "d" 24 _ _) _).
  - split; [lia | reflexivity].
  - left. reflexivity.
  - vm_compute. discriminate.
Defined.

(** ** The phrases through [ParseTime] *)

Lemma unit_word_shape (sep pattern : string) :
  (exists conv, In conv timeUnitsToHours /\ In pattern (patterns conv))
  \/ (exists conv, In conv simpleTimeUnits /\ In pattern (simplePatterns conv))
  \/ pattern = "d" \/ pattern = "y" ->
  sep = "" \/ sep = " " ->
  sep ++ pattern <> "" /\ fmt.digitRun (sep ++ pattern) = ""
  /\ strings.trimRight (sep ++ pattern) = sep ++ pattern
  /\ strings.Contains (sep ++ pattern) " ago" = false
  /\ strings.ReplaceFirst ((sep ++ pattern) ++ " ago") " ago" "" = sep ++ pattern.
Proof.
  intros Hpat Hsep.
  assert (H : In pattern ["years"; "year"; "months"; "month"; "days"; "day";
                          "seconds"; "second"; "sec"; "minutes"; "minute";
                          "min"; "hours"; "hour"; "d"; "y"]).
  { destruct Hpat as [(conv & Hc & Hp) | [(conv & Hc & Hp) | [-> | ->]]].
    - repeat (destruct Hc as [<- | Hc]; [| try contradiction]);
        cbn [patterns] in Hp;
        repeat (destruct Hp as [<- | Hp]; [| try contradiction]);
        cbn [In]; tauto.
    - repeat (destruct Hc as [<- | Hc]; [| try contradiction]);
        cbn [simplePatterns] in Hp;
        repeat (destruct Hp as [<- | Hp]; [| try contradiction]);
        cbn [In]; tauto.
    - cbn [In]; tauto.
    - cbn [In]; tauto. }
  repeat (destruct H as [<- | H]; [| try contradiction]);
    destruct Hsep as [-> | ->];
    (split; [discriminate | repeat split; vm_compute; reflexivity]).
Qed.

(** X4.  A duration literal: a numeral and one of the unit letters h, m, s.
    The text resolves to that long before [now]; after a plus sign, to
    that long after [startTime], or after [now] when [startTime] is the
    zero instant; after a minus sign, to that long before [now]. *)
Theorem ParseTime_duration_literal (d u : string) (v unit : Z)
  (now start : time.Time) :
  digitString d = true -> strconv.digitsValue 0 d = Some v ->
  In (u, unit) [("h", time.Hour); ("m", time.Minute); ("s", time.Second)] ->
  v * unit <= maxInt64 ->
  ParseTime (d ++ u) now start = Ok (time.Add now (- (v * unit)))
  /\ ParseTime ("+" ++ d ++ u) now start
     = Ok (time.Add (if time.IsZero start then now else start) (v * unit))
  /\ ParseTime ("-" ++ d ++ u) now start = Ok (time.Add now (- (v * unit))).
Proof.
  intros Hd Hv Hu Hmax.
  assert (Hshape : u <> "" /\ fmt.digitRun u = "" /\ strings.trimRight u = u
                   /\ strings.Contains u " ago" = false
                   /\ normalForm u = true).
  { repeat (destruct Hu as [Hu | Hu]; [injection Hu as <- <- |]);
      try contradiction; (split; [discriminate | repeat split; reflexivity]). }
  destruct Hshape as (Hne & Hrun & Htrim & Hago & Hnf).
  pose proof (numeral_digits d Hd) as Hdig.
  assert (Hnorm : forall sgn, isLetter sgn = false ->
                    convertCustomUnits (String sgn (d ++ u))
                    = Ok (String sgn (d ++ u))).
  { intros sgn Hs. apply convertCustomUnits_normalForm. unfold normalForm.
    cbn [allBytes]. unfold durationByte at 1. rewrite Hs. cbn [negb orb andb].
    rewrite allBytes_append. fold (normalForm u). rewrite Hnf, andb_true_r.
    exact (digits_normalForm d Hdig). }
  assert (Hsp : hasByte " " d = false) by exact (numeral_absent d Hd " " eq_refl).
  pose proof (parseRelativeTime_numeral d v Hd Hv u unit now start) as Hrel.
  assert (Hsigned : forall sgn, isLetter sgn = false -> isSpace sgn = false ->
            Ascii.eqb sgn " " = false -> strconv.ParseInt (String sgn (d ++ u)) = None ->
            strings.lower sgn = sgn -> Ascii.eqb sgn "l" = false ->
            Ascii.eqb sgn "y" = false ->
            ParseTime (String sgn (d ++ u)) now start
            = ParseTime_rest (String sgn (d ++ u)) now start).
  { intros sgn Hl Hs Hs' Hp Hlow Hsl Hsy. unfold ParseTime. cbn [isEmpty].
    assert (Ht : strings.TrimSpace (String sgn (d ++ u)) = String sgn (d ++ u)).
    { unfold strings.TrimSpace. cbn [strings.trimLeft]. rewrite Hs.
      change (String sgn (d ++ u)) with ((String sgn d) ++ u).
      now apply trimRight_front. }
    rewrite Ht, Hp. cbn [strings.ToLower strings.HasPrefix].
    now rewrite Hlow, Hsl, Hsy. }
  assert (Hval : strconv.digitsValue 0 (d ++ u) = None).
  { rewrite digitsValue_append, Hv. destruct u as [| c r]; [congruence |].
    cbn [fmt.digitRun] in Hrun. cbn [strconv.digitsValue].
    destruct (isDigit c); [discriminate | reflexivity]. }
  assert (Hbody : isEmpty (d ++ u) = false)
    by (rewrite isEmpty_append; destruct u; [congruence | apply andb_false_r]).
  split; [| split].
  - assert (Hc : convertCustomUnits (d ++ u) = Ok (d ++ u)).
    { apply convertCustomUnits_normalForm. unfold normalForm.
      rewrite allBytes_append. fold (normalForm u). rewrite Hnf, andb_true_r.
      exact (digits_normalForm d Hdig). }
    destruct (ParseTime_tail_numeral d v Hd Hv u unit Hu Hmax)
      as (Hplus & Hminus & Hdur & Hwrap).
    rewrite (ParseTime_numeral_front d v Hd Hv u now start Hne Hrun Htrim).
    unfold ParseTime_rest. rewrite (Contains_front d " " Hsp), Hago, Hc.
    now rewrite Hplus, Hminus, Hdur, Hwrap.
  - cbn [append]. rewrite Hsigned; try reflexivity.
    + unfold ParseTime_rest.
      change (String "+"%char (d ++ u)) with ((String "+"%char d) ++ u) at 1.
      rewrite (Contains_front (String "+"%char d) " "%char) by (cbn [hasByte]; exact Hsp).
      rewrite Hago, (Hnorm "+"%char eq_refl). cbn [strings.HasPrefix andb Ascii.eqb].
      change (sliceFrom (String "+"%char (d ++ u)) 1) with (d ++ u).
      rewrite (Hrel true Hu Hmax). reflexivity.
    + unfold strconv.ParseInt. now rewrite Hbody, Hval.
  - cbn [append]. rewrite Hsigned; try reflexivity.
    + unfold ParseTime_rest.
      change (String "-"%char (d ++ u)) with ((String "-"%char d) ++ u) at 1.
      rewrite (Contains_front (String "-"%char d) " "%char) by (cbn [hasByte]; exact Hsp).
      rewrite Hago, (Hnorm "-"%char eq_refl). cbn [strings.HasPrefix andb Ascii.eqb].
      change (sliceFrom (String "-"%char (d ++ u)) 1) with (d ++ u).
      rewrite (Hrel false Hu Hmax). reflexivity.
    + unfold strconv.ParseInt. now rewrite Hbody, Hval.
Qed.

Lemma ParseTime_duration_literal_witness :
  ParseTime "90m" fixedTime time.zero
  = Ok (time.Add fixedTime (- (90 * time.Minute))).
Proof.
  refine (proj1 (ParseTime_duration_literal "90" "m" 90 time.Minute fixedTime
                   time.zero eq_refl eq_refl _ _)).
  - right. left. reflexivity.
  - vm_compute. discriminate.
Defined.

(** X5.  The verbose units of [timeUnitsToHours] through [ParseTime].
    A numeral and one of years, year, months, month, days, day, with or
    without the word ago after it, resolves to that many hours before
    [now]: 8760 per year, 720 per month, 24 per day. *)
Theorem ParseTime_hours_phrase (d sep pattern : string)
  (conv : unitConversion) (v : Z) (now start : time.Time) :
  digitString d = true -> strconv.digitsValue 0 d = Some v ->
  In conv timeUnitsToHours -> In pattern (patterns conv) ->
  sep = "" \/ sep = " " ->
  v * toHours conv * time.Hour <= maxInt64 ->
  ParseTime (d ++ sep ++ pattern) now start
  = Ok (time.Add now (- (v * toHours conv * time.Hour)))
  /\ ParseTime (d ++ sep ++ pattern ++ " ago") now start
     = Ok (time.Add now (- (v * toHours conv * time.Hour))).
Proof.
  intros Hd Hv Hconv Hpat Hsep Hmax.
  pose proof (toHours_positive conv Hconv) as Hk.
  pose proof (numeral_nonneg d v Hv) as H0.
  assert (Hlt : v < 2 ^ 63)
    by (unfold maxInt64, time.Hour, time.Minute, time.Second in Hmax; nia).
  destruct (numeral_scans d v Hd Hv Hlt) as (Habs & Hlf & Hne & Hscan & _).
  pose proof (convertCustomUnits_hours d v Habs Hlf Hne Hscan H0 conv pattern
                sep Hconv Hpat Hsep) as Hc.
  rewrite wrap64_small in Hc
    by (unfold minInt64, maxInt64, time.Hour, time.Minute, time.Second in *; nia).
  destruct (unit_word_shape sep pattern) as (Hs1 & Hs2 & Hs3 & Hs4 & Hs5);
    [left; now exists conv | exact Hsep |].
  rewrite <- (append_assoc sep pattern " ago").
  apply (ParseTime_converted d (sep ++ pattern) "h" v (v * toHours conv)
           time.Hour now start Hd Hv Hs1 Hs2 Hs3 Hs4 Hs5 Hc);
    [nia | now left | exact Hmax].
Qed.

Lemma ParseTime_hours_phrase_witness :
  ParseTime "2 days ago" fixedTime time.zero
  = Ok (time.Add fixedTime (- (48 * time.Hour))).
Proof.
  refine (proj2 (ParseTime_hours_phrase "2" " " "days"
                   {| patterns := ["days"; "day"]; toHours := 24 |} 2
                   fixedTime time.zero eq_refl eq_refl _ _ _ _)).
  - right. right. left. reflexivity.
  - left. reflexivity.
  - right. reflexivity.
  - vm_compute. discriminate.
Defined.

(** X6.  The verbose units of [simpleTimeUnits] through [ParseTime].
    A numeral and one of seconds, second, sec, minutes, minute, min,
    hours, hour, with or without the word ago after it, resolves to that
    many seconds, minutes or hours before [now]. *)
Theorem ParseTime_simple_phrase (d sep pattern : string) (conv : simpleUnit)
  (v unit : Z) (now start : time.Time) :
  digitString d = true -> strconv.digitsValue 0 d = Some v ->
  In conv simpleTimeUnits -> In pattern (simplePatterns conv) ->
  sep = "" \/ sep = " " ->
  time.unitMap (to conv) = Some unit ->
  v * unit <= maxInt64 ->
  ParseTime (d ++ sep ++ pattern) now start = Ok (time.Add now (- (v * unit)))
  /\ ParseTime (d ++ sep ++ pattern ++ " ago") now start
     = Ok (time.Add now (- (v * unit))).
Proof.
  intros Hd Hv Hconv Hpat Hsep Hunit Hmax.
  pose proof (numeral_nonneg d v Hv) as H0.
  assert (Hu : In (to conv, unit)
                 [("h", time.Hour); ("m", time.Minute); ("s", time.Second)]
               /\ 0 < unit).
  { repeat (destruct Hconv as [<- | Hconv]; [| try contradiction]);
      cbn [to] in *; vm_compute in Hunit; injection Hunit as <-;
      (split; [cbn [In]; tauto | reflexivity]). }
  destruct Hu as [Hu Hpos].
  assert (Hlt : v < 2 ^ 63) by (unfold maxInt64 in Hmax; nia).
  destruct (numeral_scans d v Hd Hv Hlt) as (Habs & Hlf & Hne & Hscan & _).
  pose proof (convertCustomUnits_simple d v Habs Hlf Hne Hscan H0 conv pattern
                sep Hconv Hpat Hsep) as Hc.
  destruct (unit_word_shape sep pattern) as (Hs1 & Hs2 & Hs3 & Hs4 & Hs5);
    [right; left; now exists conv | exact Hsep |].
  rewrite <- (append_assoc sep pattern " ago").
  exact (ParseTime_converted d (sep ++ pattern) (to conv) v v unit now start
           Hd Hv Hs1 Hs2 Hs3 Hs4 Hs5 Hc H0 Hu Hmax).
Qed.

Lemma ParseTime_simple_phrase_witness :
  ParseTime "40 minutes ago" fixedTime time.zero
  = Ok (time.Add fixedTime (- (40 * time.Minute))).
Proof.
  refine (proj2 (ParseTime_simple_phrase "40" " " "minutes"
                   {| simplePatterns := ["minutes"; "minute"; "min"]; to := "m" |}
                   40 time.Minute fixedTime time.zero eq_refl eq_refl
                   _ _ _ _ _)).
  - right. left. reflexivity.
  - left. reflexivity.
  - right. reflexivity.
  - reflexivity.
  - vm_compute. discriminate.
Defined.

(** X7.  The short forms through [ParseTime].  The decimal numeral of
    [n] and the letter d or y, with or without the word ago after it,
    resolves to 24 or 8760 times [n] hours before [now]. *)
Theorem ParseTime_short_form (n : Z) (short : string) (hours : Z)
  (now start : time.Time) :
  0 <= n ->
  (short, hours) = ("d", 24) \/ (short, hours) = ("y", 8760) ->
  n * hours * time.Hour <= maxInt64 ->
  ParseTime (fmt.itoa n ++ short) now start
  = Ok (time.Add now (- (n * hours * time.Hour)))
  /\ ParseTime (fmt.itoa n ++ short ++ " ago") now start
     = Ok (time.Add now (- (n * hours * time.Hour))).
Proof.
  intros H0 Hs Hmax.
  assert (Hh : 24 <= hours) by (destruct Hs as [E | E]; inversion E; lia).
  assert (Hn : 0 <= n < 2 ^ 63)
    by (unfold maxInt64, time.Hour, time.Minute, time.Second in Hmax; nia).
  destruct (itoa_nonneg n H0) as [Hd Hv].
  pose proof (convertCustomUnits_short n Hn short hours Hs) as Hc.
  rewrite wrap64_small in Hc
    by (unfold minInt64, maxInt64, time.Hour, time.Minute, time.Second in *; nia).
  destruct (unit_word_shape "" short) as (Hs1 & Hs2 & Hs3 & Hs4 & Hs5);
    [right; right; destruct Hs as [E | E]; inversion E; tauto | now left |].
  cbn [append] in Hs1, Hs2, Hs3, Hs4, Hs5.
  apply (ParseTime_converted (fmt.itoa n) short "h" n (n * hours) time.Hour
           now start Hd Hv Hs1 Hs2 Hs3 Hs4 Hs5 Hc);
    [nia | now left | exact Hmax].
Qed.

Lemma ParseTime_short_form_witness :
  ParseTime "4d" fixedTime time.zero
  = Ok (time.Add fixedTime (- (96 * time.Hour))).
Proof.
  refine (proj1 (ParseTime_short_form 4 "d" 24 fixedTime time.zero _ _ _)).
  - lia.
  - left. reflexivity.
  - vm_compute. discriminate.
Defined.

(** X8.  A plus sign before a verbose unit phrase is lost.  The
    normaliser scans the sign with the numeral and prints the count
    without it, so the phrase resolves backwards from [now], as it does
    without the sign, and [startTime] plays no part. *)
Theorem ParseTime_plus_phrase (d sep pattern : string) (v unit : Z)
  (now start : time.Time) :
  digitString d = true -> strconv.digitsValue 0 d = Some v ->
  unitWord pattern unit -> sep = "" \/ sep = " " ->
  v * unit <= maxInt64 ->
  ParseTime ("+" ++ d ++ sep ++ pattern) now start
  = Ok (time.Add now (- (v * unit))).
Proof.
  intros Hd Hv Hword Hsep Hmax.
  pose proof (numeral_nonneg d v Hv) as H0.
  assert (Hshape : sep ++ pattern <> "" /\ fmt.digitRun (sep ++ pattern) = ""
                   /\ strings.trimRight (sep ++ pattern) = sep ++ pattern
                   /\ strings.Contains (sep ++ pattern) " ago" = false).
  { destruct (unit_word_shape sep pattern) as (Hs1 & Hs2 & Hs3 & Hs4 & _);
      [| exact Hsep | tauto].
    destruct Hword as [(conv & Hc & Hp & _) | (conv & Hc & Hp & _)];
      [left | right; left]; now exists conv. }
  destruct Hshape as (Hs1 & Hs2 & Hs3 & Hs4).
  assert (Hconv : exists h u unitL,
             convertCustomUnits (("+" ++ d) ++ sep ++ pattern)
             = Ok (fmt.itoa h ++ u)
             /\ 0 <= h
             /\ In (u, unitL)
                  [("h", time.Hour); ("m", time.Minute); ("s", time.Second)]
             /\ h * unitL = v * unit).
  { destruct Hword as [(conv & Hc & Hp & ->) | (conv & Hc & Hp & Hunit)].
    - pose proof (toHours_positive conv Hc) as Hk.
      assert (Hlt : v < 2 ^ 63)
        by (unfold maxInt64, time.Hour, time.Minute, time.Second in Hmax; nia).
      destruct (plus_numeral_scans d v Hd Hv Hlt) as (Habs & Hlf & Hne & Hscan & _).
      pose proof (convertCustomUnits_hours ("+" ++ d) v Habs Hlf Hne Hscan H0
                    conv pattern sep Hc Hp Hsep) as E.
      rewrite wrap64_small in E
        by (unfold minInt64, maxInt64, time.Hour, time.Minute, time.Second in *;
            nia).
      exists (v * toHours conv), "h", time.Hour.
      repeat split; [exact E | nia | now left | lia].
    - assert (Hu : In (to conv, unit)
                     [("h", time.Hour); ("m", time.Minute); ("s", time.Second)]
                   /\ 0 < unit).
      { repeat (destruct Hc as [<- | Hc]; [| try contradiction]);
          cbn [to] in *; vm_compute in Hunit; injection Hunit as <-;
          (split; [cbn [In]; tauto | reflexivity]). }
      destruct Hu as [Hu Hpos].
      assert (Hlt : v < 2 ^ 63) by (unfold maxInt64 in Hmax; nia).
      destruct (plus_numeral_scans d v Hd Hv Hlt) as (Habs & Hlf & Hne & Hscan & _).
      pose proof (convertCustomUnits_simple ("+" ++ d) v Habs Hlf Hne Hscan H0
                    conv pattern sep Hc Hp Hsep) as E.
      exists v, (to conv), unit. repeat split; [exact E | exact H0 | exact Hu]. }
  destruct Hconv as (h & u & unitL & Hc & Hh & Hu & Hprod).
  rewrite <- Hprod in *.
  destruct (itoa_nonneg h Hh) as [Hhd Hhv].
  destruct (ParseTime_tail_numeral (fmt.itoa h) h Hhd Hhv u unitL Hu Hmax)
    as (Hplus & Hminus & Hdur & Hwrap).
  rewrite (ParseTime_plus_front d v Hd Hv (sep ++ pattern) now start Hs1 Hs2 Hs3).
  unfold ParseTime_rest.
  change ("+" ++ d ++ sep ++ pattern) with (("+" ++ d) ++ sep ++ pattern).
  rewrite (Contains_front ("+" ++ d) " ")
    by (cbn [append hasByte]; exact (numeral_absent d Hd " " eq_refl)).
  now rewrite Hs4, Hc, Hplus, Hminus, Hdur, Hwrap.
Qed.

Lemma ParseTime_plus_phrase_witness :
  ParseTime "+2 days" fixedTime (time.Unix 5 0)
  = Ok (time.Add fixedTime (- (2 * (24 * time.Hour)))).
Proof.
  refine (ParseTime_plus_phrase "2" " " "days" 2 (24 * time.Hour) fixedTime
            (time.Unix 5 0) eq_refl eq_refl _ _ _).
  - left. exists {| patterns := ["days"; "day"]; toHours := 24 |}.
    split; [right; right; left; reflexivity |].
    split; [left; reflexivity | reflexivity].
  - right. reflexivity.
  - vm_compute. discriminate.
Defined.

(** ** Splitting a range *)

Lemma Contains_byte (c : ascii) (s : string) :
  strings.Contains s (String c "") = hasByte c s.
Proof.
  unfold strings.Contains. induction s as [| x s IH]; [reflexivity |].
  cbn [strings.Index strings.HasPrefix hasByte]. rewrite andb_true_r.
  destruct (Ascii.eqb x c); [reflexivity |]. cbn [orb]. rewrite <- IH.
  destruct (strings.Index s (String c "") <? 0) eqn:E.
  - apply Z.ltb_lt in E. symmetry. apply Z.leb_gt. exact E.
  - apply Z.ltb_ge in E. transitivity true; [apply Z.leb_le; lia |].
    symmetry. now apply Z.leb_le.
Qed.

Lemma countByte_absent (c : ascii) (s : string) :
  countByte c s = O <-> hasByte c s = false.
Proof.
  induction s as [| x s IH]; [split; reflexivity |].
  cbn [countByte hasByte]. destruct (Ascii.eqb x c); cbn [orb Nat.add].
  - split; discriminate.
  - exact IH.
Qed.

Lemma splitFrom_byte (c x : ascii) (s : string) :
  strings.splitFrom O (String x s) (String c "")
  = let (p, ps) := strings.splitFrom O s (String c "") in
    if Ascii.eqb x c then ("", p :: ps) else (String x p, ps).
Proof.
  cbn [strings.splitFrom strings.HasPrefix String.length Nat.sub].
  rewrite andb_true_r.
  destruct (Ascii.eqb x c), (strings.splitFrom O s (String c "")); reflexivity.
Qed.

Lemma Split_length (c : ascii) (s : string) :
  List.length (strings.Split s (String c "")) = S (countByte c s).
Proof.
  unfold strings.Split.
  assert (H : List.length (snd (strings.splitFrom O s (String c "")))
              = countByte c s).
  { induction s as [| x s IH]; [reflexivity |].
    rewrite splitFrom_byte. cbn [countByte].
    destruct (strings.splitFrom O s (String c "")) as [p ps].
    destruct (Ascii.eqb x c); cbn [snd List.length Nat.add] in *; now rewrite IH. }
  destruct (strings.splitFrom O s (String c "")) as [p ps].
  cbn [snd List.length] in *. now rewrite H.
Qed.

Lemma Split_absent (c : ascii) (s : string) :
  hasByte c s = false -> strings.Split s (String c "") = [s].
Proof.
  unfold strings.Split. intros H.
  assert (G : strings.splitFrom O s (String c "") = (s, [])).
  { induction s as [| x s IH]; [reflexivity |].
    cbn [hasByte] in H. apply orb_false_iff in H as [Hx Hs].
    now rewrite splitFrom_byte, (IH Hs), Hx. }
  now rewrite G.
Qed.

Lemma Split_at (c : ascii) (l r : string) :
  hasByte c l = false ->
  strings.Split (l ++ String c r) (String c "")
  = l :: strings.Split r (String c "").
Proof.
  unfold strings.Split. intros H.
  induction l as [| x l IH].
  - cbn [append]. rewrite splitFrom_byte, Ascii.eqb_refl.
    now destruct (strings.splitFrom O r (String c "")).
  - cbn [hasByte] in H. apply orb_false_iff in H as [Hx Hl].
    specialize (IH Hl). cbn [append]. rewrite splitFrom_byte, Hx.
    destruct (strings.splitFrom O (l ++ String c r) (String c "")) as [p ps].
    now injection IH as -> ->.
Qed.

Lemma Before_irrefl (t : time.Time) : time.Before t t = false.
Proof.
  unfold time.Before. now rewrite !Z.ltb_irrefl, andb_false_r.
Qed.

Lemma rangeInstants_split (now : time.Time) (left right : string) :
  hasByte "/" left = false -> hasByte "/" right = false ->
  rangeInstants now (left ++ "/" ++ right)
  = match ParseTime left now time.zero with
    | Err e => Err (ErrInvalidStartTime e)
    | Ok startTime =>
        match ParseTime right now startTime with
        | Err e => Err (ErrInvalidEndTime e)
        | Ok endTime => Ok (startTime, endTime)
        end
    end.
Proof.
  intros Hl Hr. unfold rangeInstants.
  rewrite (Contains_occurrence left "/" right).
  cbn [append]. now rewrite (Split_at "/" left right Hl), (Split_absent "/" right Hr).
Qed.

(** X9.  A range text with two or more separators is refused, whatever
    stands between them. *)
Theorem ParseTimeRange_separators (now : time.Time) (timeRange : string) :
  (2 <= countByte "/" timeRange)%nat ->
  ParseTimeRange now timeRange = Err ErrInvalidTimeRange.
Proof.
  intros H. unfold ParseTimeRange, rangeInstants.
  destruct timeRange as [| x s] eqn:E; [cbn in H; lia |]. rewrite <- E in *.
  replace (isEmpty timeRange) with false by now rewrite E.
  rewrite Contains_byte.
  destruct (hasByte "/" timeRange) eqn:Hb;
    [| apply countByte_absent in Hb; lia].
  pose proof (Split_length "/" timeRange) as Hl.
  destruct (strings.Split timeRange "/") as [| a [| b [| c l]]];
    cbn [List.length] in Hl; try reflexivity; lia.
Qed.

Lemma ParseTimeRange_separators_witness :
  ParseTimeRange fixedTime "1h/30m/5m" = Err ErrInvalidTimeRange.
Proof.
  apply (ParseTimeRange_separators fixedTime "1h/30m/5m").
  vm_compute. lia.
Defined.

(** X10.  A range text without a separator is one instant: the result
    of [ParseTime] on the whole text, against the zero start, is returned
    as both ends, and a failure of [ParseTime] is returned as it is. *)
Theorem ParseTimeRange_single (now : time.Time) (timeRange : string) :
  timeRange <> "" -> hasByte "/" timeRange = false ->
  ParseTimeRange now timeRange
  = match ParseTime timeRange now time.zero with
    | Ok t => Ok (time.Time_Unix t, time.Time_Unix t)
    | Err e => Err e
    end.
Proof.
  intros Hne Hb. unfold ParseTimeRange, rangeInstants.
  rewrite (isEmpty_false _ Hne), Contains_byte, Hb.
  destruct (ParseTime timeRange now time.zero) as [t | e]; [| reflexivity].
  now rewrite Before_irrefl, andb_false_r.
Qed.

Lemma ParseTimeRange_single_witness :
  ParseTimeRange fixedTime "1416434697" = Ok (1416434697, 1416434697).
Proof.
  refine (eq_trans (ParseTimeRange_single fixedTime "1416434697" _ _) _).
  - discriminate.
  - reflexivity.
  - reflexivity.
Defined.

(** X11.  A range text with one separator.  The left side is resolved
    against the zero start and its failure is wrapped as a start error;
    the right side is resolved with the left instant as its start and its
    failure is wrapped as an end error; the order is checked only when
    neither instant is the zero instant. *)
Theorem ParseTimeRange_pair (now : time.Time) (left right : string) :
  hasByte "/" left = false -> hasByte "/" right = false ->
  ParseTimeRange now (left ++ "/" ++ right)
  = match ParseTime left now time.zero with
    | Err e => Err (ErrInvalidStartTime e)
    | Ok startTime =>
        match ParseTime right now startTime with
        | Err e => Err (ErrInvalidEndTime e)
        | Ok endTime =>
            if negb (time.IsZero endTime) && negb (time.IsZero startTime)
               && time.Before endTime startTime
            then Err ErrEndBeforeStart
            else Ok (time.Time_Unix startTime, time.Time_Unix endTime)
        end
    end.
Proof.
  intros Hl Hr. unfold ParseTimeRange.
  rewrite isEmpty_append, andb_false_r, (rangeInstants_split now left right Hl Hr).
  destruct (ParseTime left now time.zero) as [st | e]; [| reflexivity].
  destruct (ParseTime right now st) as [en | e]; reflexivity.
Qed.

Lemma ParseTimeRange_pair_witness :
  ParseTimeRange fixedTime "30m/1h" = Err ErrEndBeforeStart.
Proof.
  refine (eq_trans (ParseTimeRange_pair fixedTime "30m" "1h" _ _) _);
    reflexivity.
Defined.

(** X12.  A range with nothing before the separator.  The start is the
    zero instant, so the start that is returned is the epoch second of
    the year 1, -62135596800, the right side is resolved against the zero
    start, and the order is not checked. *)
Theorem ParseTimeRange_open_start (now : time.Time) (right : string) :
  hasByte "/" right = false ->
  ParseTimeRange now ("/" ++ right)
  = match ParseTime right now time.zero with
    | Ok endTime => Ok (-62135596800, time.Time_Unix endTime)
    | Err e => Err (ErrInvalidEndTime e)
    end.
Proof.
  intros Hr. unfold ParseTimeRange.
  change ("/" ++ right) with ("" ++ "/" ++ right).
  rewrite (rangeInstants_split now "" right eq_refl Hr).
  change (ParseTime "" now time.zero) with (@Ok time.Time time.zero).
  cbn [append isEmpty].
  destruct (ParseTime right now time.zero) as [en | e]; [| reflexivity].
  change (time.IsZero time.zero) with true. cbn [negb andb].
  now rewrite andb_false_r.
Qed.

Lemma ParseTimeRange_open_start_witness :
  ParseTimeRange fixedTime "/1416434697" = Ok (-62135596800, 1416434697).
Proof.
  refine (eq_trans (ParseTimeRange_open_start fixedTime "1416434697" _) _);
    reflexivity.
Defined.

(** X13.  A range with nothing after the separator.  The end is [now]
    when the left side resolves to an instant other than the zero
    instant, and the range is refused when that instant is after [now];
    when the left side resolves to the zero instant, the end is the zero
    instant too. *)
Theorem ParseTimeRange_open_end (now startTime : time.Time) (left : string) :
  hasByte "/" left = false ->
  ParseTime left now time.zero = Ok startTime ->
  ParseTimeRange now (left ++ "/")
  = if time.IsZero startTime
    then Ok (time.Time_Unix startTime, time.Time_Unix startTime)
    else if negb (time.IsZero now) && time.Before now startTime
    then Err ErrEndBeforeStart
    else Ok (time.Time_Unix startTime, time.Time_Unix now).
Proof.
  intros Hl Hst. unfold ParseTimeRange.
  rewrite isEmpty_append, andb_false_r.
  pose proof (rangeInstants_split now left "" Hl eq_refl) as Hsplit.
  cbn [append] in Hsplit. rewrite Hsplit, Hst.
  unfold ParseTime at 1. cbn [isEmpty].
  destruct (time.IsZero startTime) eqn:Ez; cbv beta iota.
  - now rewrite Ez.
  - rewrite Ez. cbn [negb]. now rewrite andb_true_r.
Qed.

Lemma ParseTimeRange_open_end_witness :
  ParseTimeRange fixedTime "2099-01-01/" = Err ErrEndBeforeStart.
Proof.
  refine (eq_trans (ParseTimeRange_open_end fixedTime
                      (time.Date 2099 1 1 0 0 0 0 time.UTC) "2099-01-01" _ _) _);
    reflexivity.
Defined.

(** ** White space and letter case *)

Lemma trimLeft_idem (s : string) :
  strings.trimLeft (strings.trimLeft s) = strings.trimLeft s.
Proof.
  induction s as [| c s IH]; [reflexivity |].
  cbn [strings.trimLeft]. destruct (isSpace c) eqn:E; [exact IH |].
  cbn [strings.trimLeft]. now rewrite E.
Qed.

Lemma trimRight_idem (s : string) :
  strings.trimRight (strings.trimRight s) = strings.trimRight s.
Proof.
  induction s as [| c s IH]; [reflexivity |].
  cbn [strings.trimRight].
  destruct (isSpace c && isEmpty (strings.trimRight s)) eqn:E; [reflexivity |].
  cbn [strings.trimRight]. now rewrite IH, E.
Qed.

Lemma trimLeft_trimRight (s : string) :
  strings.trimLeft s = s -> strings.trimLeft (strings.trimRight s) = strings.trimRight s.
Proof.
  destruct s as [| c s]; [reflexivity |]. cbn [strings.trimLeft strings.trimRight].
  destruct (isSpace c) eqn:E.
  - intros H. exfalso.
    assert (Hlen : forall t, (String.length (strings.trimLeft t) <= String.length t)%nat).
    { induction t as [| x t IHt]; [cbn; lia |]. cbn [strings.trimLeft].
      destruct (isSpace x); cbn [String.length]; lia. }
    specialize (Hlen s). rewrite H in Hlen. cbn [String.length] in Hlen. lia.
  - intros _. cbn [andb strings.trimLeft]. now rewrite E.
Qed.

Lemma TrimSpace_idem (s : string) :
  strings.TrimSpace (strings.TrimSpace s) = strings.TrimSpace s.
Proof.
  unfold strings.TrimSpace.
  now rewrite (trimLeft_trimRight _ (trimLeft_idem s)), trimRight_idem.
Qed.

(** X14.  White space around an expression is ignored: a text that is
    not blank resolves as the text without its leading and trailing
    white space does. *)
Theorem ParseTime_trimmed (s : string) (now start : time.Time) :
  strings.TrimSpace s <> "" ->
  ParseTime s now start = ParseTime (strings.TrimSpace s) now start.
Proof.
  intros Ht. unfold ParseTime.
  assert (Hs : isEmpty s = false) by (destruct s; [now elim Ht | reflexivity]).
  now rewrite Hs, (isEmpty_false _ Ht), TrimSpace_idem.
Qed.

Lemma ParseTime_trimmed_witness :
  ParseTime "  2 days ago " fixedTime time.zero
  = ParseTime "2 days ago" fixedTime time.zero.
Proof.
  apply (ParseTime_trimmed "  2 days ago " fixedTime time.zero).
  vm_compute. discriminate.
Defined.

Lemma lower_space (c : ascii) : isSpace (strings.lower c) = isSpace c.
Proof. destruct c as [[] [] [] [] [] [] [] []]; reflexivity. Qed.

Lemma lower_idem (c : ascii) : strings.lower (strings.lower c) = strings.lower c.
Proof. destruct c as [[] [] [] [] [] [] [] []]; reflexivity. Qed.

Lemma ToLower_idem (s : string) :
  strings.ToLower (strings.ToLower s) = strings.ToLower s.
Proof.
  induction s as [| c s IH]; [reflexivity |].
  cbn [strings.ToLower]. now rewrite lower_idem, IH.
Qed.

Lemma isEmpty_ToLower (s : string) : isEmpty (strings.ToLower s) = isEmpty s.
Proof. now destruct s. Qed.

Lemma trimLeft_ToLower (s : string) :
  strings.trimLeft (strings.ToLower s) = strings.ToLower (strings.trimLeft s).
Proof.
  induction s as [| c s IH]; [reflexivity |].
  cbn [strings.ToLower strings.trimLeft]. rewrite lower_space.
  destruct (isSpace c); [exact IH | reflexivity].
Qed.

Lemma trimRight_ToLower (s : string) :
  strings.trimRight (strings.ToLower s) = strings.ToLower (strings.trimRight s).
Proof.
  induction s as [| c s IH]; [reflexivity |].
  cbn [strings.ToLower strings.trimRight].
  rewrite lower_space, IH, isEmpty_ToLower.
  destruct (isSpace c && isEmpty (strings.trimRight s)); reflexivity.
Qed.

Lemma TrimSpace_ToLower (s : string) :
  strings.TrimSpace (strings.ToLower s) = strings.ToLower (strings.TrimSpace s).
Proof.
  unfold strings.TrimSpace. now rewrite trimLeft_ToLower, trimRight_ToLower.
Qed.

Lemma ParseInt_letter_first (c : ascii) (r : string) :
  isLetter (strings.lower c) = true -> strconv.ParseInt (String c r) = None.
Proof.
  intros H. destruct c as [[] [] [] [] [] [] [] []];
    try (cbv in H; discriminate H); reflexivity.
Qed.

Lemma HasPrefix_split (s p : string) :
  strings.HasPrefix s p = true -> s = p ++ drop (String.length p) s.
Proof.
  revert s. induction p as [| x p IH]; intros s H; [reflexivity |].
  destruct s as [| c s]; [discriminate H |].
  cbn [strings.HasPrefix] in H. apply andb_true_iff in H as [Hc Hs].
  apply Ascii.eqb_eq in Hc as ->. cbn [append String.length drop].
  now rewrite <- (IH s Hs).
Qed.

(** The keyword branch of [ParseTime]: a trimmed text that begins, in
    whatever case, with "last " or "yesterday". *)
Lemma ParseTime_keyword (s : string) (now start : time.Time) :
  strings.HasPrefix (strings.ToLower (strings.TrimSpace s)) "last "
  || strings.HasPrefix (strings.ToLower (strings.TrimSpace s)) "yesterday"
  = true ->
  ParseTime s now start
  = parseRelativeTime (strings.ToLower (strings.TrimSpace s)) now start false.
Proof.
  intros H. unfold ParseTime.
  destruct (strings.TrimSpace s) as [| c r] eqn:Et; [discriminate H |].
  assert (Hs : isEmpty s = false) by (destruct s; [discriminate Et | reflexivity]).
  rewrite Hs.
  assert (Hc : isLetter (strings.lower c) = true).
  { cbn [strings.ToLower strings.HasPrefix] in H.
    destruct (Ascii.eqb (strings.lower c) "l") eqn:E1.
    - apply Ascii.eqb_eq in E1. now rewrite E1.
    - destruct (Ascii.eqb (strings.lower c) "y") eqn:E2; [| discriminate H].
      apply Ascii.eqb_eq in E2. now rewrite E2. }
  now rewrite (ParseInt_letter_first c r Hc), H.
Qed.

(** X15.  The keyword expressions are read without regard to the case
    of their letters: a text that begins, after trimming and in whatever
    case, with "last " or "yesterday" resolves as its lower-case form
    does. *)
Theorem ParseTime_keyword_case (s : string) (now start : time.Time) :
  strings.HasPrefix (strings.ToLower (strings.TrimSpace s)) "last "
  || strings.HasPrefix (strings.ToLower (strings.TrimSpace s)) "yesterday"
  = true ->
  ParseTime s now start = ParseTime (strings.ToLower s) now start.
Proof.
  intros H. rewrite (ParseTime_keyword s now start H).
  rewrite (ParseTime_keyword (strings.ToLower s) now start);
    rewrite TrimSpace_ToLower, ToLower_idem; [reflexivity | exact H].
Qed.

Lemma ParseTime_keyword_case_witness :
  ParseTime " Last MONDAY" fixedTime time.zero
  = ParseTime " last monday" fixedTime time.zero.
Proof.
  apply (ParseTime_keyword_case " Last MONDAY" fixedTime time.zero).
  reflexivity.
Defined.

(** X16.  After "last " only a weekday name or one of week, month, year
    is understood.  Any other ASCII text that begins, after trimming and
    in whatever case, with "last " fails with the weekday error, which
    carries the rest of the text in lower case. *)
Theorem ParseTime_last_unknown (s : string) (now start : time.Time) :
  asciiText s = true ->
  strings.HasPrefix (strings.ToLower (strings.TrimSpace s)) "last " = true ->
  ~ In (drop 5 (strings.ToLower (strings.TrimSpace s)))
       ["week"; "month"; "year"; "sunday"; "monday"; "tuesday"; "wednesday";
        "thursday"; "friday"; "saturday"] ->
  ParseTime s now start
  = Err (ErrInvalidWeekday (drop 5 (strings.ToLower (strings.TrimSpace s)))).
Proof.
  intros _ H Hw. rewrite (ParseTime_keyword s now start) by now rewrite H.
  set (l := strings.ToLower (strings.TrimSpace s)) in *.
  assert (Hl : strings.ToLower (strings.TrimSpace l) = l)
    by (unfold l; now rewrite TrimSpace_ToLower, TrimSpace_idem, ToLower_idem).
  unfold parseRelativeTime. rewrite Hl, H.
  pose proof (HasPrefix_split l "last " H) as El.
  set (w := drop 5 l) in *. change (drop (String.length "last ") l) with w in El.
  assert (Hne : forall name, In name ["week"; "month"; "year"; "sunday";
                  "monday"; "tuesday"; "wednesday"; "thursday"; "friday";
                  "saturday"] -> String.eqb w name = false).
  { intros name Hn. apply String.eqb_neq. intros ->. exact (Hw Hn). }
  clearbody w. clearbody l. subst l.
  cbn [append String.eqb Ascii.eqb Bool.eqb andb].
  rewrite !Hne by (cbn [In]; tauto).
  unfold parseLastWeekday, strings.TrimPrefix.
  cbn [strings.HasPrefix Ascii.eqb Bool.eqb andb String.length drop].
  unfold parseWeekday. rewrite !Hne by (cbn [In]; tauto). reflexivity.
Qed.

Lemma ParseTime_last_unknown_witness :
  ParseTime "Last 5 Minutes" fixedTime time.zero
  = Err (ErrInvalidWeekday "5 minutes").
Proof.
  apply (ParseTime_last_unknown "Last 5 Minutes" fixedTime time.zero).
  - reflexivity.
  - reflexivity.
  - vm_compute. intros H.
    repeat (destruct H as [H | H]; [discriminate H |]). exact H.
Defined.

(** ** Well-formed instants *)

Lemma rem_bounds (a : Z) :
  a = 1000000000 * Z.quot a 1000000000 + Z.rem a 1000000000
  /\ -1000000000 < Z.rem a 1000000000 < 1000000000
  /\ (0 <= a -> 0 <= Z.rem a 1000000000)
  /\ (a <= 0 -> Z.rem a 1000000000 <= 0).
Proof.
  pose proof (Z.quot_rem' a 1000000000).
  pose proof (Z.rem_bound_abs a 1000000000 ltac:(lia)).
  repeat split; try lia.
  - intros Ha. apply Z.rem_nonneg; lia.
  - intros Ha. apply Z.rem_nonpos; lia.
Qed.

Lemma Unix_valid (sec ns : Z) : validTime (time.Unix sec ns).
Proof.
  unfold validTime, time.Unix.
  destruct (rem_bounds ns) as (Hqr & Hb & Hp & Hn).
  destruct ((ns <? 0) || (1000000000 <=? ns)) eqn:E.
  - destruct (ns - Z.quot ns 1000000000 * 1000000000 <? 0) eqn:E2;
      cbn [time.nsec];
      [apply Z.ltb_lt in E2 | apply Z.ltb_ge in E2]; lia.
  - apply orb_false_iff in E as [E1 E2].
    apply Z.ltb_ge in E1. apply Z.leb_gt in E2. cbn [time.nsec]. lia.
Qed.

Lemma Add_valid (t : time.Time) (d : Z) :
  validTime t -> validTime (time.Add t d).
Proof.
  unfold validTime, time.Add. intros Ht.
  destruct (rem_bounds d) as (_ & Hb & _).
  destruct (1000000000 <=? time.nsec t + Z.rem d 1000000000) eqn:E1;
    [apply Z.leb_le in E1; cbn [time.nsec]; lia |].
  apply Z.leb_gt in E1.
  destruct (time.nsec t + Z.rem d 1000000000 <? 0) eqn:E2;
    [apply Z.ltb_lt in E2 | apply Z.ltb_ge in E2]; cbn [time.nsec]; lia.
Qed.

Lemma Date_valid (year month day hour min sec ns : Z) (l : time.Location) :
  validTime (time.Date year month day hour min sec ns l).
Proof.
  unfold validTime.
  destruct (Date_nsec_loc year month day hour min sec ns l) as [-> _].
  apply Z.mod_pos_bound. lia.
Qed.

Lemma Parse_valid (l : time.layout) (value : string) (t : time.Time) :
  time.Parse l value = Some t -> validTime t.
Proof.
  unfold time.Parse. destruct (time.parseChunks l time.noFields value); [| discriminate].
  destruct (_ || _); [discriminate |]. intros H. injection H as <-.
  apply Date_valid.
Qed.

Lemma parseLayouts_valid (s : string) (now t : time.Time) :
  parseLayouts s now = Ok t -> validTime t.
Proof.
  unfold parseLayouts.
  destruct (time.Parse time.layoutClock s);
    [intros H; injection H as <-; apply Date_valid |].
  repeat match goal with
         | |- match time.Parse ?l s with _ => _ end = _ -> _ =>
             destruct (time.Parse l s) eqn:?;
             [intros H; injection H as <-; eapply Parse_valid; eassumption |]
         end.
  discriminate.
Qed.

Lemma parseRelativeTime_valid (d : string) (now start t : time.Time)
  (positive : bool) :
  validTime now -> validTime start ->
  parseRelativeTime d now start positive = Ok t -> validTime t.
Proof.
  intros Hn Hs. unfold parseRelativeTime, parseLastWeekday, getMidnight. cbv zeta.
  repeat match goal with
         | |- (if ?b then Ok _ else _) = _ -> _ =>
             destruct b; [intros H; injection H as <-; apply Date_valid |]
         end.
  destruct (strings.HasPrefix _ _).
  - destruct (parseWeekday _); [| discriminate].
    intros H; injection H as <-; apply Date_valid.
  - destruct (time.ParseDuration _); [| discriminate].
    destruct positive; [destruct (time.IsZero start) |];
      intros H; injection H as <-; now apply Add_valid.
Qed.

(** X17.  [ParseTime] returns well-formed instants: when the
    nanoseconds of [now] and of [startTime] lie within one second, so do
    those of the result. *)
Theorem ParseTime_valid (s : string) (now start t : time.Time) :
  validTime now -> validTime start ->
  ParseTime s now start = Ok t -> validTime t.
Proof.
  intros Hn Hs. unfold ParseTime. cbv zeta.
  destruct (isEmpty s).
  { destruct (time.IsZero start); intros H; now injection H as <-. }
  destruct (strconv.ParseInt (strings.TrimSpace s)) as [u |].
  { unfold parseUnixTimestamp. destruct (9999999999 <? u);
      intros H; injection H as <-; apply Unix_valid. }
  destruct (_ || _); [now apply parseRelativeTime_valid |].
  destruct (strings.Contains _ _).
  { destruct (convertCustomUnits _); [| discriminate].
    now apply parseRelativeTime_valid. }
  destruct (convertCustomUnits _) as [n | e]; [| discriminate].
  destruct (strings.HasPrefix n "+"); [now apply parseRelativeTime_valid |].
  destruct (strings.HasPrefix n "-"); [now apply parseRelativeTime_valid |].
  destruct (time.ParseDuration n).
  - intros H. injection H as <-. now apply Add_valid.
  - apply parseLayouts_valid.
Qed.

Lemma ParseTime_valid_witness :
  validTime (time.Add fixedTime (- (90 * time.Minute))).
Proof.
  apply (ParseTime_valid "90m" fixedTime time.zero).
  - vm_compute. split; [discriminate | reflexivity].
  - vm_compute. split; [discriminate | reflexivity].
  - reflexivity.
Defined.

(** ** Timestamps in decimal *)

Lemma trimRight_spaceFree (s : string) :
  allBytes (fun c => negb (isSpace c)) s = true -> strings.trimRight s = s.
Proof.
  induction s as [| c s IH]; intros H; [reflexivity |].
  cbn [allBytes] in H. apply andb_true_iff in H as [Hc Hs].
  apply negb_true_iff in Hc. cbn [strings.trimRight].
  now rewrite Hc, (IH Hs).
Qed.

Lemma TrimSpace_spaceFree (s : string) :
  allBytes (fun c => negb (isSpace c)) s = true -> strings.TrimSpace s = s.
Proof.
  intros H. unfold strings.TrimSpace.
  assert (Hl : strings.trimLeft s = s).
  { destruct s as [| c s]; [reflexivity |]. cbn [allBytes] in H.
    apply andb_true_iff in H as [Hc _]. apply negb_true_iff in Hc.
    cbn [strings.trimLeft]. now rewrite Hc. }
  rewrite Hl. now apply trimRight_spaceFree.
Qed.

(** [strconv.ParseInt] reads back what [Sprintf("%d")] prints. *)
Lemma ParseInt_itoa (n : Z) :
  minInt64 <= n <= maxInt64 ->
  strconv.ParseInt (fmt.itoa n) = Some n
  /\ strings.TrimSpace (fmt.itoa n) = fmt.itoa n
  /\ hasByte "/" (fmt.itoa n) = false
  /\ fmt.itoa n <> "".
Proof.
  unfold minInt64, maxInt64. intros Hn.
  assert (Hnat : forall m, 0 <= m <= 2 ^ 63 ->
            allBytes (fun c => negb (isSpace c)) (fmt.itoa m) = true
            /\ hasByte "/" (fmt.itoa m) = false /\ fmt.itoa m <> ""
            /\ strconv.digitsValue 0 (fmt.itoa m) = Some m
            /\ digitString (fmt.itoa m) = true).
  { intros m Hm. destruct (itoa_nonneg m (proj1 Hm)) as [Hd Hv].
    repeat split; try assumption.
    - exact (digits_spaceFree _ (numeral_digits _ Hd)).
    - exact (numeral_absent _ Hd "/" eq_refl).
    - exact (numeral_nonempty _ m Hd Hv). }
  destruct n as [| p | p].
  - repeat split; try reflexivity; discriminate.
  - destruct (Hnat (Z.pos p) ltac:(lia)) as (Hsp & Hsl & Hne & Hv & Hd).
    repeat split; try assumption.
    + apply (ParseInt_numeral _ _ Hd Hv). lia.
    + now apply TrimSpace_spaceFree.
  - destruct (Hnat (Z.pos p) ltac:(lia)) as (Hsp & Hsl & Hne & Hv & Hd).
    assert (E : fmt.itoa (Z.neg p) = String "-" (fmt.itoa (Z.pos p)))
      by reflexivity.
    rewrite E. repeat split.
    + unfold strconv.ParseInt. rewrite (isEmpty_false _ Hne), Hv.
      assert (Hle : (Z.pos p <=? 2 ^ 63) = true) by (apply Z.leb_le; lia).
      now rewrite Hle.
    + apply TrimSpace_spaceFree. cbn [allBytes]. now rewrite Hsp.
    + cbn [hasByte]. now rewrite Hsl.
    + discriminate.
Qed.

(** X18.  A timestamp printed in decimal is read back.  For every
    64-bit integer [n] up to 9999999999 the range parser returns [n] as
    both ends; a larger one is taken as milliseconds and gives the whole
    seconds [n / 1000]. *)
Theorem ParseTimeRange_decimal (now : time.Time) (n : Z) :
  minInt64 <= n <= maxInt64 ->
  ParseTimeRange now (fmt.itoa n)
  = if 9999999999 <? n then Ok (n / 1000, n / 1000) else Ok (n, n).
Proof.
  intros Hn. destruct (ParseInt_itoa n Hn) as (Hp & Ht & Hs & Hne).
  unfold ParseTimeRange, rangeInstants.
  rewrite (isEmpty_false _ Hne), Contains_byte, Hs.
  rewrite (ParseTime_integer (fmt.itoa n) n now time.zero Hne)
    by now rewrite Ht.
  unfold parseUnixTimestamp.
  destruct (9999999999 <? n) eqn:E.
  - apply Z.ltb_lt in E. rewrite Before_irrefl, andb_false_r.
    rewrite Unix_in_range.
    + cbn [time.Time_Unix time.unixSec]. now rewrite Z.quot_div_nonneg by lia.
    + pose proof (Z.rem_bound_pos n 1000 ltac:(lia) ltac:(lia)). lia.
  - rewrite Before_irrefl, andb_false_r. rewrite Unix_in_range by lia.
    reflexivity.
Qed.

Lemma ParseTimeRange_decimal_witness :
  ParseTimeRange fixedTime "-86400" = Ok (-86400, -86400).
Proof.
  apply (ParseTimeRange_decimal fixedTime (-86400)).
  vm_compute. split; discriminate.
Defined.

(** ** The start of a day *)

Lemma Time_eq (t u : time.Time) :
  time.unixSec t = time.unixSec u -> time.nsec t = time.nsec u ->
  time.loc t = time.loc u -> t = u.
Proof.
  destruct t as [ts tn tl], u as [us un ul].
  cbn [time.unixSec time.nsec time.loc]. intros -> -> ->. reflexivity.
Qed.

Lemma steadyZone_UTC (day : Z) : steadyZone time.UTC day 0.
Proof.
  split; [discriminate |]. split; [lia |]. intros sec _. reflexivity.
Qed.

(** X19.  Where the zone of [t] keeps one offset around the day of [t],
    [getMidnight] gives the first instant of that day in the same zone:
    the date is kept, the clock reads 00:00:00.0, the result is less than
    one day before the argument and never after it, and taking the
    midnight again changes nothing. *)
Theorem getMidnight_day (t : time.Time) (k : Z) :
  steadyZone (time.loc t) (time.localDay t) k ->
  time.offsetAt (time.loc t) (time.unixSec t) = k ->
  time.Time_Date (getMidnight t) = time.Time_Date t
  /\ time.Time_Location (getMidnight t) = time.Time_Location t
  /\ time.Hour_of (getMidnight t) = 0
  /\ time.Minute_of (getMidnight t) = 0
  /\ time.Second_of (getMidnight t) = 0
  /\ time.nsec (getMidnight t) = 0
  /\ time.unixSec t - 86400 < time.unixSec (getMidnight t) <= time.unixSec t
  /\ getMidnight (getMidnight t) = getMidnight t.
Proof.
  intros Hz Hk.
  destruct (getMidnight_spec t k Hz) as (Hu & Hs).
  destruct (getMidnight_nsec_loc t) as (Hn & Hl).
  assert (Hd : time.localDay (getMidnight t) = time.localDay t)
    by (rewrite localDay_unfold, Hs; apply Z.div_mul; lia).
  assert (Hdate : time.Time_Date (getMidnight t) = time.Time_Date t)
    by (unfold time.Time_Date; now rewrite Hd).
  assert (Hbound : time.localDay t * 86400 <= time.localSec t
                   < time.localDay t * 86400 + 86400).
  { rewrite localDay_unfold.
    pose proof (Z.div_mod (time.localSec t) 86400 ltac:(lia)).
    pose proof (Z.mod_pos_bound (time.localSec t) 86400 ltac:(lia)). lia. }
  split; [exact Hdate |]. split; [exact Hl |].
  split; [unfold time.Hour_of; rewrite Hs, Z.mod_mul by lia; reflexivity |].
  split.
  { unfold time.Minute_of. rewrite Hs.
    replace (time.localDay t * 86400) with (time.localDay t * 24 * 3600) by lia.
    rewrite Z.mod_mul by lia. reflexivity. }
  split.
  { unfold time.Second_of. rewrite Hs.
    replace (time.localDay t * 86400) with (time.localDay t * 1440 * 60) by lia.
    apply Z.mod_mul. lia. }
  split; [exact Hn |]. split.
  { rewrite localSec_unfold, Hk in Hbound. lia. }
  assert (Hz2 : steadyZone (time.loc (getMidnight t))
                  (time.localDay (getMidnight t)) k)
    by (rewrite Hl, Hd; exact Hz).
  destruct (getMidnight_spec (getMidnight t) k Hz2) as (Hu2 & _).
  destruct (getMidnight_nsec_loc (getMidnight t)) as (Hn2 & Hl2).
  apply Time_eq; [| congruence | congruence].
  rewrite Hu2, Hu, Hd. reflexivity.
Qed.

Lemma getMidnight_day_witness :
  time.Time_Date (getMidnight fixedTime) = time.Time_Date fixedTime
  /\ time.Hour_of (getMidnight fixedTime) = 0
  /\ getMidnight (getMidnight fixedTime) = getMidnight fixedTime.
Proof.
  destruct (getMidnight_day fixedTime 0) as (Hd & _ & Hh & _ & _ & _ & _ & Hi).
  - apply steadyZone_UTC.
  - reflexivity.
  - split; [exact Hd |]. split; [exact Hh | exact Hi].
Defined.

(** ** The calendar keywords *)

Lemma Date_month_zero (year day hour min sec ns : Z) (l : time.Location) :
  time.Date year 0 day hour min sec ns l
  = time.Date (year - 1) 12 day hour min sec ns l.
Proof.
  unfold time.Date, time.norm.
  change ((0 - 1) / 12) with (-1). change ((0 - 1) mod 12) with 11.
  change ((12 - 1) / 12) with 0. change ((12 - 1) mod 12) with 11.
  rewrite Z.add_0_r. reflexivity.
Qed.

(** [AddDate] by whole years and months, while the month stays within
    the year and the zone is steady around the day reached: the day of
    the result is the day with the moved date. *)
Lemma AddDate_date (t : time.Time) (years months k : Z) :
  validTime t ->
  1 <= time.Month t + months <= 12 ->
  steadyZone (time.loc t)
    (dayNumber (time.Year t + years) (time.Month t + months) (time.Day t)) k ->
  time.localDay (time.AddDate t years months 0)
  = dayNumber (time.Year t + years) (time.Month t + months) (time.Day t).
Proof.
  intros Hv. unfold time.AddDate, time.Year, time.Month, time.Day.
  destruct (time.Time_Date t) as [[y m] d]. intros Hm Hz.
  rewrite Z.add_0_r.
  rewrite localDay_unfold, (Date_clock t _ _ _ _ k Hv Hm Hz).
  pose proof (Z.mod_pos_bound (time.localSec t) 86400 ltac:(lia)).
  rewrite Z.add_comm, Z.div_add by lia. rewrite Z.div_small by lia. lia.
Qed.

Lemma midnightOf_getMidnight (t : time.Time) (day k : Z) (l : time.Location) :
  time.localDay t = day -> time.loc t = l -> steadyZone l day k ->
  midnightOf (getMidnight t) day l.
Proof.
  intros <- <- Hz. destruct (getMidnight_spec t k Hz) as (_ & Hs).
  destruct (getMidnight_nsec_loc t) as (Hn & Hl). now split.
Qed.

(** X20.  The calendar keywords resolve to [getMidnight] of a moved
    instant; where the zone of [now] keeps one offset around the day
    reached, that is the first instant of the day in the zone of [now]:
    for "yesterday" the day before that of [now], for "last week" the
    seventh day before it, for "last year" the day with the same month
    and day number in the year before, and for "last month" the day with
    the same day number in the month before.  A day number past the end
    of that month counts on into the next month. *)
Theorem ParseTime_calendar_keywords (now start : time.Time) :
  validTime now ->
  (exists t, ParseTime "yesterday" now start = Ok t
             /\ forall k, steadyZone (time.loc now) (time.localDay now - 1) k ->
                          midnightOf t (time.localDay now - 1) (time.loc now))
  /\ (exists t, ParseTime "last week" now start = Ok t
                /\ forall k,
                     steadyZone (time.loc now) (time.localDay now - 7) k ->
                     midnightOf t (time.localDay now - 7) (time.loc now))
  /\ (exists t, ParseTime "last month" now start = Ok t
                /\ forall k day,
                     day = (if time.Month now =? 1
                            then dayNumber (time.Year now - 1) 12 (time.Day now)
                            else dayNumber (time.Year now) (time.Month now - 1)
                                   (time.Day now)) ->
                     steadyZone (time.loc now) day k ->
                     midnightOf t day (time.loc now))
  /\ (exists t, ParseTime "last year" now start = Ok t
                /\ forall k day,
                     day = dayNumber (time.Year now - 1) (time.Month now)
                             (time.Day now) ->
                     steadyZone (time.loc now) day k ->
                     midnightOf t day (time.loc now)).
Proof.
  intros Hv.
  assert (Hmonth : 1 <= time.Month now <= 12).
  { pose proof (Time_Date_dayNumber now) as H. unfold time.Month.
    destruct (time.Time_Date now) as [[y m] d]. tauto. }
  split; [| split; [| split]].
  - exists (getMidnight (time.AddDate now 0 0 (-1))).
    split; [reflexivity |]. intros k Hz.
    destruct (AddDate_days now (-1) k Hv Hz) as (_ & Hday & _ & Hl).
    apply (midnightOf_getMidnight _ _ k); [exact Hday | exact Hl | exact Hz].
  - exists (getMidnight (time.AddDate now 0 0 (-7))).
    split; [reflexivity |]. intros k Hz.
    destruct (AddDate_days now (-7) k Hv Hz) as (_ & Hday & _ & Hl).
    apply (midnightOf_getMidnight _ _ k); [exact Hday | exact Hl | exact Hz].
  - exists (getMidnight (time.AddDate now 0 (-1) 0)).
    split; [reflexivity |]. intros k day -> Hz.
    destruct (time.Month now =? 1) eqn:E.
    + apply Z.eqb_eq in E.
      assert (Hd : time.AddDate now 0 (-1) 0 = time.AddDate now (-1) 11 0).
      { unfold time.AddDate. unfold time.Month in E.
        destruct (time.Time_Date now) as [[y m] d]. subst m.
        change (1 + -1) with 0. change (1 + 11) with 12.
        rewrite Date_month_zero. f_equal. lia. }
      rewrite Hd.
      assert (Hz' : steadyZone (time.loc now)
                      (dayNumber (time.Year now + -1) (time.Month now + 11)
                         (time.Day now)) k)
        by (rewrite E; exact Hz).
      pose proof (AddDate_date now (-1) 11 k Hv ltac:(lia) Hz') as Hday.
      apply (midnightOf_getMidnight _ _ k);
        [| apply AddDate_loc | exact Hz].
      rewrite Hday, E. reflexivity.
    + apply Z.eqb_neq in E.
      assert (Hz' : steadyZone (time.loc now)
                      (dayNumber (time.Year now + 0) (time.Month now + -1)
                         (time.Day now)) k)
        by (rewrite Z.add_0_r; exact Hz).
      pose proof (AddDate_date now 0 (-1) k Hv ltac:(lia) Hz') as Hday.
      apply (midnightOf_getMidnight _ _ k);
        [| apply AddDate_loc | exact Hz].
      rewrite Hday, Z.add_0_r. reflexivity.
  - exists (getMidnight (time.AddDate now (-1) 0 0)).
    split; [reflexivity |]. intros k day -> Hz.
    assert (Hz' : steadyZone (time.loc now)
                    (dayNumber (time.Year now + -1) (time.Month now + 0)
                       (time.Day now)) k)
      by (rewrite Z.add_0_r; exact Hz).
    pose proof (AddDate_date now (-1) 0 k Hv ltac:(lia) Hz') as Hday.
    apply (midnightOf_getMidnight _ _ k);
      [| apply AddDate_loc | exact Hz].
    rewrite Hday, Z.add_0_r. reflexivity.
Qed.

Lemma ParseTime_calendar_keywords_witness :
  exists t, ParseTime "last month" (time.Date 2025 3 31 12 0 0 0 time.UTC)
              time.zero = Ok t
            /\ midnightOf t 20150 time.UTC
            /\ midnightOf (time.Date 2025 3 3 0 0 0 0 time.UTC) 20150 time.UTC.
Proof.
  assert (Hv : validTime (time.Date 2025 3 31 12 0 0 0 time.UTC))
    by (vm_compute; split; [discriminate | reflexivity]).
  destruct (ParseTime_calendar_keywords (time.Date 2025 3 31 12 0 0 0 time.UTC)
              time.zero Hv) as (_ & _ & (t & Ht & Hm) & _).
  exists t. split; [exact Ht |]. split.
  - apply (Hm 0 20150); [reflexivity | apply steadyZone_UTC].
  - vm_compute. repeat split.
Defined.

(** ** The normaliser never empties a text *)

Lemma firstMatch_some {A B : Type} (f : A -> option B) (l : list A) (b : B) :
  firstMatch f l = Some b -> exists a, In a l /\ f a = Some b.
Proof.
  induction l as [| a l IH]; [discriminate |]. cbn [firstMatch].
  destruct (f a) as [b' |] eqn:E.
  - intros H. injection H as <-. exists a. split; [now left | exact E].
  - intros H. destruct (IH H) as (a' & Hin & Ha). exists a'.
    split; [now right | exact Ha].
Qed.

Lemma convertUnitAt_nonempty (s needle : string) (hours : Z) (r : string) :
  convertUnitAt s needle hours = Some r -> r <> "".
Proof.
  unfold convertUnitAt. destruct (0 <? _); [| discriminate].
  destruct (fmt.Sscanf_d _); [| discriminate].
  destruct (0 <=? _); [| discriminate].
  destruct (unitEndsAt _ _); [| discriminate].
  intros H. injection H as <-.
  destruct (fmt.itoa _); discriminate.
Qed.

Lemma convertSimpleUnitAt_nonempty (s needle dst r : string) :
  convertSimpleUnitAt s needle dst = Some r -> r <> "".
Proof.
  unfold convertSimpleUnitAt. destruct (0 <? _); [| discriminate].
  destruct (fmt.Sscanf_d _) as [a |]; [| discriminate].
  destruct (0 <=? a) eqn:Ha; [| discriminate]. apply Z.leb_le in Ha.
  destruct (unitEndsAt _ _); [| discriminate].
  intros H. injection H as <-.
  pose proof (numeral_nonempty _ a (proj1 (itoa_nonneg a Ha))
                (proj2 (itoa_nonneg a Ha))) as Hne.
  destruct (fmt.itoa a); [congruence | discriminate].
Qed.

(** X21.  The normaliser never fails and never empties a text: for a
    text that is not empty the result is a text that is not empty. *)
Theorem convertCustomUnits_nonempty (s : string) :
  s <> "" -> exists out, convertCustomUnits s = Ok out /\ out <> "".
Proof.
  intros Hs. unfold convertCustomUnits.
  destruct (hasReservedKeyword s); [now exists s |].
  destruct (firstMatch _ timeUnitsToHours) as [r |] eqn:E1.
  { exists r. split; [reflexivity |].
    apply firstMatch_some in E1 as (conv & _ & E1).
    apply firstMatch_some in E1 as (pat & _ & E1).
    unfold tryConvertUnit in E1.
    destruct (convertUnitAt s (" " ++ pat) (toHours conv)) eqn:E2.
    - injection E1 as <-. exact (convertUnitAt_nonempty _ _ _ _ E2).
    - exact (convertUnitAt_nonempty _ _ _ _ E1). }
  destruct (isEmpty (tryConvertShortForm s "d" 24 "day")) eqn:Ed.
  2: { exists (tryConvertShortForm s "d" 24 "day"). split; [reflexivity |].
       intros E. now rewrite E in Ed. }
  destruct (isEmpty (tryConvertShortForm s "y" 8760 "year")) eqn:Ey.
  2: { exists (tryConvertShortForm s "y" 8760 "year"). split; [reflexivity |].
       intros E. now rewrite E in Ey. }
  cbn [negb]. destruct (firstMatch _ simpleTimeUnits) as [r |] eqn:E3.
  { exists r. split; [reflexivity |].
    apply firstMatch_some in E3 as (conv & _ & E3).
    apply firstMatch_some in E3 as (pat & _ & E3).
    unfold tryConvertSimpleUnit in E3.
    destruct (convertSimpleUnitAt s (" " ++ pat) (to conv)) eqn:E4.
    - injection E3 as <-. exact (convertSimpleUnitAt_nonempty _ _ _ _ E4).
    - exact (convertSimpleUnitAt_nonempty _ _ _ _ E3). }
  now exists s.
Qed.

Lemma convertCustomUnits_nonempty_witness :
  exists out, convertCustomUnits "5 weeks" = Ok out /\ out <> "".
Proof.
  apply (convertCustomUnits_nonempty "5 weeks"). discriminate.
Defined.

(** ** The start instant *)

Lemma itoa_first (n : Z) (r : string) :
  strings.HasPrefix (fmt.itoa n ++ r) "+" = false.
Proof.
  destruct n as [| p | p]; [reflexivity | | reflexivity].
  destruct (itoa_nonneg (Z.pos p) ltac:(lia)) as [Hd Hv].
  apply HasPrefix_front.
  - exact (numeral_absent _ Hd "+" eq_refl).
  - exact (numeral_nonempty _ _ Hd Hv).
Qed.

Lemma convertUnitAt_first (s needle : string) (hours : Z) (r : string) :
  convertUnitAt s needle hours = Some r -> strings.HasPrefix r "+" = false.
Proof.
  unfold convertUnitAt. destruct (0 <? _); [| discriminate].
  destruct (fmt.Sscanf_d _); [| discriminate].
  destruct (0 <=? _); [| discriminate].
  destruct (unitEndsAt _ _); [| discriminate].
  intros H. injection H as <-. apply itoa_first.
Qed.

Lemma convertSimpleUnitAt_first (s needle dst r : string) :
  convertSimpleUnitAt s needle dst = Some r -> strings.HasPrefix r "+" = false.
Proof.
  unfold convertSimpleUnitAt. destruct (0 <? _); [| discriminate].
  destruct (fmt.Sscanf_d _); [| discriminate].
  destruct (0 <=? _); [| discriminate].
  destruct (unitEndsAt _ _); [| discriminate].
  intros H. injection H as <-. apply itoa_first.
Qed.

Lemma ReplaceFirst_first (s old : string) (n : Z) (r : string) :
  strings.HasPrefix s "+" = false ->
  strings.HasPrefix (strings.ReplaceFirst s old (fmt.itoa n ++ r)) "+" = false.
Proof.
  intros Hs. destruct s as [| c s]; cbn [strings.ReplaceFirst].
  - destruct (strings.HasPrefix "" old); [| reflexivity].
    rewrite append_assoc. apply itoa_first.
  - destruct (strings.HasPrefix (String c s) old).
    + rewrite append_assoc. apply itoa_first.
    + exact Hs.
Qed.

Lemma tryConvertShortForm_first (s short long : string) (hours : Z) :
  strings.HasPrefix s "+" = false ->
  strings.HasPrefix (tryConvertShortForm s short hours long) "+" = false.
Proof.
  intros Hs. unfold tryConvertShortForm.
  destruct (negb _ || _); [reflexivity |].
  destruct (fmt.Sscanf_d s); [| reflexivity].
  destruct (0 <=? _); [| reflexivity].
  destruct (0 <=? strings.Index _ _); [| reflexivity].
  destruct (unitEndsAt _ _); [| reflexivity].
  now apply ReplaceFirst_first.
Qed.

(** The normaliser puts no plus sign in front of a text. *)
Lemma convertCustomUnits_first (s out : string) :
  strings.HasPrefix s "+" = false -> convertCustomUnits s = Ok out ->
  strings.HasPrefix out "+" = false.
Proof.
  intros Hs. unfold convertCustomUnits.
  destruct (hasReservedKeyword s); [intros H; now injection H as <- |].
  destruct (firstMatch _ timeUnitsToHours) as [r |] eqn:E1.
  { intros H. injection H as <-.
    apply firstMatch_some in E1 as (conv & _ & E1).
    apply firstMatch_some in E1 as (pat & _ & E1).
    unfold tryConvertUnit in E1.
    destruct (convertUnitAt s (" " ++ pat) (toHours conv)) eqn:E2.
    - injection E1 as <-. exact (convertUnitAt_first _ _ _ _ E2).
    - exact (convertUnitAt_first _ _ _ _ E1). }
  destruct (negb (isEmpty (tryConvertShortForm s "d" 24 "day"))).
  { intros H. injection H as <-. now apply tryConvertShortForm_first. }
  destruct (negb (isEmpty (tryConvertShortForm s "y" 8760 "year"))).
  { intros H. injection H as <-. now apply tryConvertShortForm_first. }
  destruct (firstMatch _ simpleTimeUnits) as [r |] eqn:E3.
  { intros H. injection H as <-.
    apply firstMatch_some in E3 as (conv & _ & E3).
    apply firstMatch_some in E3 as (pat & _ & E3).
    unfold tryConvertSimpleUnit in E3.
    destruct (convertSimpleUnitAt s (" " ++ pat) (to conv)) eqn:E4.
    - injection E3 as <-. exact (convertSimpleUnitAt_first _ _ _ _ E4).
    - exact (convertSimpleUnitAt_first _ _ _ _ E3). }
  intros H. now injection H as <-.
Qed.

Lemma parseRelativeTime_backward (d : string) (now a b : time.Time) :
  parseRelativeTime d now a false = parseRelativeTime d now b false.
Proof. reflexivity. Qed.

(** X22.  The start instant is read only for an empty text and for an
    offset with a plus sign: an ASCII text that is not empty and does not
    begin, after trimming, with a plus sign resolves to the same instant
    whatever [startTime] is. *)
Theorem ParseTime_start_unused (s : string) (now a b : time.Time) :
  asciiText s = true ->
  s <> "" -> strings.HasPrefix (strings.TrimSpace s) "+" = false ->
  ParseTime s now a = ParseTime s now b.
Proof.
  intros _ Hne Hplus. unfold ParseTime. rewrite (isEmpty_false s Hne).
  destruct (strconv.ParseInt _); [reflexivity |].
  destruct (_ || _); [apply parseRelativeTime_backward |].
  destruct (strings.Contains _ _).
  { destruct (convertCustomUnits _); [apply parseRelativeTime_backward | reflexivity]. }
  destruct (convertCustomUnits (strings.TrimSpace s)) as [out | e] eqn:E;
    [| reflexivity].
  now rewrite (convertCustomUnits_first _ _ Hplus E).
Qed.

Lemma ParseTime_start_unused_witness :
  ParseTime "-15m" fixedTime time.zero
  = ParseTime "-15m" fixedTime (time.Unix 5 0).
Proof.
  apply (ParseTime_start_unused "-15m" fixedTime time.zero (time.Unix 5 0)).
  - reflexivity.
  - discriminate.
  - reflexivity.
Defined.

(** ** The time of day *)

Lemma String_eqb_eq (a b : string) : String.eqb a b = true -> a = b.
Proof. apply String.eqb_eq. Qed.

Lemma plainText_sound (text : string) (now start : time.Time) :
  plainText text = true -> ParseTime text now start = parseLayouts text now.
Proof.
  unfold plainText. intros H.
  repeat (apply andb_true_iff in H as [H ?]).
  repeat match goal with
         | Hx : negb _ = true |- _ => apply negb_true_iff in Hx
         | Hx : String.eqb _ _ = true |- _ => apply String_eqb_eq in Hx
         end.
  unfold ParseTime.
  match goal with Hx : isEmpty text = false |- _ => rewrite Hx end.
  match goal with Hx : strings.TrimSpace text = text |- _ => rewrite Hx end.
  destruct (strconv.ParseInt text); [discriminate |].
  repeat match goal with
         | Hx : strings.HasPrefix (strings.ToLower text) _ = false |- _ =>
             rewrite Hx; clear Hx
         | Hx : strings.Contains text _ = false |- _ => rewrite Hx; clear Hx
         end.
  cbn [orb].
  destruct (convertCustomUnits text) as [out | e]; [| discriminate].
  match goal with Hx : String.eqb out text = true |- _ =>
    apply String_eqb_eq in Hx; subst out end.
  repeat match goal with
         | Hx : strings.HasPrefix text _ = false |- _ => rewrite Hx; clear Hx
         end.
  destruct (time.ParseDuration text); [discriminate | reflexivity].
Qed.

Lemma clockParsed_sound (text : string) (h m : Z) (now start : time.Time) :
  clockParsed text h m = true ->
  ParseTime text now start
  = Ok (time.Date (time.Year now) (time.Month now) (time.Day now) h m 0 0
          (time.Time_Location now)).
Proof.
  unfold clockParsed. intros H. apply andb_true_iff in H as [Hp H].
  rewrite (plainText_sound text now start Hp). unfold parseLayouts.
  destruct (time.Parse time.layoutClock text) as [t |]; [| discriminate].
  apply andb_true_iff in H as [Hh Hm].
  apply Z.eqb_eq in Hh, Hm. now rewrite Hh, Hm.
Qed.

Lemma clock_checked :
  checkRange
    (fun h => checkRange
                (fun m => clockParsed (pad2 h ++ ":" ++ pad2 m) h m
                          && ((10 <=? h)
                              || clockParsed (fmt.itoa h ++ ":" ++ pad2 m) h m))
                60 0)
    24 0 = true.
Proof. vm_compute. reflexivity. Qed.

(** X23.  A time of day.  The hour, in one or two digits, a colon and
    the minute in two digits resolve to [time.Date] of the date of [now]
    with that hour and minute, in the zone of [now].  Where the zone keeps
    one offset around the day of [now], that is the time asked for on the
    day of [now], with the seconds at zero. *)
Theorem ParseTime_clock (h m : Z) (now start : time.Time) :
  0 <= h < 24 -> 0 <= m < 60 ->
  exists t,
    ParseTime (pad2 h ++ ":" ++ pad2 m) now start = Ok t
    /\ (h < 10 -> ParseTime (fmt.itoa h ++ ":" ++ pad2 m) now start = Ok t)
    /\ t = time.Date (time.Year now) (time.Month now) (time.Day now) h m 0 0
             (time.Time_Location now)
    /\ time.nsec t = 0
    /\ time.loc t = time.loc now
    /\ forall k,
         steadyZone (time.loc now) (time.localDay now) k ->
         time.localSec t = time.localDay now * 86400 + h * 3600 + m * 60.
Proof.
  intros Hh Hm.
  pose proof (checkRange_spec _ 24 0 h clock_checked ltac:(lia)) as Hc.
  cbv beta in Hc.
  pose proof (checkRange_spec _ 60 0 m Hc ltac:(lia)) as Hc2.
  cbv beta in Hc2. apply andb_true_iff in Hc2 as [H2 H1].
  exists (time.Date (time.Year now) (time.Month now) (time.Day now) h m 0 0
            (time.Time_Location now)).
  split; [exact (clockParsed_sound _ h m now start H2) |].
  split.
  { intros Hlt. apply orb_true_iff in H1 as [H1 | H1].
    - apply Z.leb_le in H1. lia.
    - exact (clockParsed_sound _ h m now start H1). }
  split; [reflexivity |].
  unfold time.Year, time.Month, time.Day, time.Time_Location.
  pose proof (Time_Date_dayNumber now) as Hd.
  destruct (time.Time_Date now) as [[y mo] d]. destruct Hd as [Hmo Hd].
  destruct (Date_nsec_loc y mo d h m 0 0 (time.loc now)) as [Hn Hl].
  split; [rewrite Hn; reflexivity |]. split; [exact Hl |].
  intros k (_ & Hk & Hz).
  rewrite (Date_localSec _ _ _ _ _ _ _ _ k Hmo); rewrite ?Hd;
    [cbn; lia | apply Hz; cbn; lia | apply Hz; cbn; lia].
Qed.

Lemma ParseTime_clock_witness :
  exists t,
    ParseTime "09:05" fixedTime time.zero = Ok t
    /\ time.localSec t = time.localDay fixedTime * 86400 + 9 * 3600 + 5 * 60.
Proof.
  destruct (ParseTime_clock 9 5 fixedTime time.zero)
    as (t & Ht & _ & _ & _ & _ & Hs); [lia | lia |].
  exists t. split; [exact Ht |]. apply (Hs 0).
  split; [discriminate |]. split; [lia |]. intros sec _. reflexivity.
Defined.

(** ** Calendar dates *)

Lemma digitChar_digit (q : Z) :
  0 <= q <= 9 -> isDigit (digitChar q) = true /\ digitVal (digitChar q) = q.
Proof.
  intros H.
  assert (E : q = 0 \/ q = 1 \/ q = 2 \/ q = 3 \/ q = 4 \/ q = 5 \/ q = 6
              \/ q = 7 \/ q = 8 \/ q = 9) by lia.
  repeat (destruct E as [-> | E]; [split; reflexivity |]).
  subst q. split; reflexivity.
Qed.

Lemma digit_not_punct (c : ascii) :
  isDigit c = true ->
  Ascii.eqb c ":" = false /\ Ascii.eqb c "-" = false /\ Ascii.eqb c " " = false
  /\ Ascii.eqb c "a" = false /\ time.cutspace (String c "") = String c "".
Proof. intros H. digit_cases c H; repeat split; reflexivity. Qed.

Lemma cutspace_digit (c : ascii) (r : string) :
  isDigit c = true -> time.cutspace (String c r) = String c r.
Proof. intros H. digit_cases c H; reflexivity. Qed.

Lemma cutspace_space (s : string) :
  time.cutspace (String " " s) = time.cutspace s.
Proof. reflexivity. Qed.

Lemma atoi_digit_first (c : ascii) (r : string) :
  isDigit c = true ->
  time.atoi (String c r)
  = match time.leadingInt 0 (String c r) with
    | Some (q, "") => Some (wrap64 q)
    | _ => None
    end.
Proof. intros H. digit_cases c H; reflexivity. Qed.

Lemma pad2_digits (x : Z) :
  0 <= x < 100 ->
  exists a b, pad2 x = String a (String b "")
              /\ isDigit a = true /\ isDigit b = true /\ digits2 a b = x.
Proof.
  intros Hx. exists (digitChar (x / 10)), (digitChar (x mod 10)).
  assert (H1 : 0 <= x / 10 <= 9)
    by (pose proof (Z.div_mod x 10 ltac:(lia));
        pose proof (Z.mod_pos_bound x 10 ltac:(lia)); lia).
  pose proof (Z.mod_pos_bound x 10 ltac:(lia)) as H0.
  destruct (digitChar_digit (x / 10) H1) as [Ha Hva].
  destruct (digitChar_digit (x mod 10) ltac:(lia)) as [Hb Hvb].
  repeat split; try assumption.
  unfold digits2. rewrite Hva, Hvb.
  pose proof (Z.div_mod x 10 ltac:(lia)). lia.
Qed.

Lemma daysIn_bound (month year : Z) :
  1 <= month <= 12 -> time.daysIn month year <= 31.
Proof.
  intros Hm. unfold time.daysIn.
  assert (E : month = 1 \/ month = 2 \/ month = 3 \/ month = 4 \/ month = 5
              \/ month = 6 \/ month = 7 \/ month = 8 \/ month = 9
              \/ month = 10 \/ month = 11 \/ month = 12) by lia.
  repeat (destruct E as [-> | E];
          [destruct (time.isLeap year); vm_compute; discriminate |]).
  subst month. destruct (time.isLeap year); vm_compute; discriminate.
Qed.

Lemma trimRight_after (pre rest : string) :
  allBytes (fun c => negb (isSpace c)) pre = true ->
  strings.trimRight rest = rest ->
  strings.trimRight (pre ++ rest) = pre ++ rest.
Proof.
  intros Hpre Hrest. induction pre as [| c pre IH]; [exact Hrest |].
  cbn [allBytes] in Hpre. apply andb_true_iff in Hpre as [Hc Hpre].
  apply negb_true_iff in Hc. cbn [append strings.trimRight].
  now rewrite Hc, (IH Hpre).
Qed.

Lemma parseChunks_cons (c : time.chunk) (l : time.layout) (f : time.fields)
  (value : string) :
  time.parseChunks (c :: l) f value
  = match time.parseChunk c f value with
    | Some (f', rest) => time.parseChunks l f' rest
    | None => None
    end.
Proof. reflexivity. Qed.

Lemma len_two (a b : ascii) (r : string) :
  (len (String a (String b r)) <? 2) = false.
Proof. unfold len. cbn [String.length]. apply Z.ltb_ge. lia. Qed.

Lemma len_four (a b c d : ascii) (r : string) :
  (len (String a (String b (String c (String d r)))) <? 4) = false.
Proof. unfold len. cbn [String.length]. apply Z.ltb_ge. lia. Qed.

Lemma parseChunks_nil (f : time.fields) (value : string) :
  time.parseChunks [] f value = if isEmpty value then Some f else None.
Proof. reflexivity. Qed.

Lemma digits2_range (a b : ascii) :
  isDigit a = true -> isDigit b = true -> 0 <= digits2 a b <= 99.
Proof.
  intros Ha Hb. pose proof (digitVal_range a Ha). pose proof (digitVal_range b Hb).
  unfold digits2. lia.
Qed.

Lemma numeral_two (a b : ascii) :
  isDigit a = true -> isDigit b = true ->
  digitString (String a (String b "")) = true
  /\ strconv.digitsValue 0 (String a (String b "")) = Some (digits2 a b).
Proof.
  intros Ha Hb. split.
  - unfold digitString. cbn [isEmpty negb allBytes]. now rewrite Ha, Hb.
  - cbn [strconv.digitsValue]. rewrite Ha, Hb. unfold digits2. f_equal; lia.
Qed.

Lemma atoi_two (a b : ascii) :
  isDigit a = true -> isDigit b = true ->
  time.atoi (String a (String b "")) = Some (digits2 a b).
Proof.
  intros Ha Hb. pose proof (digits2_range a b Ha Hb).
  destruct (numeral_two a b Ha Hb) as [Hd Hv].
  pose proof (leadingInt_numeral _ _ Hd Hv "" ltac:(lia) eq_refl) as Hl.
  cbn [append] in Hl. rewrite (atoi_digit_first a _ Ha), Hl.
  rewrite wrap64_small by (unfold minInt64, maxInt64; lia). reflexivity.
Qed.

(** The instant that [time.Parse] builds from the fields it has read. *)
Lemma Parse_of_chunks (l : time.layout) (value : string) (f : time.fields) :
  time.parseChunks l time.noFields value = Some f ->
  1 <= time.f_month f <= 12 ->
  1 <= time.f_day f <= time.daysIn (time.f_month f) (time.f_year f) ->
  time.f_nsec f = 0 ->
  time.Parse l value
  = Some (time.Date (time.f_year f) (time.f_month f) (time.f_day f)
            (time.f_hour f) (time.f_min f) (time.f_sec f) 0 time.UTC).
Proof.
  intros Hc Hm Hd Hn. unfold time.Parse. rewrite Hc.
  assert (E1 : (time.f_month f <? 0) = false) by (apply Z.ltb_ge; lia).
  assert (E2 : (time.f_day f <? 0) = false) by (apply Z.ltb_ge; lia).
  assert (E3 : (time.f_day f <? 1) = false) by (apply Z.ltb_ge; lia).
  assert (E4 : (time.daysIn (time.f_month f) (time.f_year f) <? time.f_day f)
               = false) by (apply Z.ltb_ge; lia).
  now rewrite E1, E2, E3, E4, Hn.
Qed.

Lemma Parse_no_chunks (l : time.layout) (value : string) :
  time.parseChunks l time.noFields value = None -> time.Parse l value = None.
Proof. intros H. unfold time.Parse. now rewrite H. Qed.

(** A numeral followed by a hyphen and a digit: no duration, and
    nothing the steps of [ParseTime] before the layouts act on. *)
Section DashTail.

Variable d : string.
Variable v : Z.
Hypothesis d_digits : digitString d = true.
Hypothesis d_value : strconv.digitsValue 0 d = Some v.
Hypothesis v_small : v <= 9999.

Variable b : ascii.
Variable r : string.
Hypothesis b_digit : isDigit b = true.
Hypothesis tail_trimmed :
  strings.trimRight (String "-" (String b r)) = String "-" (String b r).
Hypothesis tail_no_a : hasByte "a" (String "-" (String b r)) = false.
Hypothesis tail_normal : allBytes durationByte (String "-" (String b r)) = true.

Lemma dash_duration :
  time.ParseDuration (d ++ String "-" (String b r)) = None.
Proof.
  pose proof (leadingInt_numeral d v d_digits d_value (String "-" (String b r))
                ltac:(lia) eq_refl) as Hlead.
  pose proof (numeral_digits d d_digits) as Hdig.
  pose proof (numeral_len d v d_digits d_value) as Hlen.
  destruct d as [| a t] eqn:E; [discriminate d_digits |].
  cbn [allBytes] in Hdig. apply andb_true_iff in Hdig as [Ha _].
  cbn [append] in *. rewrite (ParseDuration_digit_first a _ Ha).
  assert (Hz : String.eqb (String a (t ++ String "-" (String b r))) "0" = false).
  { cbn [String.eqb]. destruct (Ascii.eqb a "0"); [| reflexivity].
    now destruct t. }
  rewrite Hz. cbn [String.length time.durationGroups].
  unfold time.durationGroup. rewrite Ha, orb_true_r. cbn [negb].
  rewrite Hlead.
  assert (Hpre : (len (String a (t ++ String "-" (String b r)))
                  =? len (String "-" (String b r))) = false).
  { apply Z.eqb_neq. change (String a (t ++ String "-" (String b r)))
      with (String a t ++ String "-" (String b r)).
    rewrite len_append. lia. }
  rewrite Hpre. cbn [time.fractionPart negb andb].
  change (code "-" =? 46) with false. cbv beta iota zeta.
  cbn [time.unitRun].
  change (code "-" =? 46) with false. change (isDigit "-") with false.
  cbn [orb]. rewrite b_digit, orb_true_r. reflexivity.
Qed.

Lemma dash_plain (now start : time.Time) :
  ParseTime (d ++ String "-" (String b r)) now start
  = parseLayouts (d ++ String "-" (String b r)) now.
Proof.
  pose proof dash_duration as Hdur.
  set (k := String "-" (String b r)) in *.
  rewrite (ParseTime_numeral_front d v d_digits d_value k now start);
    [| discriminate | reflexivity | exact tail_trimmed].
  unfold ParseTime_rest.
  assert (Hago : strings.Contains (d ++ k) " ago" = false).
  { unfold strings.Contains.
    rewrite (Index_absent "a" " ago" (d ++ k) eq_refl); [reflexivity |].
    rewrite hasByte_append, tail_no_a.
    now rewrite (numeral_absent d d_digits "a" eq_refl). }
  rewrite Hago.
  rewrite convertCustomUnits_normalForm
    by (unfold normalForm; rewrite allBytes_append, tail_normal, andb_true_r;
        exact (digits_normalForm d (numeral_digits d d_digits))).
  rewrite (HasPrefix_front d "+" (numeral_absent d d_digits "+" eq_refl))
    by exact (numeral_nonempty d v d_digits d_value).
  rewrite (HasPrefix_front d "-" (numeral_absent d d_digits "-" eq_refl))
    by exact (numeral_nonempty d v d_digits d_value).
  now rewrite Hdur.
Qed.

End DashTail.

(** The month and the day, and the time of day, as the layouts read
    them. *)
Section Tails.

Variables b1 b2 c1 c2 : ascii.
Hypothesis Hb1 : isDigit b1 = true.
Hypothesis Hb2 : isDigit b2 = true.
Hypothesis Hc1 : isDigit c1 = true.
Hypothesis Hc2 : isDigit c2 = true.

Lemma dateTail_chunks (l : time.layout) (f : time.fields) (rest : string) :
  1 <= digits2 b1 b2 <= 12 ->
  time.parseChunks
    (time.lit "-" :: time.stdZeroMonth :: time.lit "-" :: time.stdZeroDay :: l)
    f (dateTail b1 b2 c1 c2 rest)
  = time.parseChunks l
      {| time.f_year := time.f_year f; time.f_month := digits2 b1 b2;
         time.f_day := digits2 c1 c2; time.f_hour := time.f_hour f;
         time.f_min := time.f_min f; time.f_sec := time.f_sec f;
         time.f_nsec := time.f_nsec f |}
      rest.
Proof.
  intros Hm. unfold dateTail.
  rewrite parseChunks_cons. cbn [time.parseChunk time.skip Ascii.eqb Bool.eqb].
  rewrite parseChunks_cons. cbn [time.parseChunk time.getnum].
  rewrite Hb1, Hb2. fold (digits2 b1 b2).
  assert (Hmr : (digits2 b1 b2 <=? 0) || (12 <? digits2 b1 b2) = false)
    by (apply orb_false_iff; split; [apply Z.leb_gt | apply Z.ltb_ge]; lia).
  rewrite Hmr.
  rewrite parseChunks_cons. cbn [time.parseChunk time.skip Ascii.eqb Bool.eqb].
  rewrite parseChunks_cons. cbn [time.parseChunk time.getnum].
  rewrite Hc1, Hc2. fold (digits2 c1 c2).
  cbn [time.f_year time.f_month time.f_day time.f_hour time.f_min time.f_sec
       time.f_nsec].
  reflexivity.
Qed.

Lemma dateTail_shape (rest : string) :
  strings.trimRight rest = rest -> hasByte "a" rest = false ->
  allBytes durationByte rest = true ->
  strings.trimRight (dateTail b1 b2 c1 c2 rest) = dateTail b1 b2 c1 c2 rest
  /\ hasByte "a" (dateTail b1 b2 c1 c2 rest) = false
  /\ allBytes durationByte (dateTail b1 b2 c1 c2 rest) = true.
Proof.
  intros Ht Ha Hn.
  destruct (digit_not_punct b1 Hb1) as (_ & _ & _ & Ea1 & _).
  destruct (digit_not_punct b2 Hb2) as (_ & _ & _ & Ea2 & _).
  destruct (digit_not_punct c1 Hc1) as (_ & _ & _ & Ea3 & _).
  destruct (digit_not_punct c2 Hc2) as (_ & _ & _ & Ea4 & _).
  split; [| split].
  - change (dateTail b1 b2 c1 c2 rest)
      with (dateTail b1 b2 c1 c2 "" ++ rest).
    apply trimRight_after; [| exact Ht]. unfold dateTail. cbn [allBytes].
    now rewrite (digit_not_space b1 Hb1), (digit_not_space b2 Hb2),
      (digit_not_space c1 Hc1), (digit_not_space c2 Hc2).
  - unfold dateTail. cbn [hasByte]. now rewrite Ea1, Ea2, Ea3, Ea4, Ha.
  - unfold dateTail. cbn [allBytes]. unfold durationByte at 1 2 3 4 5 6.
    rewrite (digit_not_letter b1 Hb1), (digit_not_letter b2 Hb2),
      (digit_not_letter c1 Hc1), (digit_not_letter c2 Hc2), Hn. reflexivity.
Qed.

Variables h1 h2 m1 m2 s1 s2 : ascii.
Hypothesis Hh1 : isDigit h1 = true.
Hypothesis Hh2 : isDigit h2 = true.
Hypothesis Hm1 : isDigit m1 = true.
Hypothesis Hm2 : isDigit m2 = true.
Hypothesis Hs1 : isDigit s1 = true.
Hypothesis Hs2 : isDigit s2 = true.

Lemma clockTail_chunks (f : time.fields) :
  digits2 h1 h2 < 24 -> digits2 m1 m2 < 60 -> digits2 s1 s2 < 60 ->
  time.parseChunks
    [time.lit " "; time.stdHour; time.lit ":"; time.stdZeroMinute;
     time.lit ":"; time.stdZeroSecond]
    f (clockTail h1 h2 m1 m2 s1 s2)
  = Some {| time.f_year := time.f_year f; time.f_month := time.f_month f;
            time.f_day := time.f_day f; time.f_hour := digits2 h1 h2;
            time.f_min := digits2 m1 m2; time.f_sec := digits2 s1 s2;
            time.f_nsec := time.f_nsec f |}.
Proof.
  intros Hh Hm Hs.
  pose proof (digits2_range h1 h2 Hh1 Hh2).
  pose proof (digits2_range m1 m2 Hm1 Hm2).
  pose proof (digits2_range s1 s2 Hs1 Hs2).
  unfold clockTail.
  rewrite parseChunks_cons.
  cbn [time.parseChunk time.skip Ascii.eqb Bool.eqb].
  rewrite cutspace_space, (cutspace_digit h1 _ Hh1). cbn [time.skip].
  rewrite parseChunks_cons. cbn [time.parseChunk time.getnum].
  rewrite Hh1, Hh2. fold (digits2 h1 h2).
  assert (E1 : (digits2 h1 h2 <? 0) || (24 <=? digits2 h1 h2) = false)
    by (apply orb_false_iff; split; [apply Z.ltb_ge | apply Z.leb_gt]; lia).
  rewrite E1.
  rewrite parseChunks_cons. cbn [time.parseChunk time.skip Ascii.eqb Bool.eqb].
  rewrite parseChunks_cons. cbn [time.parseChunk time.getnum].
  rewrite Hm1, Hm2. fold (digits2 m1 m2).
  assert (E2 : (digits2 m1 m2 <? 0) || (60 <=? digits2 m1 m2) = false)
    by (apply orb_false_iff; split; [apply Z.ltb_ge | apply Z.leb_gt]; lia).
  rewrite E2.
  rewrite parseChunks_cons. cbn [time.parseChunk time.skip Ascii.eqb Bool.eqb].
  rewrite parseChunks_cons. cbn [time.parseChunk time.getnum].
  rewrite Hs1, Hs2. fold (digits2 s1 s2).
  assert (E3 : (digits2 s1 s2 <? 0) || (60 <=? digits2 s1 s2) = false)
    by (apply orb_false_iff; split; [apply Z.ltb_ge | apply Z.leb_gt]; lia).
  rewrite E3.
  cbn [time.parseChunks isEmpty time.f_year time.f_month time.f_day time.f_hour
       time.f_min time.f_sec time.f_nsec].
  reflexivity.
Qed.

Lemma clockTail_shape :
  strings.trimRight (clockTail h1 h2 m1 m2 s1 s2) = clockTail h1 h2 m1 m2 s1 s2
  /\ hasByte "a" (clockTail h1 h2 m1 m2 s1 s2) = false
  /\ allBytes durationByte (clockTail h1 h2 m1 m2 s1 s2) = true.
Proof.
  destruct (digit_not_punct h1 Hh1) as (_ & _ & _ & Ea1 & _).
  destruct (digit_not_punct h2 Hh2) as (_ & _ & _ & Ea2 & _).
  destruct (digit_not_punct m1 Hm1) as (_ & _ & _ & Ea3 & _).
  destruct (digit_not_punct m2 Hm2) as (_ & _ & _ & Ea4 & _).
  destruct (digit_not_punct s1 Hs1) as (_ & _ & _ & Ea5 & _).
  destruct (digit_not_punct s2 Hs2) as (_ & _ & _ & Ea6 & _).
  split; [| split].
  - unfold clockTail. cbn [strings.trimRight].
    rewrite (digit_not_space h1 Hh1), (digit_not_space h2 Hh2),
      (digit_not_space m1 Hm1), (digit_not_space m2 Hm2),
      (digit_not_space s1 Hs1), (digit_not_space s2 Hs2).
    reflexivity.
  - unfold clockTail. cbn [hasByte].
    now rewrite Ea1, Ea2, Ea3, Ea4, Ea5, Ea6.
  - unfold clockTail. cbn [allBytes].
    unfold durationByte at 1 2 3 4 5 6 7 8 9.
    rewrite (digit_not_letter h1 Hh1), (digit_not_letter h2 Hh2),
      (digit_not_letter m1 Hm1), (digit_not_letter m2 Hm2),
      (digit_not_letter s1 Hs1), (digit_not_letter s2 Hs2). reflexivity.
Qed.

End Tails.

Ltac fields_simpl H :=
  cbn [time.f_year time.f_month time.f_day time.f_hour time.f_min time.f_sec
       time.f_nsec time.noFields] in H.

(** The layouts on a text that begins with a year, a month and a day;
    [rest] is empty or a time of day. *)
Section DateText.

Variables b1 b2 c1 c2 : ascii.
Hypothesis Hb1 : isDigit b1 = true.
Hypothesis Hb2 : isDigit b2 = true.
Hypothesis Hc1 : isDigit c1 = true.
Hypothesis Hc2 : isDigit c2 = true.
Hypothesis month_range : 1 <= digits2 b1 b2 <= 12.

Variable rest : string.
Hypothesis rest_trimmed : strings.trimRight rest = rest.
Hypothesis rest_no_a : hasByte "a" rest = false.
Hypothesis rest_normal : allBytes durationByte rest = true.

Section ShortYear.

Variables a1 a2 : ascii.
Hypothesis Ha1 : isDigit a1 = true.
Hypothesis Ha2 : isDigit a2 = true.

Lemma shortText_plain (now start : time.Time) :
  ParseTime (shortText a1 a2 b1 b2 c1 c2 rest) now start
  = parseLayouts (shortText a1 a2 b1 b2 c1 c2 rest) now.
Proof.
  destruct (numeral_two a1 a2 Ha1 Ha2) as [Hd Hv].
  pose proof (digits2_range a1 a2 Ha1 Ha2).
  destruct (dateTail_shape b1 b2 c1 c2 Hb1 Hb2 Hc1 Hc2 rest rest_trimmed
              rest_no_a rest_normal) as (Ht & Ha & Hn).
  exact (dash_plain _ _ Hd Hv ltac:(lia) b1 _ Hb1 Ht Ha Hn now start).
Qed.

Lemma shortText_clock :
  time.Parse time.layoutClock (shortText a1 a2 b1 b2 c1 c2 rest) = None.
Proof.
  unfold time.Parse, time.layoutClock, shortText, dateTail.
  rewrite parseChunks_cons. cbn [time.parseChunk time.getnum].
  rewrite Ha1, Ha2. destruct ((_ <? 0) || _); reflexivity.
Qed.

Lemma shortText_chunks (l : time.layout) :
  time.parseChunks
    (time.stdYear :: time.lit "-" :: time.stdZeroMonth :: time.lit "-"
     :: time.stdZeroDay :: l) time.noFields
    (shortText a1 a2 b1 b2 c1 c2 rest)
  = time.parseChunks l
      {| time.f_year := shortYear (digits2 a1 a2);
         time.f_month := digits2 b1 b2; time.f_day := digits2 c1 c2;
         time.f_hour := 0; time.f_min := 0; time.f_sec := 0; time.f_nsec := 0 |}
      rest.
Proof.
  unfold shortText. rewrite parseChunks_cons. cbn [time.parseChunk].
  rewrite len_two. cbv iota.
  change (sliceTo (String a1 (String a2 (dateTail b1 b2 c1 c2 rest))) 2)
    with (String a1 (String a2 "")).
  change (sliceFrom (String a1 (String a2 (dateTail b1 b2 c1 c2 rest))) 2)
    with (dateTail b1 b2 c1 c2 rest).
  rewrite (atoi_two a1 a2 Ha1 Ha2).
  rewrite (dateTail_chunks b1 b2 c1 c2 Hb1 Hb2 Hc1 Hc2 l _ rest month_range).
  reflexivity.
Qed.

Lemma shortText_longYear (l : time.layout) :
  time.parseChunks (time.stdLongYear :: l) time.noFields
    (shortText a1 a2 b1 b2 c1 c2 rest)
  = None.
Proof.
  unfold shortText, dateTail. rewrite parseChunks_cons. cbn [time.parseChunk].
  rewrite len_four, Ha1. cbn [negb orb].
  change (sliceTo (String a1 (String a2 (String "-" (String b1 ?r)))) 4)
    with (String a1 (String a2 (String "-" (String b1 "")))).
  rewrite (atoi_digit_first a1 _ Ha1).
  destruct (numeral_two a1 a2 Ha1 Ha2) as [Hd Hv].
  pose proof (digits2_range a1 a2 Ha1 Ha2).
  pose proof (leadingInt_numeral _ _ Hd Hv (String "-" (String b1 ""))
                ltac:(lia) eq_refl) as Hl.
  cbn [append] in Hl. now rewrite Hl.
Qed.

End ShortYear.

Section LongYear.

Variables a1 a2 a3 a4 : ascii.
Hypothesis Ha1 : isDigit a1 = true.
Hypothesis Ha2 : isDigit a2 = true.
Hypothesis Ha3 : isDigit a3 = true.
Hypothesis Ha4 : isDigit a4 = true.

Lemma numeral_four :
  digitString (String a1 (String a2 (String a3 (String a4 "")))) = true
  /\ strconv.digitsValue 0 (String a1 (String a2 (String a3 (String a4 ""))))
     = Some (digits4 a1 a2 a3 a4)
  /\ 0 <= digits4 a1 a2 a3 a4 <= 9999.
Proof.
  pose proof (digitVal_range a1 Ha1). pose proof (digitVal_range a2 Ha2).
  pose proof (digitVal_range a3 Ha3). pose proof (digitVal_range a4 Ha4).
  split; [| split].
  - unfold digitString. cbn [isEmpty negb allBytes].
    now rewrite Ha1, Ha2, Ha3, Ha4.
  - cbn [strconv.digitsValue]. rewrite Ha1, Ha2, Ha3, Ha4. unfold digits4.
    f_equal; lia.
  - unfold digits4. lia.
Qed.

Lemma longText_plain (now start : time.Time) :
  ParseTime (longText a1 a2 a3 a4 b1 b2 c1 c2 rest) now start
  = parseLayouts (longText a1 a2 a3 a4 b1 b2 c1 c2 rest) now.
Proof.
  destruct numeral_four as (Hd & Hv & Hy).
  destruct (dateTail_shape b1 b2 c1 c2 Hb1 Hb2 Hc1 Hc2 rest rest_trimmed
              rest_no_a rest_normal) as (Ht & Ha & Hn).
  exact (dash_plain _ _ Hd Hv ltac:(lia) b1 _ Hb1 Ht Ha Hn now start).
Qed.

Lemma longText_clock :
  time.Parse time.layoutClock (longText a1 a2 a3 a4 b1 b2 c1 c2 rest) = None.
Proof.
  unfold time.Parse, time.layoutClock, longText.
  rewrite parseChunks_cons. cbn [time.parseChunk time.getnum].
  rewrite Ha1, Ha2. destruct ((_ <? 0) || _); [reflexivity |].
  rewrite parseChunks_cons. cbn [time.parseChunk time.skip].
  destruct (digit_not_punct a3 Ha3) as (E & _). now rewrite E.
Qed.

Lemma longText_shortYear (l : time.layout) :
  time.parseChunks (time.stdYear :: time.lit "-" :: l) time.noFields
    (longText a1 a2 a3 a4 b1 b2 c1 c2 rest)
  = None.
Proof.
  unfold longText. rewrite parseChunks_cons. cbn [time.parseChunk].
  rewrite len_two. cbv iota.
  change (sliceTo (String a1 (String a2 ?r)) 2) with (String a1 (String a2 "")).
  change (sliceFrom (String a1 (String a2 ?r)) 2) with r.
  rewrite (atoi_two a1 a2 Ha1 Ha2).
  rewrite parseChunks_cons. cbn [time.parseChunk time.skip].
  destruct (digit_not_punct a3 Ha3) as (_ & E & _). now rewrite E.
Qed.

Lemma longText_chunks (l : time.layout) :
  time.parseChunks
    (time.stdLongYear :: time.lit "-" :: time.stdZeroMonth :: time.lit "-"
     :: time.stdZeroDay :: l) time.noFields
    (longText a1 a2 a3 a4 b1 b2 c1 c2 rest)
  = time.parseChunks l
      {| time.f_year := digits4 a1 a2 a3 a4;
         time.f_month := digits2 b1 b2; time.f_day := digits2 c1 c2;
         time.f_hour := 0; time.f_min := 0; time.f_sec := 0; time.f_nsec := 0 |}
      rest.
Proof.
  destruct numeral_four as (Hd & Hv & Hy).
  unfold longText. rewrite parseChunks_cons. cbn [time.parseChunk].
  rewrite len_four, Ha1. cbn [negb orb].
  change (sliceTo (String a1 (String a2 (String a3 (String a4 ?r)))) 4)
    with (String a1 (String a2 (String a3 (String a4 "")))).
  change (sliceFrom (String a1 (String a2 (String a3 (String a4 ?r)))) 4) with r.
  rewrite (atoi_digit_first a1 _ Ha1).
  pose proof (leadingInt_numeral _ _ Hd Hv "" ltac:(lia) eq_refl) as Hl.
  cbn [append] in Hl. rewrite Hl.
  rewrite wrap64_small by (unfold minInt64, maxInt64; lia).
  rewrite (dateTail_chunks b1 b2 c1 c2 Hb1 Hb2 Hc1 Hc2 l _ rest month_range).
  reflexivity.
Qed.

End LongYear.

End DateText.

(** The four calendar texts, byte by byte. *)
Section CalendarTexts.

Variables b1 b2 c1 c2 : ascii.
Hypothesis Hb1 : isDigit b1 = true.
Hypothesis Hb2 : isDigit b2 = true.
Hypothesis Hc1 : isDigit c1 = true.
Hypothesis Hc2 : isDigit c2 = true.
Hypothesis month_range : 1 <= digits2 b1 b2 <= 12.

Variables h1 h2 m1 m2 s1 s2 : ascii.
Hypothesis Hh1 : isDigit h1 = true.
Hypothesis Hh2 : isDigit h2 = true.
Hypothesis Hm1 : isDigit m1 = true.
Hypothesis Hm2 : isDigit m2 = true.
Hypothesis Hs1 : isDigit s1 = true.
Hypothesis Hs2 : isDigit s2 = true.
Hypothesis hour_range : digits2 h1 h2 < 24.
Hypothesis min_range : digits2 m1 m2 < 60.
Hypothesis sec_range : digits2 s1 s2 < 60.

Lemma ParseTime_shortText_date (a1 a2 : ascii) (now start : time.Time) :
  isDigit a1 = true -> isDigit a2 = true ->
  1 <= digits2 c1 c2
    <= time.daysIn (digits2 b1 b2) (shortYear (digits2 a1 a2)) ->
  ParseTime (shortText a1 a2 b1 b2 c1 c2 "") now start
  = Ok (time.Date (shortYear (digits2 a1 a2)) (digits2 b1 b2) (digits2 c1 c2)
          0 0 0 0 time.UTC).
Proof.
  intros Ha1 Ha2 Hd.
  rewrite (shortText_plain b1 b2 c1 c2 Hb1 Hb2 Hc1 Hc2 "" eq_refl eq_refl
             eq_refl a1 a2 Ha1 Ha2).
  unfold parseLayouts. rewrite (shortText_clock b1 b2 c1 c2 "" a1 a2 Ha1 Ha2).
  pose proof (shortText_chunks b1 b2 c1 c2 Hb1 Hb2 Hc1 Hc2 month_range "" a1 a2
                Ha1 Ha2 []) as Hch.
  rewrite parseChunks_nil in Hch. cbn [isEmpty] in Hch.
  now rewrite (Parse_of_chunks time.layoutShortDate _ _ Hch month_range Hd eq_refl).
Qed.

Lemma ParseTime_shortText_dateTime (a1 a2 : ascii) (now start : time.Time) :
  isDigit a1 = true -> isDigit a2 = true ->
  1 <= digits2 c1 c2
    <= time.daysIn (digits2 b1 b2) (shortYear (digits2 a1 a2)) ->
  ParseTime (shortText a1 a2 b1 b2 c1 c2 (clockTail h1 h2 m1 m2 s1 s2)) now start
  = Ok (time.Date (shortYear (digits2 a1 a2)) (digits2 b1 b2) (digits2 c1 c2)
          (digits2 h1 h2) (digits2 m1 m2) (digits2 s1 s2) 0 time.UTC).
Proof.
  intros Ha1 Ha2 Hd.
  destruct (clockTail_shape h1 h2 m1 m2 s1 s2 Hh1 Hh2 Hm1 Hm2 Hs1 Hs2)
    as (Ht & Ha & Hn).
  rewrite (shortText_plain b1 b2 c1 c2 Hb1 Hb2 Hc1 Hc2 _ Ht Ha Hn a1 a2 Ha1 Ha2).
  unfold parseLayouts. rewrite (shortText_clock b1 b2 c1 c2 _ a1 a2 Ha1 Ha2).
  pose proof (shortText_chunks b1 b2 c1 c2 Hb1 Hb2 Hc1 Hc2 month_range
                (clockTail h1 h2 m1 m2 s1 s2) a1 a2 Ha1 Ha2) as Hch.
  pose proof (Hch []) as Hdate. rewrite parseChunks_nil in Hdate.
  change (isEmpty (clockTail h1 h2 m1 m2 s1 s2)) with false in Hdate.
  rewrite (Parse_no_chunks time.layoutShortDate _ Hdate).
  rewrite (Parse_no_chunks time.layoutDate _
             (shortText_longYear b1 b2 c1 c2 _ a1 a2 Ha1 Ha2 _)).
  specialize (Hch [time.lit " "; time.stdHour; time.lit ":";
                   time.stdZeroMinute; time.lit ":"; time.stdZeroSecond]).
  rewrite (clockTail_chunks h1 h2 m1 m2 s1 s2 Hh1 Hh2 Hm1 Hm2 Hs1 Hs2 _
             hour_range min_range sec_range) in Hch.
  fields_simpl Hch.
  now rewrite (Parse_of_chunks time.layoutShortDateTime _ _ Hch month_range Hd eq_refl).
Qed.

Lemma ParseTime_longText_date (a1 a2 a3 a4 : ascii) (now start : time.Time) :
  isDigit a1 = true -> isDigit a2 = true -> isDigit a3 = true ->
  isDigit a4 = true ->
  1 <= digits2 c1 c2 <= time.daysIn (digits2 b1 b2) (digits4 a1 a2 a3 a4) ->
  ParseTime (longText a1 a2 a3 a4 b1 b2 c1 c2 "") now start
  = Ok (time.Date (digits4 a1 a2 a3 a4) (digits2 b1 b2) (digits2 c1 c2)
          0 0 0 0 time.UTC).
Proof.
  intros Ha1 Ha2 Ha3 Ha4 Hd.
  rewrite (longText_plain b1 b2 c1 c2 Hb1 Hb2 Hc1 Hc2 "" eq_refl eq_refl
             eq_refl a1 a2 a3 a4 Ha1 Ha2 Ha3 Ha4).
  unfold parseLayouts.
  rewrite (longText_clock b1 b2 c1 c2 "" a1 a2 a3 a4 Ha1 Ha2 Ha3).
  rewrite (Parse_no_chunks time.layoutShortDate _
             (longText_shortYear b1 b2 c1 c2 "" a1 a2 a3 a4 Ha1 Ha2 Ha3 _)).
  pose proof (longText_chunks b1 b2 c1 c2 Hb1 Hb2 Hc1 Hc2 month_range "" a1 a2
                a3 a4 Ha1 Ha2 Ha3 Ha4 []) as Hch.
  rewrite parseChunks_nil in Hch. cbn [isEmpty] in Hch.
  now rewrite (Parse_of_chunks time.layoutDate _ _ Hch month_range Hd eq_refl).
Qed.

Lemma ParseTime_longText_dateTime (a1 a2 a3 a4 : ascii)
  (now start : time.Time) :
  isDigit a1 = true -> isDigit a2 = true -> isDigit a3 = true ->
  isDigit a4 = true ->
  1 <= digits2 c1 c2 <= time.daysIn (digits2 b1 b2) (digits4 a1 a2 a3 a4) ->
  ParseTime (longText a1 a2 a3 a4 b1 b2 c1 c2 (clockTail h1 h2 m1 m2 s1 s2))
    now start
  = Ok (time.Date (digits4 a1 a2 a3 a4) (digits2 b1 b2) (digits2 c1 c2)
          (digits2 h1 h2) (digits2 m1 m2) (digits2 s1 s2) 0 time.UTC).
Proof.
  intros Ha1 Ha2 Ha3 Ha4 Hd.
  destruct (clockTail_shape h1 h2 m1 m2 s1 s2 Hh1 Hh2 Hm1 Hm2 Hs1 Hs2)
    as (Ht & Ha & Hn).
  rewrite (longText_plain b1 b2 c1 c2 Hb1 Hb2 Hc1 Hc2 _ Ht Ha Hn a1 a2 a3 a4
             Ha1 Ha2 Ha3 Ha4).
  unfold parseLayouts.
  rewrite (longText_clock b1 b2 c1 c2 _ a1 a2 a3 a4 Ha1 Ha2 Ha3).
  rewrite (Parse_no_chunks time.layoutShortDate _
             (longText_shortYear b1 b2 c1 c2 _ a1 a2 a3 a4 Ha1 Ha2 Ha3 _)).
  pose proof (longText_chunks b1 b2 c1 c2 Hb1 Hb2 Hc1 Hc2 month_range
                (clockTail h1 h2 m1 m2 s1 s2) a1 a2 a3 a4 Ha1 Ha2 Ha3 Ha4)
    as Hch.
  pose proof (Hch []) as Hdate. rewrite parseChunks_nil in Hdate.
  change (isEmpty (clockTail h1 h2 m1 m2 s1 s2)) with false in Hdate.
  rewrite (Parse_no_chunks time.layoutDate _ Hdate).
  rewrite (Parse_no_chunks time.layoutShortDateTime _
             (longText_shortYear b1 b2 c1 c2 _ a1 a2 a3 a4 Ha1 Ha2 Ha3 _)).
  specialize (Hch [time.lit " "; time.stdHour; time.lit ":";
                   time.stdZeroMinute; time.lit ":"; time.stdZeroSecond]).
  rewrite (clockTail_chunks h1 h2 m1 m2 s1 s2 Hh1 Hh2 Hm1 Hm2 Hs1 Hs2 _
             hour_range min_range sec_range) in Hch.
  fields_simpl Hch.
  now rewrite (Parse_of_chunks time.layoutDateTime _ _ Hch month_range Hd eq_refl).
Qed.

End CalendarTexts.

Lemma pad4_digits (year : Z) :
  0 <= year <= 9999 ->
  exists a1 a2 a3 a4,
    pad4 year = String a1 (String a2 (String a3 (String a4 "")))
    /\ isDigit a1 = true /\ isDigit a2 = true /\ isDigit a3 = true
    /\ isDigit a4 = true /\ digits4 a1 a2 a3 a4 = year.
Proof.
  intros Hy.
  assert (Hq : 0 <= year / 100 < 100)
    by (pose proof (Z.div_mod year 100 ltac:(lia));
        pose proof (Z.mod_pos_bound year 100 ltac:(lia)); lia).
  destruct (pad2_digits (year / 100) Hq) as (a1 & a2 & E12 & Ha1 & Ha2 & V12).
  destruct (pad2_digits (year mod 100) (Z.mod_pos_bound year 100 ltac:(lia)))
    as (a3 & a4 & E34 & Ha3 & Ha4 & V34).
  exists a1, a2, a3, a4. unfold pad4. rewrite E12, E34.
  repeat split; try assumption.
  unfold digits4, digits2 in *.
  pose proof (Z.div_mod year 100 ltac:(lia)). lia.
Qed.

Lemma clockText_digits (hour min sec : Z) :
  0 <= hour < 24 -> 0 <= min < 60 -> 0 <= sec < 60 ->
  exists h1 h2 m1 m2 s1 s2,
    " " ++ clockText hour min sec = clockTail h1 h2 m1 m2 s1 s2
    /\ isDigit h1 = true /\ isDigit h2 = true /\ isDigit m1 = true
    /\ isDigit m2 = true /\ isDigit s1 = true /\ isDigit s2 = true
    /\ digits2 h1 h2 = hour /\ digits2 m1 m2 = min /\ digits2 s1 s2 = sec.
Proof.
  intros Hh Hm Hs.
  destruct (pad2_digits hour ltac:(lia)) as (h1 & h2 & Eh & Hh1 & Hh2 & Vh).
  destruct (pad2_digits min ltac:(lia)) as (m1 & m2 & Em & Hm1 & Hm2 & Vm).
  destruct (pad2_digits sec ltac:(lia)) as (s1 & s2 & Es & Hs1 & Hs2 & Vs).
  exists h1, h2, m1, m2, s1, s2. unfold clockText. rewrite Eh, Em, Es.
  repeat split; assumption.
Qed.

(** X24.  A date with a four-digit year.  The text YYYY-MM-DD resolves
    to the first instant of that day in UTC, whatever [now] and
    [startTime] are. *)
Theorem ParseTime_long_date (year month day : Z) (now start : time.Time) :
  0 <= year <= 9999 -> 1 <= month <= 12 ->
  1 <= day <= time.daysIn month year ->
  ParseTime (longDate year month day) now start
  = Ok (time.Date year month day 0 0 0 0 time.UTC).
Proof.
  intros Hy Hm Hd. pose proof (daysIn_bound month year Hm).
  destruct (pad4_digits year Hy)
    as (a1 & a2 & a3 & a4 & Ea & Ha1 & Ha2 & Ha3 & Ha4 & Va).
  destruct (pad2_digits month ltac:(lia)) as (b1 & b2 & Eb & Hb1 & Hb2 & Vb).
  destruct (pad2_digits day ltac:(lia)) as (c1 & c2 & Ec & Hc1 & Hc2 & Vc).
  unfold longDate. rewrite Ea, Eb, Ec. rewrite <- Va, <- Vb, <- Vc.
  apply (ParseTime_longText_date b1 b2 c1 c2 Hb1 Hb2 Hc1 Hc2);
    try assumption; rewrite ?Va, ?Vb, ?Vc; lia.
Qed.

Lemma ParseTime_long_date_witness :
  ParseTime "2024-02-29" fixedTime time.zero
  = Ok (time.Date 2024 2 29 0 0 0 0 time.UTC).
Proof.
  refine (ParseTime_long_date 2024 2 29 fixedTime time.zero _ _ _).
  - lia.
  - lia.
  - vm_compute. split; discriminate.
Defined.

(** X25.  A date with a two-digit year.  The text YY-MM-DD resolves to
    the first instant of that day in UTC; the years from 69 on are of the
    1900s, the others of the 2000s. *)
Theorem ParseTime_short_date (yy month day : Z) (now start : time.Time) :
  0 <= yy <= 99 -> 1 <= month <= 12 ->
  1 <= day <= time.daysIn month (shortYear yy) ->
  ParseTime (shortDate yy month day) now start
  = Ok (time.Date (shortYear yy) month day 0 0 0 0 time.UTC).
Proof.
  intros Hy Hm Hd. pose proof (daysIn_bound month (shortYear yy) Hm).
  destruct (pad2_digits yy ltac:(lia)) as (a1 & a2 & Ea & Ha1 & Ha2 & Va).
  destruct (pad2_digits month ltac:(lia)) as (b1 & b2 & Eb & Hb1 & Hb2 & Vb).
  destruct (pad2_digits day ltac:(lia)) as (c1 & c2 & Ec & Hc1 & Hc2 & Vc).
  unfold shortDate. rewrite Ea, Eb, Ec. rewrite <- Va, <- Vb, <- Vc.
  apply (ParseTime_shortText_date b1 b2 c1 c2 Hb1 Hb2 Hc1 Hc2);
    try assumption; rewrite ?Va, ?Vb, ?Vc; lia.
Qed.

Lemma ParseTime_short_date_witness :
  ParseTime "69-07-20" fixedTime time.zero
  = Ok (time.Date 1969 7 20 0 0 0 0 time.UTC).
Proof.
  refine (ParseTime_short_date 69 7 20 fixedTime time.zero _ _ _).
  - lia.
  - lia.
  - vm_compute. split; discriminate.
Defined.

(** X26.  A date and a time of day.  The texts YYYY-MM-DD HH:MM:SS and
    YY-MM-DD HH:MM:SS resolve to that second of that day in UTC. *)
Theorem ParseTime_date_time (month day hour min sec : Z)
  (now start : time.Time) :
  1 <= month <= 12 -> 0 <= hour < 24 -> 0 <= min < 60 -> 0 <= sec < 60 ->
  (forall year,
      0 <= year <= 9999 -> 1 <= day <= time.daysIn month year ->
      ParseTime (longDate year month day ++ " " ++ clockText hour min sec)
        now start
      = Ok (time.Date year month day hour min sec 0 time.UTC))
  /\ (forall yy,
        0 <= yy <= 99 -> 1 <= day <= time.daysIn month (shortYear yy) ->
        ParseTime (shortDate yy month day ++ " " ++ clockText hour min sec)
          now start
        = Ok (time.Date (shortYear yy) month day hour min sec 0 time.UTC)).
Proof.
  intros Hm Hh Hmi Hs.
  destruct (pad2_digits month ltac:(lia)) as (b1 & b2 & Eb & Hb1 & Hb2 & Vb).
  destruct (clockText_digits hour min sec Hh Hmi Hs)
    as (h1 & h2 & m1 & m2 & s1 & s2 & Et & Hh1 & Hh2 & Hm1 & Hm2 & Hs1 & Hs2
        & Vh & Vm & Vs).
  split.
  - intros year Hy Hd. pose proof (daysIn_bound month year Hm).
    destruct (pad4_digits year Hy)
      as (a1 & a2 & a3 & a4 & Ea & Ha1 & Ha2 & Ha3 & Ha4 & Va).
    destruct (pad2_digits day ltac:(lia)) as (c1 & c2 & Ec & Hc1 & Hc2 & Vc).
    rewrite Et. unfold longDate. rewrite Ea, Eb, Ec.
    rewrite <- Va, <- Vb, <- Vc, <- Vh, <- Vm, <- Vs.
    apply (ParseTime_longText_dateTime b1 b2 c1 c2 Hb1 Hb2 Hc1 Hc2);
      try assumption; rewrite ?Va, ?Vb, ?Vc, ?Vh, ?Vm, ?Vs; lia.
  - intros yy Hy Hd. pose proof (daysIn_bound month (shortYear yy) Hm).
    destruct (pad2_digits yy ltac:(lia)) as (a1 & a2 & Ea & Ha1 & Ha2 & Va).
    destruct (pad2_digits day ltac:(lia)) as (c1 & c2 & Ec & Hc1 & Hc2 & Vc).
    rewrite Et. unfold shortDate. rewrite Ea, Eb, Ec.
    rewrite <- Va, <- Vb, <- Vc, <- Vh, <- Vm, <- Vs.
    apply (ParseTime_shortText_dateTime b1 b2 c1 c2 Hb1 Hb2 Hc1 Hc2);
      try assumption; rewrite ?Va, ?Vb, ?Vc, ?Vh, ?Vm, ?Vs; lia.
Qed.

Lemma ParseTime_date_time_witness :
  ParseTime "14-11-19 22:04:57" fixedTime time.zero
  = Ok (time.Date 2014 11 19 22 4 57 0 time.UTC).
Proof.
  refine (proj2 (ParseTime_date_time 11 19 22 4 57 fixedTime time.zero
                   _ _ _ _) 14 _ _).
  - lia.
  - lia.
  - lia.
  - lia.
  - lia.
  - vm_compute. split; discriminate.
Defined.

(** ** The second pass of the normaliser *)

Lemma Index_unfold (s sub : string) :
  strings.Index s sub
  = if strings.HasPrefix s sub then 0
    else match s with
         | "" => -1
         | String _ s' =>
             let i := strings.Index s' sub in if i <? 0 then -1 else i + 1
         end.
Proof. destruct s; reflexivity. Qed.

Lemma ReplaceFirst_unfold (s old new : string) :
  strings.ReplaceFirst s old new
  = if strings.HasPrefix s old then new ++ drop (String.length old) s
    else match s with
         | "" => ""
         | String c s' => String c (strings.ReplaceFirst s' old new)
         end.
Proof. destruct s; reflexivity. Qed.


(** The first occurrence of [sub] in [s], and the text with that
    occurrence replaced. *)
Lemma Index_first (s sub new : string) :
  0 <= strings.Index s sub ->
  exists x y,
    s = x ++ sub ++ y /\ len x = strings.Index s sub
    /\ strings.ReplaceFirst s sub new = x ++ new ++ y.
Proof.
  induction s as [| c s IH]; rewrite Index_unfold, ReplaceFirst_unfold;
    destruct (strings.HasPrefix _ sub) eqn:E.
  - intros _. exists "", (drop (String.length sub) "").
    split; [exact (HasPrefix_split _ _ E) | split; reflexivity].
  - lia.
  - intros _. exists "", (drop (String.length sub) (String c s)).
    split; [exact (HasPrefix_split _ _ E) | split; reflexivity].
  - cbv zeta. destruct (strings.Index s sub <? 0) eqn:E2; [lia |].
    apply Z.ltb_ge in E2. intros _.
    destruct (IH E2) as (x & y & Hs & Hl & Hr).
    exists (String c x), y. split; [cbn [append]; now rewrite <- Hs |].
    split; [| cbn [append]; now rewrite Hr].
    unfold len in *. cbn [String.length]. lia.
Qed.

Lemma Contains_sub (x n y core : string) :
  strings.Contains n core = true ->
  strings.Contains (x ++ n ++ y) core = true.
Proof.
  intros H. apply Z.leb_le in H.
  destruct (Index_first n core "" H) as (a & b & -> & _ & _).
  rewrite !append_assoc, <- (append_assoc x a). apply Contains_occurrence.
Qed.

Lemma unitFree_sub (x n y : string) :
  unitFree (x ++ n ++ y) = true -> unitFree n = true.
Proof.
  unfold unitFree. intros H.
  repeat (apply andb_true_iff in H as [H ?]).
  repeat match goal with
         | Hx : negb _ = true |- _ => apply negb_true_iff in Hx
         end.
  rewrite !hasByte_append in *.
  repeat match goal with
         | Hx : _ || _ = false |- _ => apply orb_false_iff in Hx as [? ?]
         end.
  repeat (apply andb_true_iff; split); apply negb_true_iff;
    try assumption;
    match goal with
    | |- strings.Contains n ?core = false =>
        destruct (strings.Contains n core) eqn:E; [| reflexivity];
        pose proof (Contains_sub x n y core E); congruence
    end.
Qed.

Lemma unitFree_suffix (a b : string) :
  unitFree (a ++ b) = true -> unitFree b = true.
Proof.
  intros H. apply (unitFree_sub a b ""). now rewrite append_empty.
Qed.

























